(** * Projection and closure-risk pipeline of the aging-map scripts

    A shallow embedding of the numeric core of
    [process_closure_risk.py], [process_cooper_center.py],
    [process_data.py] and [process_school_data.py], and the properties
    of it that the design document states.

    Conventions of the embedding.
    - A Python [int] is a [Z].  A Python [float] is read as the exact
      rational it denotes ([Q]): sums, products and quotients are exact,
      so what is proved of these modules is the arithmetic of the
      formulas, not the last bit of an IEEE-754 result.  Equalities
      between computed rationals are stated with [==].
    - Where a statement depends on a comparison of floats, on a stored
      digit or on the order of a sum, the scripts are embedded once
      more with the rounding of binary64 written out (the modules named
      [_binary64]), and the statement is made of that embedding.
    - A Python [dict] is a [gmap]; [d.get(k, v)] is [default v (d !! k)],
      [d[k]] raises [KeyError] when [k] is absent.
    - Code that can raise lives in the [result] monad below. *)

From Stdlib Require Import QArith Qround Qpower Qabs Lqa ZArith Lia Ascii.
From stdpp Require Import gmap strings list sorting pretty.

Local Open Scope Z_scope.

(** ** Exceptions and the error monad *)

(** [ValueError] is what [int()] and [float()] raise on text they cannot
    read, [KeyError] what a subscript of a missing key raises.
    [NoDataError] is the error the design document names for an empty
    year series; it is listed here so that statements can mention it. *)
Inductive exn : Type :=
| ValueError
| KeyError
| NoDataError (geography : string).

Inductive result (A : Type) : Type :=
| Ok (a : A)
| Raise (e : exn).
Arguments Ok {A} a.
Arguments Raise {A} e.

#[global] Instance result_ret : MRet result := fun _ a => Ok a.
#[global] Instance result_bind : MBind result := fun _ _ k r =>
  match r with
  | Ok a => k a
  | Raise e => Raise e
  end.

(** [d[k]] *)
Definition subscript {K A : Type} `{Countable K} (d : gmap K A) (k : K) : result A :=
  match d !! k with
  | Some a => Ok a
  | None => Raise KeyError
  end.

(** A left-to-right loop whose body may raise. *)
Fixpoint for_each {A S : Type} (body : A -> S -> result S) (l : list A) (s : S)
  : result S :=
  match l with
  | [] => Ok s
  | a :: l' =>
      match body a s with
      | Ok s' => for_each body l' s'
      | Raise e => Raise e
      end
  end.

(** ** Python numerics *)

Definition Qltb (x y : Q) : bool := negb (Qle_bool y x).
Definition Qgtb (x y : Q) : bool := Qltb y x.
Definition Qgeb (x y : Q) : bool := Qle_bool y x.

(** [range(a, b)] *)
Definition range (a b : Z) : list Z := seqZ a (b - a).

(** [round(x)]: to the nearest integer, ties to the even one. *)
Definition round_half_even (x : Q) : Z :=
  let f := Qfloor x in
  match (x - inject_Z f ?= 1 # 2)%Q with
  | Lt => f
  | Gt => f + 1
  | Eq => if Z.even f then f else f + 1
  end.

(** [round(x, ndigits)] *)
Definition py_round (x : Q) (ndigits : Z) : Q :=
  (inject_Z (round_half_even (x * 10 ^ ndigits)) / 10 ^ ndigits)%Q.

(** [sum(l)] over rationals *)
Definition Qsum (l : list Q) : Q := foldr Qplus 0%Q l.

(** [s.strip()]: ASCII white space is removed at both ends. *)
Definition is_space (c : Ascii.ascii) : bool :=
  let n := Ascii.nat_of_ascii c in
  ((n =? 32) || ((9 <=? n) && (n <=? 13)) || ((28 <=? n) && (n <=? 31)))%nat.

Fixpoint lstrip (s : string) : string :=
  match s with
  | String c s' => if is_space c then lstrip s' else s
  | EmptyString => EmptyString
  end.

Definition strip (s : string) : string :=
  String.rev (lstrip (String.rev (lstrip s))).

Fixpoint zeros (n : nat) : string :=
  match n with
  | O => EmptyString
  | S n' => String "0"%char (zeros n')
  end.

(** [s.zfill(width)]: zeros are put on the left, after a leading sign. *)
Definition zfill (width : nat) (s : string) : string :=
  let n := String.length s in
  if (width <=? n)%nat then s
  else
    match s with
    | String c s' =>
        if (Ascii.eqb c "+"%char || Ascii.eqb c "-"%char)%bool
        then String c (zeros (width - n) +:+ s')
        else zeros (width - n) +:+ s
    | EmptyString => zeros width
    end.

(** A CSV cell handed to [int()] or [float()]: either it reads as a
    value, or the call raises [ValueError]. *)
Inductive cell (A : Type) : Type :=
| Parses (v : A)
| Malformed.
Arguments Parses {A} v.
Arguments Malformed {A}.

Definition parse {A : Type} (c : cell A) : result A :=
  match c with
  | Parses v => Ok v
  | Malformed => Raise ValueError
  end.

(** ** process_closure_risk.py *)

Module process_closure_risk.

Definition PROJECTION_YEARS : list Z := [2025; 2027; 2030; 2033; 2035; 2037; 2040].

(** [CLOSURE_PROBS] *)
Definition large_stable : Q := 0.0075.
Definition mild_decline : Q := 0.010.
Definition medium_decline : Q := 0.015.
Definition small_steep : Q := 0.03.
Definition tiny : Q := 0.04.

(** *** Step 1: state school counts by size bucket *)

(** A record kept by the filter of [process_ccd_schools]. *)
Record School : Type := {
  state_location : option string;
  state_mailing : option string;
  enrollment : Z
}.

Record StateSchools : Type := {
  total_schools : Z;
  total_enrollment : Z;
  bucket_under100 : Z;
  bucket_100_199 : Z;
  bucket_200_299 : Z;
  bucket_300_499 : Z;
  bucket_500plus : Z
}.

Definition empty_state : StateSchools :=
  {| total_schools := 0; total_enrollment := 0; bucket_under100 := 0;
     bucket_100_199 := 0; bucket_200_299 := 0; bucket_300_499 := 0;
     bucket_500plus := 0 |}.

(** [a or b] on two optional strings: the first one that is present
    and not empty. *)
Definition truthy (o : option string) : bool :=
  match o with
  | Some s => negb (String.eqb s "")
  | None => false
  end.

Definition or_else (a b : option string) : option string :=
  if truthy a then a else b.

Inductive bucket_name : Type :=
| under100 | b100_199 | b200_299 | b300_499 | b500plus.

#[global] Instance bucket_name_eq_dec : EqDecision bucket_name.
Proof. solve_decision. Defined.

(** The [if]/[elif] chain that picks the size bucket of a school. *)
Definition size_bucket (e : Z) : bucket_name :=
  if e <? 100 then under100
  else if e <? 200 then b100_199
  else if e <? 300 then b200_299
  else if e <? 500 then b300_499
  else b500plus.

Definition incr (hit : bool) (n : Z) : Z := if hit then n + 1 else n.

(** One school added to the counters of its state. *)
Definition count_school (e : Z) (sd : StateSchools) : StateSchools :=
  let b := size_bucket e in
  {| total_schools := total_schools sd + 1;
     total_enrollment := total_enrollment sd + e;
     bucket_under100 := incr (bool_decide (b = under100)) (bucket_under100 sd);
     bucket_100_199 := incr (bool_decide (b = b100_199)) (bucket_100_199 sd);
     bucket_200_299 := incr (bool_decide (b = b200_299)) (bucket_200_299 sd);
     bucket_300_499 := incr (bool_decide (b = b300_499)) (bucket_300_499 sd);
     bucket_500plus := incr (bool_decide (b = b500plus)) (bucket_500plus sd) |}.

(** The body of the loop [for s in filtered] of [process_ccd_schools]. *)
Definition aggregate_school (s : School) (state_data : gmap string StateSchools)
  : gmap string StateSchools :=
  match or_else (state_location s) (state_mailing s) with
  | None => state_data
  | Some st =>
      if negb (truthy (Some st)) || negb (String.length st =? 2)%nat
      then state_data
      else
        let sd := default empty_state (state_data !! st) in
        <[st := count_school (enrollment s) sd]> state_data
  end.

(** The state-level aggregation of [process_ccd_schools], from the
    filtered records. *)
Definition process_ccd_schools (filtered : list School) : gmap string StateSchools :=
  foldl (fun sd s => aggregate_school s sd) ∅ filtered.

(** *** Step 4: lagged enrollment decline *)

(** One year of a scenario: the keys written by
    [build_fertility_projections], and the two keys that
    [compute_enrollment_decline] adds. *)
Record YearData : Type := {
  rate : Q;
  birth_decline_pct : Q;
  key_post_2022_fraction : option Q;
  key_enrollment_decline_pct : option Q
}.

(** [scenario_data.get(birth_year, {}).get('birth_decline_pct', 0)] *)
Definition bd (scenario_data : gmap Z YearData) (birth_year : Z) : Q :=
  default 0%Q (birth_decline_pct <$> scenario_data !! birth_year).

(** The body of [for birth_year in range(...)], on the pair
    [(post_2022_grades, total_birth_decline)]. *)
Definition cohort_body (scenario_data : gmap Z YearData) (acc : Z * Q)
  (birth_year : Z) : Z * Q :=
  if 2022 <? birth_year
  then (fst acc + 1, (snd acc + bd scenario_data birth_year)%Q)
  else acc.

(** The local variables of one iteration of the target-year loop. *)
Record Decline : Type := {
  post_2022_grades : Z;
  avg_birth_decline : Q;
  post_2022_fraction : Q;
  enrollment_decline_pct : Q
}.

Definition lagged_decline (scenario_data : gmap Z YearData) (target_year : Z)
  : Decline :=
  let birth_year_start := target_year - 17 in
  let birth_year_end := target_year - 5 in
  let total_grades := 13 in
  let acc := foldl (cohort_body scenario_data) (0, 0%Q)
               (range birth_year_start (birth_year_end + 1)) in
  let avg :=
    if 0 <? fst acc then (snd acc / inject_Z (fst acc))%Q else 0%Q in
  let fraction := (inject_Z (fst acc) / inject_Z total_grades)%Q in
  {| post_2022_grades := fst acc;
     avg_birth_decline := avg;
     post_2022_fraction := fraction;
     enrollment_decline_pct := (fraction * avg)%Q |}.

(** The body of [for target_year in range(2025, 2051)]: the two
    assignments into [scenario_data[target_year]]. *)
Definition decline_body (target_year : Z) (scenario_data : gmap Z YearData)
  : result (gmap Z YearData) :=
  let d := lagged_decline scenario_data target_year in
  yd ← subscript scenario_data target_year;
  mret (<[target_year :=
            {| rate := rate yd;
               birth_decline_pct := birth_decline_pct yd;
               key_post_2022_fraction := Some (py_round (post_2022_fraction d) 3);
               key_enrollment_decline_pct :=
                 Some (py_round (enrollment_decline_pct d) 2) |}]> scenario_data).

(** [compute_enrollment_decline] on the data of one scenario of one state. *)
Definition compute_enrollment_decline (scenario_data : gmap Z YearData)
  : result (gmap Z YearData) :=
  for_each decline_body (range 2025 2051) scenario_data.

(** *** Step 5: expected closures *)

(** [buckets.items()], in the order the dictionary is built. *)
Definition buckets (schools : StateSchools) : list (bucket_name * Z) :=
  [ (under100, bucket_under100 schools);
    (b100_199, bucket_100_199 schools);
    (b200_299, bucket_200_299 schools);
    (b300_499, bucket_300_499 schools);
    (b500plus, bucket_500plus schools) ].

(** [max(a, b)] on rationals: [b] only when it is strictly larger. *)
Definition Qmax_py (a b : Q) : Q := if Qltb a b then b else a.

Definition avg_enrollment (schools : StateSchools) (b : bucket_name) : Q :=
  match b with
  | under100 => 55
  | b100_199 => 150
  | b200_299 => 250
  | b300_499 => 400
  | b500plus =>
      if 0 <? bucket_500plus schools
      then Qmax_py 750 (inject_Z (total_enrollment schools)
                        / inject_Z (Z.max (bucket_500plus schools) 1))
      else 750
  end%Q.

(** The three accumulators of the bucket loop. *)
Record Tally : Type := {
  expected_closures : Q;
  risk_elevated : Z;
  risk_severe : Z
}.

(** The body of [for bucket_name, count in buckets.items()]. *)
Definition bucket_body (avg : bucket_name -> Q) (decline_ratio : Q)
  (years_from_2025 : Z) (acc : Tally) (bc : bucket_name * Z) : Tally :=
  let count := snd bc in
  if count =? 0 then acc
  else
    let avg_enr := avg (fst bc) in
    let projected_enr := (avg_enr * (1 - decline_ratio))%Q in
    let '(annual_prob, severe, elevated) :=
      if Qltb projected_enr 100 then
        (tiny, risk_severe acc + count, risk_elevated acc + count)
      else if Qltb projected_enr 200 && Qgtb decline_ratio 0.25 then
        (small_steep, risk_severe acc + count, risk_elevated acc + count)
      else if Qgtb decline_ratio 0.10 then
        (medium_decline, risk_severe acc, risk_elevated acc + count)
      else if Qgtb decline_ratio 0.03 then
        (mild_decline, risk_severe acc, risk_elevated acc + count)
      else
        (large_stable, risk_severe acc, risk_elevated acc) in
    let cum_prob := (1 - (1 - annual_prob) ^ years_from_2025)%Q in
    {| expected_closures := (expected_closures acc + inject_Z count * cum_prob)%Q;
       risk_elevated := elevated;
       risk_severe := severe |}.

Definition bucket_loop (avg : bucket_name -> Q) (decline_ratio : Q)
  (years_from_2025 : Z) (bs : list (bucket_name * Z)) : Tally :=
  foldl (bucket_body avg decline_ratio years_from_2025)
    {| expected_closures := 0; risk_elevated := 0; risk_severe := 0 |} bs.

(** The keys written into [yr_data]. *)
Record YearEstimate : Type := {
  projected_enrollment : Z;
  key_expected_closures : Q;
  expected_closures_pct : Q;
  schools_elevated_risk : Z;
  schools_elevated_risk_pct : Q;
  schools_severe_risk : Z;
  schools_severe_risk_pct : Q
}.

(** [round(x / total * 100, 1) if total > 0 else 0] *)
Definition pct_of_total (x : Q) (total : Z) : Q :=
  if 0 <? total then py_round (x / inject_Z total * 100) 1 else 0%Q.

(** The decline ratio and the horizon that the target-year loop of
    [estimate_closures] derives from a scenario. *)
Definition decline_ratio_of (scenario_data : gmap Z YearData) (target_year : Z) : Q :=
  let enroll_decline_pct :=
    default 0%Q (scenario_data !! target_year ≫= key_enrollment_decline_pct) in
  (enroll_decline_pct / 100)%Q.

Definition years_from_2025 (target_year : Z) : Z := Z.max (target_year - 2025) 1.

(** One iteration of [for target_year in PROJECTION_YEARS]. *)
Definition estimate_year (schools : StateSchools) (scenario_data : gmap Z YearData)
  (target_year : Z) : YearEstimate :=
  let total := total_schools schools in
  let enrollment := total_enrollment schools in
  let decline_ratio := decline_ratio_of scenario_data target_year in
  let t := bucket_loop (avg_enrollment schools) decline_ratio
             (years_from_2025 target_year) (buckets schools) in
  {| projected_enrollment :=
       round_half_even (inject_Z enrollment * (1 - decline_ratio));
     key_expected_closures := py_round (expected_closures t) 1;
     expected_closures_pct := pct_of_total (expected_closures t) total;
     schools_elevated_risk := risk_elevated t;
     schools_elevated_risk_pct := pct_of_total (inject_Z (risk_elevated t)) total;
     schools_severe_risk := risk_severe t;
     schools_severe_risk_pct := pct_of_total (inject_Z (risk_severe t)) total |}.

Inductive scenario : Type := census | state_trend.

(** The projections of one state: its two scenarios. *)
Record StateProj : Type := {
  proj_census : gmap Z YearData;
  proj_state_trend : gmap Z YearData
}.

Definition scenario_data_of (proj : StateProj) (sc : scenario) : gmap Z YearData :=
  match sc with
  | census => proj_census proj
  | state_trend => proj_state_trend proj
  end.

(** What [estimate_closures] attaches to a state that has schools. *)
Record StateEstimate : Type := {
  current_schools : Z;
  current_enrollment : Z;
  state_buckets : list (bucket_name * Z);
  estimates : scenario -> gmap Z YearEstimate
}.

Definition estimate_state (proj : StateProj) (schools : StateSchools) : StateEstimate :=
  {| current_schools := total_schools schools;
     current_enrollment := total_enrollment schools;
     state_buckets := buckets schools;
     estimates := fun sc =>
       list_to_map
         ((fun y => (y, estimate_year schools (scenario_data_of proj sc) y))
            <$> PROJECTION_YEARS) |}.

(** [estimate_closures]: a state without an entry in [state_schools]
    is passed over. *)
Definition estimate_closures (fertility_projections : gmap string StateProj)
  (state_schools : gmap string StateSchools) : gmap string StateEstimate :=
  map_imap (fun abbr proj => estimate_state proj <$> state_schools !! abbr)
    fertility_projections.

(** *** Step 3: fertility projections *)

Definition FERTILITY_FLOOR : Q := 35.

(** An entry as [build_fertility_projections] writes it: the two
    rounded keys; the keys of step 4 are not there yet. *)
Definition projected_year (rate mult : Q) : YearData :=
  {| rate := py_round rate 2;
     birth_decline_pct := py_round ((1 - mult) * 100) 2;
     key_post_2022_fraction := None;
     key_enrollment_decline_pct := None |}.

(** Scenario 1 of the year loop: the national curve. *)
Definition census_year (rate_2022 : Q) (census_multipliers : gmap Z Q) (year : Z)
  : YearData :=
  let mult := default 1%Q (census_multipliers !! year) in
  let census_rate := (rate_2022 * mult)%Q in
  projected_year census_rate mult.

(** Scenario 2 of the year loop: the state's own trend, floored.
    [rate_2022] is an entry of [STATE_FERTILITY], none of which is zero. *)
Definition state_trend_year (rate_2022 annual_decline : Q) (year : Z) : YearData :=
  let years_from_2022 := year - 2022 in
  let trend_rate := (rate_2022 * (1 - annual_decline) ^ years_from_2022)%Q in
  let trend_rate := Qmax_py trend_rate FERTILITY_FLOOR in
  let trend_mult := (trend_rate / rate_2022)%Q in
  projected_year trend_rate trend_mult.

(** The loop [for year in range(2022, 2051)] of
    [build_fertility_projections] for one state, from its 2022 rate and
    its annualized decline rate (the 17th root that gives the latter is
    computed before the loop and is taken as given). *)
Definition project_state (rate_2022 annual_decline : Q) (census_multipliers : gmap Z Q)
  : StateProj :=
  foldl
    (fun proj year =>
       {| proj_census :=
            <[year := census_year rate_2022 census_multipliers year]> (proj_census proj);
          proj_state_trend :=
            <[year := state_trend_year rate_2022 annual_decline year]>
              (proj_state_trend proj) |})
    {| proj_census := ∅; proj_state_trend := ∅ |} (range 2022 2051).

(** *** Step 2: the national birth trajectory *)

(** The columns 2..18 of the sheet, as the pairs of the cells of row 6
    (a year, read as an integer) and row 9 (a value).  [if year and
    val]: an empty cell and a zero are both passed over. *)
Definition read_columns (columns : list (option Z * option Q)) : list (Z * Q) :=
  omap (fun c =>
          match c with
          | (Some year, Some val) =>
              if (year =? 0) || Qeq_bool val 0 then None else Some (year, val)
          | _ => None
          end) columns.

(** [max(...)] and [min(...)] of a generator: [ValueError] when it is
    empty. *)
Definition py_max (l : list Z) : result Z :=
  match l with
  | [] => Raise ValueError
  | x :: l' => Ok (foldl Z.max x l')
  end.

Definition py_min (l : list Z) : result Z :=
  match l with
  | [] => Raise ValueError
  | x :: l' => Ok (foldl Z.min x l')
  end.

(** [multipliers]: each value over the baseline, a later column
    replacing an earlier one of the same year. *)
Definition multipliers_of (kept : list (Z * Q)) (baseline : Q) : gmap Z Q :=
  foldl (fun m yv => <[fst yv := (snd yv / baseline)%Q]> m) ∅ kept.

(** The body of [for y in range(2022, 2051)]. *)
Definition annual_body (years : list Z) (multipliers : gmap Z Q) (y : Z)
  (annual_multipliers : gmap Z Q) : result (gmap Z Q) :=
  match multipliers !! y with
  | Some m => mret (<[y := m]> annual_multipliers)
  | None =>
      lower ← py_max (filter (fun yr => yr <= y) years);
      upper ← py_min (filter (fun yr => y <= yr) years);
      if lower =? upper then
        m ← subscript multipliers lower;
        mret (<[y := m]> annual_multipliers)
      else
        let frac := (inject_Z (y - lower) / inject_Z (upper - lower))%Q in
        ml ← subscript multipliers lower;
        mu ← subscript multipliers upper;
        mret (<[y := (ml + frac * (mu - ml))%Q]> annual_multipliers)
  end.

(** [extract_census_birth_trajectory], from the cells of the sheet.
    [None] is the [IndexError] of [under5[0]] on a table without a
    usable column. *)
Definition extract_census_birth_trajectory (columns : list (option Z * option Q))
  : option (result (gmap Z Q)) :=
  let kept := read_columns columns in
  let years := fst <$> kept in
  let under5 := snd <$> kept in
  match under5 with
  | [] => None
  | baseline :: _ =>
      let multipliers := multipliers_of kept baseline in
      Some (for_each (annual_body years multipliers) (range 2022 2051) ∅)
  end.

(** *** Step 1: the schools kept *)

(** A value of the directory that is compared with a number and with
    a text (a JSON boolean compares as 0 or 1). *)
Inductive flag : Type :=
| Num (n : Z)
| Txt (s : string).

(** What [process_ccd_schools] reads of a school of the directory; an
    absent or null key is [None]. *)
Record DirectorySchool : Type := {
  raw_school_type : option Z;
  raw_charter : option Z;
  raw_virtual : option flag;
  raw_enrollment : option Z;
  raw_school_status : option Z;
  raw_state_location : option string;
  raw_state_mailing : option string
}.

(** [virtual and virtual in (1, 'Yes')] *)
Definition is_virtual (v : option flag) : bool :=
  match v with
  | Some (Num n) => negb (n =? 0) && (n =? 1)
  | Some (Txt s) => negb (String.eqb s "") && String.eqb s "Yes"
  | None => false
  end.

(** [school_status and school_status not in (1, 3)] *)
Definition not_open (status : option Z) : bool :=
  match status with
  | Some n => negb (n =? 0) && negb ((n =? 1) || (n =? 3))
  | None => false
  end.

(** The body of the filter loop: the school appended to [filtered],
    or [None] at one of the [continue]. *)
Definition kept_school (s : DirectorySchool) : option School :=
  if negb (bool_decide (raw_school_type s = Some 1)) then None
  else if bool_decide (raw_charter s = Some 1) then None
  else if is_virtual (raw_virtual s) then None
  else
    match raw_enrollment s with
    | None => None
    | Some enrollment =>
        if enrollment <=? 0 then None
        else if not_open (raw_school_status s) then None
        else Some {| state_location := raw_state_location s;
                     state_mailing := raw_state_mailing s;
                     enrollment := enrollment |}
    end.

(** The list [filtered]. *)
Definition filter_schools (schools : list DirectorySchool) : list School :=
  omap kept_school schools.

End process_closure_risk.

(** ** process_cooper_center.py *)

Module process_cooper_center.

Import process_closure_risk (bucket_name, under100, b100_199, b200_299,
                             b300_499, b500plus).

(** [CLOSURE_PROBS] of this script *)
Definition large_stable : Q := 0.01.
Definition medium_decline : Q := 0.02.
Definition small_steep : Q := 0.05.
Definition tiny : Q := 0.10.

Definition avg_enrollment (b : bucket_name) : Q :=
  match b with
  | under100 => 55
  | b100_199 => 150
  | b200_299 => 250
  | b300_499 => 400
  | b500plus => 750
  end.

(** The body of [for bucket_name, count in buckets.items()]. *)
Definition closure_body (decline_ratio : Q) (years_from_baseline : Z)
  (expected_closures : Q) (bc : bucket_name * Z) : Q :=
  let count := snd bc in
  if count =? 0 then expected_closures
  else
    let avg_enr := avg_enrollment (fst bc) in
    let projected_enr := (avg_enr * (1 - decline_ratio))%Q in
    let annual_prob :=
      if Qltb projected_enr 100 then tiny
      else if Qltb projected_enr 200 && Qgtb decline_ratio 0.25 then small_steep
      else if Qltb projected_enr 300 && Qgtb decline_ratio 0.10 then medium_decline
      else if Qgtb decline_ratio 0.10 then medium_decline
      else large_stable in
    let years := Z.max years_from_baseline 1 in
    let cum_prob := (1 - (1 - annual_prob) ^ years)%Q in
    (expected_closures + inject_Z count * cum_prob)%Q.

Definition compute_closures (decline_ratio : Q) (buckets : list (bucket_name * Z))
  (years_from_baseline : Z) : Q :=
  foldl (closure_body decline_ratio years_from_baseline) 0%Q buckets.

(** What [main] reads from an entry of [state_projections.json]. *)
Record StateEntry : Type := {
  current_enrollment : Z;
  current_schools : Z;
  buckets : list (bucket_name * Z)
}.

(** One year of the [cooper_center] scenario. *)
Record YearOut : Type := {
  enrollment_decline_pct : Q;
  projected_enrollment : Z;
  expected_closures : Q;
  expected_closures_pct : Q;
  cooper_school_age_2020 : Z;
  cooper_school_age_proj : Z
}.

(** [closures] of the loop [for yr in [2030]]. *)
Definition closures_of (ratio : Q) (entry : StateEntry) (yr : Z) : Q :=
  if Qgeb ratio 1 then 0%Q
  else
    let closure_decline_ratio := (1 - ratio)%Q in
    let years_from_2025 := Z.max (yr - 2025) 1 in
    compute_closures closure_decline_ratio (buckets entry) years_from_2025.

Definition year_out (entry : StateEntry) (sa_2020 sa_yr : Q) (yr : Z) : YearOut :=
  let total_schools := current_schools entry in
  let ratio := (sa_yr / sa_2020)%Q in
  let closures := closures_of ratio entry yr in
  {| enrollment_decline_pct := py_round ((1 - ratio) * 100) 2;
     projected_enrollment :=
       round_half_even (inject_Z (current_enrollment entry) * ratio);
     expected_closures := py_round closures 1;
     expected_closures_pct :=
       if 0 <? total_schools
       then py_round (closures / inject_Z total_schools * 100) 1
       else 0%Q;
     cooper_school_age_2020 := round_half_even sa_2020;
     cooper_school_age_proj := round_half_even sa_yr |}.

Definition baseline_out (entry : StateEntry) (sa_2020 : Q) : YearOut :=
  {| enrollment_decline_pct := 0;
     projected_enrollment := current_enrollment entry;
     expected_closures := 0;
     expected_closures_pct := 0;
     cooper_school_age_2020 := round_half_even sa_2020;
     cooper_school_age_proj := round_half_even sa_2020 |}.

(** A number read with [.get(abbr)] and tested with [not x]: absent
    and zero are both passed over. *)
Definition present (o : option Q) : option Q :=
  match o with
  | Some x => if Qeq_bool x 0 then None else Some x
  | None => None
  end.

(** The body of [for abbr, state_entry in state_proj.items()]: the
    [cooper_center] scenario of one state, [None] when the state is
    skipped for want of a 2020 baseline.  The keys are the years
    whose decimal text the script uses. *)
Definition cooper_scenario (school_age : Z -> gmap string Q) (abbr : string)
  (entry : StateEntry) : option (gmap Z YearOut) :=
  match present (school_age 2020 !! abbr) with
  | None => None
  | Some sa_2020 =>
      Some (foldl
              (fun scenario_data yr =>
                 match present (school_age yr !! abbr) with
                 | None => scenario_data
                 | Some sa_yr => <[yr := year_out entry sa_2020 sa_yr yr]> scenario_data
                 end)
              {[ 2020 := baseline_out entry sa_2020 ]} [2030])
  end.

End process_cooper_center.

(** ** The Hauer CSV: rows and the accumulation loop

    [process_hauer] of [process_data.py] and [process_hauer_school_age]
    of [process_school_data.py] run the same loop over the rows of
    [SSP_asrc.csv]; they differ in the years they keep and in the
    accumulators they update. *)

(** [STATE_FIPS], the same set in both scripts. *)
Definition STATE_FIPS : gset string :=
  list_to_set
    [ "01"; "02"; "04"; "05"; "06"; "08"; "09"; "10"; "11"; "12";
      "13"; "15"; "16"; "17"; "18"; "19"; "20"; "21"; "22"; "23";
      "24"; "25"; "26"; "27"; "28"; "29"; "30"; "31"; "32"; "33";
      "34"; "35"; "36"; "37"; "38"; "39"; "40"; "41"; "42"; "44";
      "45"; "46"; "47"; "48"; "49"; "50"; "51"; "53"; "54"; "55"; "56" ]%string.

(** A row of the CSV as [csv.DictReader] yields it: the three numeric
    columns as cells, the two code columns as text. *)
Record Row : Type := {
  YEAR : cell Z;
  STATE : string;
  COUNTY : string;
  AGE : cell Z;
  SSP2 : cell Q
}.

Section accumulation.

(** The accumulators kept per county and year, their initial value,
    the update by one row, and the years that are kept. *)
Context {A : Type} (zero : A) (add : Z -> Q -> A -> A) (keep_year : Z -> bool).

(** [county_data[fips][year]] of the nested [defaultdict]. *)
Definition accumulators (county_data : gmap string (gmap Z A)) (fips : string)
  (year : Z) : A :=
  default zero (county_data !! fips ≫= lookup year).

Definition store (county_data : gmap string (gmap Z A)) (fips : string)
  (year : Z) (a : A) : gmap string (gmap Z A) :=
  <[fips := <[year := a]> (default ∅ (county_data !! fips))]> county_data.

(** The body of [for row in reader]. *)
Definition row_body (row : Row) (county_data : gmap string (gmap Z A))
  : result (gmap string (gmap Z A)) :=
  year ← parse (YEAR row);
  if negb (keep_year year) then mret county_data
  else
    let state_fips := zfill 2 (strip (STATE row)) in
    let county_fips := zfill 3 (strip (COUNTY row)) in
    if negb (bool_decide (state_fips ∈ STATE_FIPS)) then mret county_data
    else
      let fips := state_fips +:+ county_fips in
      age_group ← parse (AGE row);
      value ← parse (SSP2 row);
      mret (store county_data fips year
              (add age_group value (accumulators county_data fips year))).

Definition read_rows (rows : list Row) : result (gmap string (gmap Z A)) :=
  for_each row_body rows ∅.

End accumulation.

(** [sorted(d.keys())] *)
Definition sorted_keys {A : Type} (d : gmap Z A) : list Z :=
  merge_sort Z.le (elements (dom d)).

(** [[y for y in avail if y <= target]] and [[y for y in avail if y >= target]] *)
Definition years_before (avail : list Z) (target : Z) : list Z :=
  filter (fun y => y <= target) avail.
Definition years_after (avail : list Z) (target : Z) : list Z :=
  filter (fun y => target <= y) avail.

(** [v1 + t * (v2 - v1)] *)
Definition lerp (t v1 v2 : Q) : Q := (v1 + t * (v2 - v1))%Q.

(** [(target - y1) / (y2 - y1)] *)
Definition fraction (target y1 y2 : Z) : Q :=
  (inject_Z (target - y1) / inject_Z (y2 - y1))%Q.

(** ** process_data.py *)

Module process_data.

Definition YEARS : list Z := [2020; 2025; 2030; 2035; 2040; 2045; 2050].
Definition TARGET_YEARS : list Z := [2025; 2030; 2035; 2040; 2045; 2050].

(** The value of [county_data[fips][year]]: the keys ["total"],
    ["65plus"] and ["85plus"]. *)
Record Agg : Type := {
  total : Q;
  plus65 : Q;
  plus85 : Q
}.

Definition zero : Agg := {| total := 0; plus65 := 0; plus85 := 0 |}.

(** The three [+=] of the row loop. *)
Definition add (age_group : Z) (value : Q) (a : Agg) : Agg :=
  {| total := (total a + value)%Q;
     plus65 := if 14 <=? age_group then (plus65 a + value)%Q else plus65 a;
     plus85 := if 18 <=? age_group then (plus85 a + value)%Q else plus85 a |}.

(** [not (year not in YEARS and year != 2020)] *)
Definition keep_year (year : Z) : bool :=
  negb (negb (bool_decide (year ∈ YEARS)) && negb (year =? 2020)).

(** The row loop of [process_hauer]. *)
Definition read_hauer (rows : list Row) : result (gmap string (gmap Z Agg)) :=
  read_rows zero add keep_year rows.

(** The value [d] that the target-year loop of [process_hauer] finds
    for [target_year]; [None] is the [continue] of its last branch. *)
Definition resample (years_data : gmap Z Agg) (target_year : Z)
  : result (option Agg) :=
  match years_data !! target_year with
  | Some d => mret (Some d)
  | None =>
      let avail := sorted_keys years_data in
      let before := years_before avail target_year in
      let after := years_after avail target_year in
      match last before, head after with
      | Some y1, Some y2 =>
          if y1 =? y2 then
            d ← subscript years_data y1; mret (Some d)
          else
            let t := fraction target_year y1 y2 in
            d1 ← subscript years_data y1;
            d2 ← subscript years_data y2;
            mret (Some {| total := lerp t (total d1) (total d2);
                          plus65 := lerp t (plus65 d1) (plus65 d2);
                          plus85 := lerp t (plus85 d1) (plus85 d2) |})
      | Some y1, None => d ← subscript years_data y1; mret (Some d)
      | None, Some y2 => d ← subscript years_data y2; mret (Some d)
      | None, None => mret None
      end
  end.

(** One year of an output entry. *)
Record YearOut : Type := {
  pct_65plus : Q;
  pct_85plus : Q;
  pop_total : Z;
  pop_65plus : Z;
  pop_85plus : Z
}.

Definition year_out (d : Agg) : YearOut :=
  {| pct_65plus := py_round (100 * plus65 d / total d) 1;
     pct_85plus := py_round (100 * plus85 d / total d) 1;
     pop_total := round_half_even (total d);
     pop_65plus := round_half_even (plus65 d);
     pop_85plus := round_half_even (plus85 d) |}.

(** The body of [for target_year in TARGET_YEARS], on [entry["years"]]
    (keyed here by the year whose decimal text the script uses). *)
Definition target_body (years_data : gmap Z Agg) (target_year : Z)
  (years : gmap Z YearOut) : result (gmap Z YearOut) :=
  od ← resample years_data target_year;
  match od with
  | None => mret years
  | Some d =>
      if Qltb 0 (total d) then mret (<[target_year := year_out d]> years)
      else mret years
  end.

Definition entry_years (years_data : gmap Z Agg) : result (gmap Z YearOut) :=
  for_each (target_body years_data) TARGET_YEARS ∅.

(** The body of [for fips, years_data in county_data.items()]: an
    entry without years is not written.  (The placeholder name of the
    entry is left out.) *)
Definition county_body (item : string * gmap Z Agg)
  (output : gmap string (gmap Z YearOut)) : result (gmap string (gmap Z YearOut)) :=
  years ← entry_years (snd item);
  if (size years =? 0)%nat then mret output
  else mret (<[fst item := years]> output).

Definition build_output (county_data : gmap string (gmap Z Agg))
  : result (gmap string (gmap Z YearOut)) :=
  for_each county_body (map_to_list county_data) ∅.

Definition process_hauer (rows : list Row) : result (gmap string (gmap Z YearOut)) :=
  county_data ← read_hauer rows;
  build_output county_data.

End process_data.

(** ** process_school_data.py *)

Module process_school_data.

Definition YEARS : list Z := [2025; 2030; 2035; 2040; 2045; 2050].

(** The value of [county_data[fips][year]]: the keys ["school_age"]
    and ["total"]. *)
Record Agg : Type := {
  school_age : Q;
  total : Q
}.

Definition zero : Agg := {| school_age := 0; total := 0 |}.

Definition add (age_group : Z) (value : Q) (a : Agg) : Agg :=
  {| total := (total a + value)%Q;
     school_age :=
       if bool_decide (age_group ∈ [2; 3; 4])
       then (school_age a + value)%Q else school_age a |}.

(** [not (year not in [2020] + YEARS)] *)
Definition keep_year (year : Z) : bool :=
  negb (negb (bool_decide (year ∈ 2020 :: YEARS))).

Definition process_hauer_school_age (rows : list Row)
  : result (gmap string (gmap Z Agg)) :=
  read_rows zero add keep_year rows.

(** A school as [filter_tps_schools] returns it. *)
Record School : Type := {
  fips : string;
  enrollment : Z
}.

Inductive demo_source : Type := hauer | census.
Inductive scenario : Type := pre_hold | pre_trend | post_hold | post_trend.

Definition demo_sources : list demo_source := [hauer; census].
Definition scenarios : list scenario := [pre_hold; pre_trend; post_hold; post_trend].

(** [f"{demo}_{scenario}"] *)
Definition scenario_key (demo : demo_source) (sc : scenario) : string :=
  (match demo with hauer => "hauer" | census => "census" end)
  +:+ "_" +:+
  (match sc with
   | pre_hold => "pre_hold" | pre_trend => "pre_trend"
   | post_hold => "post_hold" | post_trend => "post_trend"
   end).

(** An entry of [census_data]. *)
Record CensusCounty : Type := {
  baseline_school_age : Q;
  projections : gmap Z Q
}.

(** Step 1 of the year loop, Hauer branch: the projected school-age
    population. *)
Definition hauer_proj_sa (hauer_data : gmap string (gmap Z Agg)) (fips : string)
  (yr : Z) (baseline_sa : Q) : result Q :=
  match hauer_data !! fips with
  | Some years_data =>
      match years_data !! yr with
      | Some d => mret (school_age d)
      | None =>
          let avail := sorted_keys years_data in
          let before := years_before avail yr in
          let after := years_after avail yr in
          match last before, head after with
          | Some y1, Some y2 =>
              if y1 =? y2 then
                d ← subscript years_data y1; mret (school_age d)
              else
                let t := fraction yr y1 y2 in
                d1 ← subscript years_data y1;
                d2 ← subscript years_data y2;
                mret (lerp t (school_age d1) (school_age d2))
          | _, _ => mret baseline_sa
          end
      end
  | None => mret baseline_sa
  end.

Definition hauer_base_sa (hauer_data : gmap string (gmap Z Agg)) (fips : string)
  (baseline_sa : Q) : Q :=
  match hauer_data !! fips ≫= lookup 2020 with
  | Some d => school_age d
  | None => baseline_sa
  end.

(** [census_data and fips in census_data]: the census file may be
    missing, and then [census_data] is [None]. *)
Definition census_county (census_data : option (gmap string CensusCounty))
  (fips : string) : option CensusCounty :=
  census_data ≫= lookup fips.

(** The pair [(proj_sa, base_sa)] of step 1. *)
Definition demographic (demo : demo_source)
  (hauer_data : gmap string (gmap Z Agg))
  (census_data : option (gmap string CensusCounty))
  (fips : string) (yr : Z) (baseline_sa : Q) : result (Q * Q) :=
  match demo with
  | hauer =>
      proj_sa ← hauer_proj_sa hauer_data fips yr baseline_sa;
      mret (proj_sa, hauer_base_sa hauer_data fips baseline_sa)
  | census =>
      match census_county census_data fips with
      | Some c =>
          mret (default baseline_sa (projections c !! yr), baseline_school_age c)
      | None => mret (baseline_sa, baseline_sa)
      end
  end.

(** [proj_sa / base_sa if base_sa > 0 else 1.0] *)
Definition demo_ratio (proj_sa base_sa : Q) : Q :=
  if Qltb 0 base_sa then (proj_sa / base_sa)%Q else 1%Q.

(** [tps_multipliers[scenario].get(yr, 1.0)] *)
Definition tps_mult (tps_multipliers : scenario -> gmap Z Q) (sc : scenario)
  (yr : Z) : Q :=
  default 1%Q (tps_multipliers sc !! yr).

Definition combined_ratio (demo_ratio tps_mult : Q) : Q :=
  (demo_ratio * tps_mult)%Q.

(** The accumulators of step 3. *)
Record Tiers : Type := {
  projected_enrollment : Q;
  green : Z;
  yellow : Z;
  orange : Z;
  red : Z;
  below_threshold : Z
}.

Definition no_tiers : Tiers :=
  {| projected_enrollment := 0; green := 0; yellow := 0; orange := 0;
     red := 0; below_threshold := 0 |}.

(** The body of [for s in school_list]. *)
Definition school_body (combined_ratio : Q) (acc : Tiers) (s : School) : Tiers :=
  let proj_enroll := (inject_Z (enrollment s) * combined_ratio)%Q in
  let decline_pct := ((1 - combined_ratio) * 100)%Q in
  let '(g, y, o, r) :=
    if Qltb decline_pct 10 then (green acc + 1, yellow acc, orange acc, red acc)
    else if Qltb decline_pct 25 then (green acc, yellow acc + 1, orange acc, red acc)
    else if Qltb decline_pct 50 then (green acc, yellow acc, orange acc + 1, red acc)
    else (green acc, yellow acc, orange acc, red acc + 1) in
  {| projected_enrollment := (projected_enrollment acc + proj_enroll)%Q;
     green := g; yellow := y; orange := o; red := r;
     below_threshold :=
       if Qltb proj_enroll 100 then below_threshold acc + 1
       else below_threshold acc |}.

(** What is written for one scenario key and year. *)
Record YearRisk : Type := {
  pct_decline : Q;
  schools_green : Z;
  schools_yellow : Z;
  schools_orange : Z;
  schools_red : Z;
  schools_below_threshold : Z;
  key_projected_enrollment : Z
}.

Definition total_enrollment_of (school_list : list School) : Z :=
  foldr Z.add 0 (enrollment <$> school_list).

(** The body of [for yr in YEARS] for one county, demographic source
    and scenario. *)
Definition year_risk (hauer_data : gmap string (gmap Z Agg))
  (census_data : option (gmap string CensusCounty))
  (tps_multipliers : scenario -> gmap Z Q)
  (baseline_sa : Q) (fips : string) (school_list : list School)
  (demo : demo_source) (sc : scenario) (yr : Z) : result YearRisk :=
  sa ← demographic demo hauer_data census_data fips yr baseline_sa;
  let ratio := combined_ratio (demo_ratio (fst sa) (snd sa))
                 (tps_mult tps_multipliers sc yr) in
  let t := foldl (school_body ratio) no_tiers school_list in
  let total_enrollment := total_enrollment_of school_list in
  let pct :=
    if 0 <? total_enrollment
    then ((1 - projected_enrollment t / inject_Z total_enrollment) * 100)%Q
    else 0%Q in
  mret {| pct_decline := py_round pct 1;
          schools_green := green t;
          schools_yellow := yellow t;
          schools_orange := orange t;
          schools_red := red t;
          schools_below_threshold := below_threshold t;
          key_projected_enrollment := round_half_even (projected_enrollment t) |}.

(** An entry of the output. *)
Record Entry : Type := {
  schools_total : Z;
  current_enrollment : Z;
  entry_scenarios : gmap string (gmap Z YearRisk)
}.

Definition years_of (hauer_data : gmap string (gmap Z Agg))
  (census_data : option (gmap string CensusCounty))
  (tps_multipliers : scenario -> gmap Z Q)
  (baseline_sa : Q) (fips : string) (school_list : list School)
  (demo : demo_source) (sc : scenario) : result (gmap Z YearRisk) :=
  for_each
    (fun yr years =>
       r ← year_risk hauer_data census_data tps_multipliers baseline_sa fips
             school_list demo sc yr;
       mret (<[yr := r]> years))
    YEARS ∅.

(** The body of [for fips, school_list in county_schools.items()]. *)
Definition county_entry (hauer_data : gmap string (gmap Z Agg))
  (census_data : option (gmap string CensusCounty))
  (tps_multipliers : scenario -> gmap Z Q)
  (county_baseline_sa : gmap string Q)
  (fips : string) (school_list : list School) : result Entry :=
  let baseline_sa := default 0%Q (county_baseline_sa !! fips) in
  sc ← for_each
         (fun key scs =>
            years ← years_of hauer_data census_data tps_multipliers baseline_sa
                      fips school_list (fst key) (snd key);
            mret (<[scenario_key (fst key) (snd key) := years]> scs))
         (demo ← demo_sources; sc ← scenarios; [(demo, sc)]) ∅;
  mret {| schools_total := Z.of_nat (length school_list);
          current_enrollment := total_enrollment_of school_list;
          entry_scenarios := sc |}.

(** [county_schools]: the schools grouped by county, in input order. *)
Definition county_schools (schools : list School) : gmap string (list School) :=
  foldl (fun m s => <[fips s := default [] (m !! fips s) ++ [s]]> m) ∅ schools.

Definition assemble_risk_data (schools : list School)
  (hauer_data : gmap string (gmap Z Agg))
  (census_data : option (gmap string CensusCounty))
  (tps_multipliers : scenario -> gmap Z Q)
  (county_baseline_sa : gmap string Q) : result (gmap string Entry) :=
  for_each
    (fun item output =>
       e ← county_entry hauer_data census_data tps_multipliers county_baseline_sa
             (fst item) (snd item);
       mret (<[fst item := e]> output))
    (map_to_list (county_schools schools)) ∅.

(** *** Step 4: TPS share multipliers *)

(** [a / b] on floats: [None] is [ZeroDivisionError]. *)
Definition py_div (a b : Q) : option Q :=
  if Qeq_bool b 0 then None else Some (a / b)%Q.

(** [sum(shares) / len(shares)] *)
Definition average (shares : list Q) : option Q :=
  py_div (Qsum shares) (inject_Z (Z.of_nat (length shares))).

(** The linear fit of a series on the indices 0, 1, ...: the slope and
    the intercept. *)
Definition linear_fit (shares : list Q) : option (Q * Q) :=
  let n := inject_Z (Z.of_nat (length shares)) in
  let x_mean := ((n - 1) / 2)%Q in
  y_mean ← average shares;
  let num :=
    Qsum (imap (fun i share => ((inject_Z (Z.of_nat i) - x_mean) * (share - y_mean))%Q)
            shares) in
  let den :=
    Qsum ((fun i => ((inject_Z (Z.of_nat i) - x_mean) ^ 2)%Q) <$> seq 0 (length shares)) in
  let slope := if Qeq_bool den 0 then 0%Q else (num / den)%Q in
  Some (slope, (y_mean - slope * x_mean)%Q).

(** The [if]/[elif] chain on the scenario. *)
Definition future_share (pre_avg post_avg : Q) (pre_fit post_fit : Q * Q)
  (sc : scenario) (yr : Z) : Q :=
  match sc with
  | pre_hold => pre_avg
  | pre_trend =>
      let idx := 4 + (yr - 2020) in
      (snd pre_fit + fst pre_fit * inject_Z idx)%Q
  | post_hold => post_avg
  | post_trend =>
      let idx := 3 + (yr - 2024) in
      (snd post_fit + fst post_fit * inject_Z idx)%Q
  end.

(** The loop [for yr in YEARS] for one scenario. *)
Definition scenario_multipliers (pre_avg post_avg : Q) (pre_fit post_fit : Q * Q)
  (current_share : Q) (sc : scenario) : option (gmap Z Q) :=
  foldl
    (fun acc yr =>
       multipliers ← acc;
       let share := future_share pre_avg post_avg pre_fit post_fit sc yr in
       let share := process_closure_risk.Qmax_py share (current_share * 0.5)%Q in
       mult ← py_div share current_share;
       Some (<[yr := py_round mult 4]> multipliers))
    (Some ∅) YEARS.

(** [compute_tps_multipliers], from the TPS shares of the five
    pre-pandemic and the four post-pandemic school years and the
    current share. *)
Definition compute_tps_multipliers (pre_shares post_shares : list Q)
  (current_share : Q) : option (scenario -> gmap Z Q) :=
  pre_avg ← average pre_shares;
  post_avg ← average post_shares;
  pre_fit ← linear_fit pre_shares;
  post_fit ← linear_fit post_shares;
  let loop := scenario_multipliers pre_avg post_avg pre_fit post_fit current_share in
  m1 ← loop pre_hold;
  m2 ← loop pre_trend;
  m3 ← loop post_hold;
  m4 ← loop post_trend;
  Some (fun sc =>
          match sc with
          | pre_hold => m1
          | pre_trend => m2
          | post_hold => m3
          | post_trend => m4
          end).

(** *** Step 3: the national projections distributed to the counties *)

(** The national school-age population of a year, in persons (the
    table is in thousands), interpolated between the years of the
    table; [None] when the year is not between two of them. *)
Definition national_school_age (national_projections : gmap Z Q) (yr : Z)
  : result (option Q) :=
  match national_projections !! yr with
  | Some school_age => mret (Some (school_age * 1000)%Q)
  | None =>
      let avail := sorted_keys national_projections in
      let before := years_before avail yr in
      let after := years_after avail yr in
      match last before, head after with
      | Some y1, Some y2 =>
          if y1 =? y2 then
            school_age ← subscript national_projections y1;
            mret (Some (school_age * 1000)%Q)
          else
            let t := fraction yr y1 y2 in
            sa1 ← subscript national_projections y1;
            sa2 ← subscript national_projections y2;
            mret (Some (lerp t (sa1 * 1000) (sa2 * 1000)))
      | _, _ => mret None
      end
  end.

(** The body of [for fips, c in county_acs.items()]: [proj]. *)
Definition county_projections (national_projections : gmap Z Q)
  (national_acs_school_age : Q) (school_age : Q) : result (gmap Z Q) :=
  let share :=
    if Qltb 0 national_acs_school_age
    then (school_age / national_acs_school_age)%Q else 0%Q in
  for_each
    (fun yr proj =>
       nat_sa ← national_school_age national_projections yr;
       match nat_sa with
       | Some nat_sa => mret (<[yr := (nat_sa * share)%Q]> proj)
       | None => mret proj
       end)
    YEARS {[ 2020 := school_age ]}.

(** The distribution of [process_census_school_age], from the national
    school-age series and the ACS school-age population of each county. *)
Definition process_census_school_age (national_projections : gmap Z Q)
  (county_acs : gmap string Q) : result (gmap string CensusCounty) :=
  let national_acs_school_age := Qsum (snd <$> map_to_list county_acs) in
  for_each
    (fun item county_projections_out =>
       proj ← county_projections national_projections national_acs_school_age
                (snd item);
       mret (<[fst item := {| baseline_school_age := snd item; projections := proj |}]>
               county_projections_out))
    (map_to_list county_acs) ∅.

(** *** Step 1: the schools kept *)

(** A county code of the directory: text, or a number. *)
Inductive code : Type :=
| Text (s : string)
| Number (n : Z).

(** [str(county_code)] *)
Definition str (c : code) : string :=
  match c with
  | Text s => s
  | Number n => pretty n
  end.

(** [not county_code] is false: the code is there and is neither the
    empty text nor zero. *)
Definition code_given (c : option code) : bool :=
  match c with
  | Some (Text s) => negb (String.eqb s "")
  | Some (Number n) => negb (n =? 0)
  | None => false
  end.

(** What [filter_tps_schools] reads of a school of the directory; an
    absent or null key is [None]. *)
Record DirectorySchool : Type := {
  school_status : option Z;
  school_type : option Z;
  charter : option Z;
  virtual : option Z;
  directory_enrollment : option Z;
  county_code : option code
}.

(** The body of [for s in all_schools]: the school appended, or [None]
    at one of the [continue]. *)
Definition kept_school (s : DirectorySchool) : option School :=
  if negb (bool_decide (school_status s = Some 1)) then None
  else if negb (bool_decide (school_type s = Some 1)) then None
  else if bool_decide (charter s = Some 1) then None
  else if bool_decide (virtual s = Some 1 \/ virtual s = Some 2) then None
  else
    match directory_enrollment s with
    | None => None
    | Some enrollment =>
        if enrollment <=? 0 then None
        else if negb (code_given (county_code s)) then None
        else
          match county_code s with
          | None => None
          | Some county_code =>
              let cc := zfill 5 (str county_code) in
              let state_fips := String.substring 0 2 cc in
              if negb (bool_decide (state_fips ∈ STATE_FIPS)) then None
              else Some {| fips := cc; enrollment := enrollment |}
          end
    end.

Definition filter_tps_schools (all_schools : list DirectorySchool) : list School :=
  omap kept_school all_schools.

End process_school_data.

(** ** Double precision

    The modules above read a float as the exact rational it denotes.
    Where a statement depends on a comparison or on a stored digit,
    the scripts are embedded once more with the rounding of binary64
    written out: a float is the rational that a double denotes, and
    every operation of the source is followed by [double], the
    rounding to the nearest double, ties to the even one, with gradual
    underflow.  Infinities, NaN and the sign of zero are not modelled:
    the values stay below [2^1024] in magnitude. *)

(** The exponent of the leading bit of a non-zero rational:
    [2^k <= |x| < 2^(k+1)]. *)
Definition ilog2 (x : Q) : Z :=
  let k := Z.log2 (Z.abs (Qnum x)) - Z.log2 (Zpos (Qden x)) in
  if Qle_bool (2 ^ k) (Qabs x) then k else k - 1.

(** The double nearest to a rational: 53 significant bits, the unit
    in the last place never below [2^-1074]. *)
Definition double (x : Q) : Q :=
  if Qeq_bool x 0 then 0%Q
  else
    let e := Z.max (ilog2 x - 52) (-1074) in
    (inject_Z (round_half_even (x / 2 ^ e)) * 2 ^ e)%Q.

(** A chain of [+=] on a float that starts at [0.0]. *)
Definition fsum (l : list Q) : Q :=
  foldl (fun acc x => double (acc + x)) 0%Q l.

(** [round(x, ndigits)] of a float: the decimal nearest to the exact
    value of [x], ties to even, as a float. *)
Definition round_to (x : Q) (ndigits : Z) : Q := double (py_round x ndigits).

(** The power that rounds correctly, for the worked examples. *)
Definition correctly_rounded_pow (x : Q) (n : Z) : Q := double (x ^ n).

(** *** process_data.py and process_school_data.py: the accumulators *)

Module process_data_binary64.

(** The three [+=] of the row loop, on [value = float(row["SSP2"])]. *)
Definition add (age_group : Z) (value : Q) (a : process_data.Agg) : process_data.Agg :=
  let value := double value in
  {| process_data.total := double (process_data.total a + value);
     process_data.plus65 :=
       if 14 <=? age_group then double (process_data.plus65 a + value)
       else process_data.plus65 a;
     process_data.plus85 :=
       if 18 <=? age_group then double (process_data.plus85 a + value)
       else process_data.plus85 a |}.

Definition read_hauer (rows : list Row) : result (gmap string (gmap Z process_data.Agg)) :=
  read_rows process_data.zero add process_data.keep_year rows.

End process_data_binary64.

Module process_school_data_binary64.

Import process_school_data (Agg, School, YearRisk, Tiers, CensusCounty, demo_source,
                            scenario, hauer, census).

Definition add (age_group : Z) (value : Q) (a : Agg) : Agg :=
  let value := double value in
  {| process_school_data.total := double (process_school_data.total a + value);
     process_school_data.school_age :=
       if bool_decide (age_group ∈ [2; 3; 4])
       then double (process_school_data.school_age a + value)
       else process_school_data.school_age a |}.

Definition process_hauer_school_age (rows : list Row)
  : result (gmap string (gmap Z Agg)) :=
  read_rows process_school_data.zero add process_school_data.keep_year rows.

(** Step 1 of the year loop, Hauer branch. *)
Definition hauer_proj_sa (hauer_data : gmap string (gmap Z Agg)) (fips : string)
  (yr : Z) (baseline_sa : Q) : result Q :=
  match hauer_data !! fips with
  | Some years_data =>
      match years_data !! yr with
      | Some d => mret (process_school_data.school_age d)
      | None =>
          let avail := sorted_keys years_data in
          let before := years_before avail yr in
          let after := years_after avail yr in
          match last before, head after with
          | Some y1, Some y2 =>
              if y1 =? y2 then
                d ← subscript years_data y1; mret (process_school_data.school_age d)
              else
                let t := double (fraction yr y1 y2) in
                d1 ← subscript years_data y1;
                d2 ← subscript years_data y2;
                let sa1 := process_school_data.school_age d1 in
                let sa2 := process_school_data.school_age d2 in
                mret (double (sa1 + double (t * double (sa2 - sa1))))
          | _, _ => mret baseline_sa
          end
      end
  | None => mret baseline_sa
  end.

(** The pair [(proj_sa, base_sa)] of step 1. *)
Definition demographic (demo : demo_source)
  (hauer_data : gmap string (gmap Z Agg))
  (census_data : option (gmap string CensusCounty))
  (fips : string) (yr : Z) (baseline_sa : Q) : result (Q * Q) :=
  match demo with
  | hauer =>
      proj_sa ← hauer_proj_sa hauer_data fips yr baseline_sa;
      mret (proj_sa, process_school_data.hauer_base_sa hauer_data fips baseline_sa)
  | census =>
      match process_school_data.census_county census_data fips with
      | Some c =>
          mret (default baseline_sa (process_school_data.projections c !! yr),
                process_school_data.baseline_school_age c)
      | None => mret (baseline_sa, baseline_sa)
      end
  end.

(** [proj_sa / base_sa if base_sa > 0 else 1.0] *)
Definition demo_ratio (proj_sa base_sa : Q) : Q :=
  if Qltb 0 base_sa then double (proj_sa / base_sa) else 1%Q.

(** [combined_ratio = demo_ratio * tps_mult] *)
Definition combined_ratio (demo_ratio tps_mult : Q) : Q :=
  double (demo_ratio * tps_mult).

(** [(1 - combined_ratio) * 100] *)
Definition decline_pct (combined_ratio : Q) : Q :=
  double (double (1 - combined_ratio) * 100).

(** [s["enrollment"] * combined_ratio] *)
Definition proj_enroll (combined_ratio : Q) (s : School) : Q :=
  double (double (inject_Z (process_school_data.enrollment s)) * combined_ratio).

(** The body of [for s in school_list]. *)
Definition school_body (combined_ratio : Q) (acc : Tiers) (s : School) : Tiers :=
  let proj_enroll := proj_enroll combined_ratio s in
  let decline_pct := decline_pct combined_ratio in
  let '(g, y, o, r) :=
    if Qltb decline_pct 10 then
      (process_school_data.green acc + 1, process_school_data.yellow acc,
       process_school_data.orange acc, process_school_data.red acc)
    else if Qltb decline_pct 25 then
      (process_school_data.green acc, process_school_data.yellow acc + 1,
       process_school_data.orange acc, process_school_data.red acc)
    else if Qltb decline_pct 50 then
      (process_school_data.green acc, process_school_data.yellow acc,
       process_school_data.orange acc + 1, process_school_data.red acc)
    else
      (process_school_data.green acc, process_school_data.yellow acc,
       process_school_data.orange acc, process_school_data.red acc + 1) in
  {| process_school_data.projected_enrollment :=
       double (process_school_data.projected_enrollment acc + proj_enroll);
     process_school_data.green := g;
     process_school_data.yellow := y;
     process_school_data.orange := o;
     process_school_data.red := r;
     process_school_data.below_threshold :=
       if Qltb proj_enroll 100 then process_school_data.below_threshold acc + 1
       else process_school_data.below_threshold acc |}.

(** The body of [for yr in YEARS] for one county, demographic source
    and scenario. *)
Definition year_risk (hauer_data : gmap string (gmap Z Agg))
  (census_data : option (gmap string CensusCounty))
  (tps_multipliers : scenario -> gmap Z Q)
  (baseline_sa : Q) (fips : string) (school_list : list School)
  (demo : demo_source) (sc : scenario) (yr : Z) : result YearRisk :=
  sa ← demographic demo hauer_data census_data fips yr baseline_sa;
  let ratio := combined_ratio (demo_ratio (fst sa) (snd sa))
                 (process_school_data.tps_mult tps_multipliers sc yr) in
  let t := foldl (school_body ratio) process_school_data.no_tiers school_list in
  let total_enrollment := process_school_data.total_enrollment_of school_list in
  let pct :=
    if 0 <? total_enrollment
    then double (double (1 - double (process_school_data.projected_enrollment t
                                     / inject_Z total_enrollment)) * 100)
    else 0%Q in
  mret {| process_school_data.pct_decline := round_to pct 1;
          process_school_data.schools_green := process_school_data.green t;
          process_school_data.schools_yellow := process_school_data.yellow t;
          process_school_data.schools_orange := process_school_data.orange t;
          process_school_data.schools_red := process_school_data.red t;
          process_school_data.schools_below_threshold :=
            process_school_data.below_threshold t;
          process_school_data.key_projected_enrollment :=
            round_half_even (process_school_data.projected_enrollment t) |}.

End process_school_data_binary64.

(** *** process_closure_risk.py and process_cooper_center.py: the closures *)

Module process_closure_risk_binary64.

Import process_closure_risk (bucket_name, under100, b100_199, b200_299, b300_499,
                             b500plus, StateSchools, Tally, YearData, YearEstimate,
                             Qmax_py).

(** [CLOSURE_PROBS] *)
Definition large_stable : Q := double 0.0075.
Definition mild_decline : Q := double 0.010.
Definition medium_decline : Q := double 0.015.
Definition small_steep : Q := double 0.03.
Definition tiny : Q := double 0.04.

Definition avg_enrollment (schools : StateSchools) (b : bucket_name) : Q :=
  match b with
  | under100 => 55
  | b100_199 => 150
  | b200_299 => 250
  | b300_499 => 400
  | b500plus =>
      if 0 <? process_closure_risk.bucket_500plus schools
      then Qmax_py 750
             (double (inject_Z (process_closure_risk.total_enrollment schools)
                      / inject_Z (Z.max (process_closure_risk.bucket_500plus schools) 1)))
      else 750
  end%Q.

(** [avg_enr * (1.0 - decline_ratio)] *)
Definition projected_enr (avg_enr decline_ratio : Q) : Q :=
  double (avg_enr * double (1 - decline_ratio)).

(** [round(x / total * 100, 1) if total > 0 else 0] *)
Definition pct_of_total (x : Q) (total : Z) : Q :=
  if 0 <? total then round_to (double (double (x / inject_Z total) * 100)) 1 else 0%Q.

(** [enroll_decline_pct / 100.0], on the float of the dictionary. *)
Definition decline_ratio_of (scenario_data : gmap Z YearData) (target_year : Z) : Q :=
  let enroll_decline_pct :=
    default 0%Q (scenario_data !! target_year
                 ≫= process_closure_risk.key_enrollment_decline_pct) in
  double (double enroll_decline_pct / 100).

Section libm.

(** [x ** n] on a float calls [pow] of the C library, whose last digit
    is the platform's; it is left open. *)
Context (pow : Q -> Z -> Q).

(** [1.0 - (1.0 - annual_prob) ** years] *)
Definition cum_prob (annual_prob : Q) (years : Z) : Q :=
  double (1 - pow (double (1 - annual_prob)) years).

(** The body of [for bucket_name, count in buckets.items()]. *)
Definition bucket_body (avg : bucket_name -> Q) (decline_ratio : Q)
  (years_from_2025 : Z) (acc : Tally) (bc : bucket_name * Z) : Tally :=
  let count := snd bc in
  if count =? 0 then acc
  else
    let avg_enr := avg (fst bc) in
    let projected_enr := projected_enr avg_enr decline_ratio in
    let '(annual_prob, severe, elevated) :=
      if Qltb projected_enr 100 then
        (tiny, process_closure_risk.risk_severe acc + count,
         process_closure_risk.risk_elevated acc + count)
      else if Qltb projected_enr 200 && Qgtb decline_ratio 0.25 then
        (small_steep, process_closure_risk.risk_severe acc + count,
         process_closure_risk.risk_elevated acc + count)
      else if Qgtb decline_ratio (double 0.10) then
        (medium_decline, process_closure_risk.risk_severe acc,
         process_closure_risk.risk_elevated acc + count)
      else if Qgtb decline_ratio (double 0.03) then
        (mild_decline, process_closure_risk.risk_severe acc,
         process_closure_risk.risk_elevated acc + count)
      else
        (large_stable, process_closure_risk.risk_severe acc,
         process_closure_risk.risk_elevated acc) in
    let cum_prob := cum_prob annual_prob years_from_2025 in
    {| process_closure_risk.expected_closures :=
         double (process_closure_risk.expected_closures acc
                 + double (double (inject_Z count) * cum_prob));
       process_closure_risk.risk_elevated := elevated;
       process_closure_risk.risk_severe := severe |}.

Definition bucket_loop (avg : bucket_name -> Q) (decline_ratio : Q)
  (years_from_2025 : Z) (bs : list (bucket_name * Z)) : Tally :=
  foldl (bucket_body avg decline_ratio years_from_2025)
    {| process_closure_risk.expected_closures := 0;
       process_closure_risk.risk_elevated := 0;
       process_closure_risk.risk_severe := 0 |} bs.

(** One iteration of [for target_year in PROJECTION_YEARS]. *)
Definition estimate_year (schools : StateSchools) (scenario_data : gmap Z YearData)
  (target_year : Z) : YearEstimate :=
  let total := process_closure_risk.total_schools schools in
  let enrollment := process_closure_risk.total_enrollment schools in
  let decline_ratio := decline_ratio_of scenario_data target_year in
  let t := bucket_loop (avg_enrollment schools) decline_ratio
             (process_closure_risk.years_from_2025 target_year)
             (process_closure_risk.buckets schools) in
  {| process_closure_risk.projected_enrollment :=
       round_half_even (double (double (inject_Z enrollment)
                                * double (1 - decline_ratio)));
     process_closure_risk.key_expected_closures :=
       round_to (process_closure_risk.expected_closures t) 1;
     process_closure_risk.expected_closures_pct :=
       pct_of_total (process_closure_risk.expected_closures t) total;
     process_closure_risk.schools_elevated_risk := process_closure_risk.risk_elevated t;
     process_closure_risk.schools_elevated_risk_pct :=
       pct_of_total (inject_Z (process_closure_risk.risk_elevated t)) total;
     process_closure_risk.schools_severe_risk := process_closure_risk.risk_severe t;
     process_closure_risk.schools_severe_risk_pct :=
       pct_of_total (inject_Z (process_closure_risk.risk_severe t)) total |}.

End libm.

End process_closure_risk_binary64.

Module process_cooper_center_binary64.

Import process_closure_risk (bucket_name).

(** [CLOSURE_PROBS] of this script *)
Definition large_stable : Q := double 0.01.
Definition medium_decline : Q := double 0.02.
Definition small_steep : Q := double 0.05.
Definition tiny : Q := double 0.10.

Section libm.

Context (pow : Q -> Z -> Q).

(** The body of [for bucket_name, count in buckets.items()]. *)
Definition closure_body (decline_ratio : Q) (years_from_baseline : Z)
  (expected_closures : Q) (bc : bucket_name * Z) : Q :=
  let count := snd bc in
  if count =? 0 then expected_closures
  else
    let avg_enr := process_cooper_center.avg_enrollment (fst bc) in
    let projected_enr := process_closure_risk_binary64.projected_enr avg_enr decline_ratio in
    let annual_prob :=
      if Qltb projected_enr 100 then tiny
      else if Qltb projected_enr 200 && Qgtb decline_ratio 0.25 then small_steep
      else if Qltb projected_enr 300 && Qgtb decline_ratio (double 0.10)
      then medium_decline
      else if Qgtb decline_ratio (double 0.10) then medium_decline
      else large_stable in
    let years := Z.max years_from_baseline 1 in
    let cum_prob := process_closure_risk_binary64.cum_prob pow annual_prob years in
    double (expected_closures + double (double (inject_Z count) * cum_prob)).

Definition compute_closures (decline_ratio : Q) (buckets : list (bucket_name * Z))
  (years_from_baseline : Z) : Q :=
  foldl (closure_body decline_ratio years_from_baseline) 0%Q buckets.

End libm.

End process_cooper_center_binary64.

(** ** The statements of the design document, in its own words *)

Module design.

(** The birth years enrolled in calendar year [Y] that lie after the
    reference cutoff 2022. *)
Definition affected_birth_years (Y : Z) : list Z :=
  filter (fun b => 2022 < b) (seqZ (Y - 17) 13).

(** Arithmetic mean, 0 for no values. *)
Definition mean (l : list Q) : Q :=
  match l with
  | [] => 0%Q
  | _ => (Qsum l / inject_Z (Z.of_nat (length l)))%Q
  end.

(** A rule of a closure model: a test on the projected size and the
    decline ratio, and the annual probability it assigns. *)
Definition rule : Type := (Q -> Q -> bool) * Q.

(** The first rule of the table whose test holds decides; the
    background rate applies when none does. *)
Fixpoint first_match (rules : list rule) (background : Q) (size decline : Q) : Q :=
  match rules with
  | [] => background
  | r :: rules' =>
      if fst r size decline then snd r
      else first_match rules' background size decline
  end.

(** The rule table of the state-level scorer. *)
Definition state_rules : list rule :=
  [ (fun size _ => Qltb size 100, process_closure_risk.tiny);
    (fun size decline => Qltb size 200 && Qgtb decline 0.25,
      process_closure_risk.small_steep);
    (fun _ decline => Qgtb decline 0.10, process_closure_risk.medium_decline);
    (fun _ decline => Qgtb decline 0.03, process_closure_risk.mild_decline) ].

(** The rule table of the Cooper Center scorer. *)
Definition cooper_rules : list rule :=
  [ (fun size _ => Qltb size 100, process_cooper_center.tiny);
    (fun size decline => Qltb size 200 && Qgtb decline 0.25,
      process_cooper_center.small_steep);
    (fun _ decline => Qgtb decline 0.10, process_cooper_center.medium_decline) ].

(** [cum = 1 - (1 - annual_prob)^years], the years floored at 1. *)
Definition cum_prob (annual_prob : Q) (years : Z) : Q :=
  (1 - (1 - annual_prob) ^ Z.max years 1)%Q.

(** [count * cum] of one bucket, its probability chosen from the
    table at the projected size [avg * (1 - decline)]. *)
Definition bucket_closures {B : Type} (rules : list rule) (background : Q)
  (avg : B -> Q) (decline : Q) (years : Z) (bc : B * Z) : Q :=
  (inject_Z (snd bc)
   * cum_prob (first_match rules background (avg (fst bc) * (1 - decline)) decline)
       years)%Q.

(** Expected closures: the sum over the buckets. *)
Definition expected_closures {B : Type} (rules : list rule) (background : Q)
  (avg : B -> Q) (decline : Q) (years : Z) (buckets : list (B * Z)) : Q :=
  Qsum (bucket_closures rules background avg decline years <$> buckets).

(** The same model as the scripts compute it, in double precision:
    the constants are the doubles of their decimals, every operation
    rounds, and the sum runs over the buckets that have schools, in
    their order.  [pow] is the power of the platform. *)
Definition state_rules_binary64 : list rule :=
  [ (fun size _ => Qltb size 100, process_closure_risk_binary64.tiny);
    (fun size decline => Qltb size 200 && Qgtb decline 0.25,
      process_closure_risk_binary64.small_steep);
    (fun _ decline => Qgtb decline (double 0.10),
      process_closure_risk_binary64.medium_decline);
    (fun _ decline => Qgtb decline (double 0.03),
      process_closure_risk_binary64.mild_decline) ].

Definition cooper_rules_binary64 : list rule :=
  [ (fun size _ => Qltb size 100, process_cooper_center_binary64.tiny);
    (fun size decline => Qltb size 200 && Qgtb decline 0.25,
      process_cooper_center_binary64.small_steep);
    (fun _ decline => Qgtb decline (double 0.10),
      process_cooper_center_binary64.medium_decline) ].

Definition projected_size_binary64 (avg decline : Q) : Q :=
  double (avg * double (1 - decline)).

Definition cum_prob_binary64 (pow : Q -> Z -> Q) (annual_prob : Q) (years : Z) : Q :=
  double (1 - pow (double (1 - annual_prob)) (Z.max years 1)).

Definition bucket_closures_binary64 {B : Type} (pow : Q -> Z -> Q) (rules : list rule)
  (background : Q) (avg : B -> Q) (decline : Q) (years : Z) (bc : B * Z) : Q :=
  double (double (inject_Z (snd bc))
          * cum_prob_binary64 pow
              (first_match rules background
                 (projected_size_binary64 (avg (fst bc)) decline) decline)
              years).

Definition expected_closures_binary64 {B : Type} (pow : Q -> Z -> Q) (rules : list rule)
  (background : Q) (avg : B -> Q) (decline : Q) (years : Z) (buckets : list (B * Z)) : Q :=
  fsum (bucket_closures_binary64 pow rules background avg decline years
          <$> filter (fun bc => snd bc <> 0) buckets).

(** The nearest known year at or below the target, and at or above it. *)
Definition nearest_at_or_below {A : Type} (series : gmap Z A) (target y : Z) : Prop :=
  is_Some (series !! y) /\ y <= target
  /\ map_Forall (fun y' _ => y' <= target -> y' <= y) series.

Definition nearest_at_or_above {A : Type} (series : gmap Z A) (target y : Z) : Prop :=
  is_Some (series !! y) /\ target <= y
  /\ map_Forall (fun y' _ => target <= y' -> y <= y') series.

(** The composite of two decline ratios: the surviving fractions
    multiply. *)
Definition composite_ratio (ratio_a ratio_b : Q) : Q :=
  (1 - (1 - ratio_a) * (1 - ratio_b))%Q.

(** The four tier counts of a year add up to [n]. *)
Definition tiers_sum_to (n : Z) (r : process_school_data.YearRisk) : Prop :=
  process_school_data.schools_green r + process_school_data.schools_yellow r
  + process_school_data.schools_orange r + process_school_data.schools_red r = n.

(** In every scenario and year of an entry the tier counts add up to
    the entry's number of schools. *)
Definition partitioned (e : process_school_data.Entry) : Prop :=
  map_Forall
    (fun _ years =>
       map_Forall (fun _ r => tiers_sum_to (process_school_data.schools_total e) r)
         years)
    (process_school_data.entry_scenarios e).

(** The bucket counts of a state are non-negative and add up to its
    number of schools. *)
Definition counts_add_up (sd : process_closure_risk.StateSchools) : Prop :=
  0 <= process_closure_risk.bucket_under100 sd
  /\ 0 <= process_closure_risk.bucket_100_199 sd
  /\ 0 <= process_closure_risk.bucket_200_299 sd
  /\ 0 <= process_closure_risk.bucket_300_499 sd
  /\ 0 <= process_closure_risk.bucket_500plus sd
  /\ process_closure_risk.total_schools sd
     = process_closure_risk.bucket_under100 sd
       + process_closure_risk.bucket_100_199 sd
       + process_closure_risk.bucket_200_299 sd
       + process_closure_risk.bucket_300_499 sd
       + process_closure_risk.bucket_500plus sd.

End design.

(** ** Vocabulary of the proofs *)

(** What a row of the CSV does to the accumulation loop: it makes the
    loop raise [ValueError], it is passed over by one of the two
    [continue], or it is added to the accumulators of a county and year. *)
Inductive outcome : Type :=
| Fails
| Skipped
| Adds (fips : string) (year : Z) (age_group : Z) (value : Q).

Definition row_outcome (keep_year : Z -> bool) (row : Row) : outcome :=
  match YEAR row with
  | Malformed => Fails
  | Parses year =>
      if negb (keep_year year) then Skipped
      else if negb (bool_decide (zfill 2 (strip (STATE row)) ∈ STATE_FIPS)) then Skipped
      else
        match AGE row, SSP2 row with
        | Parses age_group, Parses value =>
            Adds (zfill 2 (strip (STATE row)) +:+ zfill 3 (strip (COUNTY row)))
              year age_group value
        | _, _ => Fails
        end
  end.

(** The entry that the target-year loop of [compute_enrollment_decline]
    leaves for year [Y], computed from the trajectory [sd]. *)
Definition written (sd : gmap Z process_closure_risk.YearData) (Y : Z)
  (yd : process_closure_risk.YearData) : process_closure_risk.YearData :=
  {| process_closure_risk.rate := process_closure_risk.rate yd;
     process_closure_risk.birth_decline_pct := process_closure_risk.birth_decline_pct yd;
     process_closure_risk.key_post_2022_fraction :=
       Some (py_round (process_closure_risk.post_2022_fraction
                         (process_closure_risk.lagged_decline sd Y)) 3);
     process_closure_risk.key_enrollment_decline_pct :=
       Some (py_round (process_closure_risk.enrollment_decline_pct
                         (process_closure_risk.lagged_decline sd Y)) 2) |}.

(** The dictionary [m] after the years [done] of the loop, started on [sd]. *)
Definition loop_inv (sd m : gmap Z process_closure_risk.YearData) (done : list Z) : Prop :=
  forall y, m !! y
            = if bool_decide (y ∈ done) then written sd y <$> sd !! y
              else sd !! y.

(** The state under which [process_ccd_schools] counts a school, if any. *)
Definition state_of (s : process_closure_risk.School) : option string :=
  match process_closure_risk.or_else (process_closure_risk.state_location s)
          (process_closure_risk.state_mailing s) with
  | Some st =>
      if process_closure_risk.truthy (Some st) && (String.length st =? 2)%nat
      then Some st else None
  | None => None
  end.

(** The schools of the list that are counted under the state [st]. *)
Definition schools_of (st : string) (l : list process_closure_risk.School)
  : list process_closure_risk.School :=
  filter (fun s => state_of s = Some st) l.

(** The value that a row adds to one accumulator of the county [fips]
    and the year [year]; [counts] tells whether the accumulator takes
    rows of the age band. *)
Definition added_value (keep_year : Z -> bool) (counts : Z -> bool) (fips : string)
  (year : Z) (row : Row) : Q :=
  match row_outcome keep_year row with
  | Adds f y age_group value =>
      if bool_decide (f = fips /\ y = year) && counts age_group then value else 0%Q
  | _ => 0%Q
  end.

(** The age band and the value of the rows that are added to the
    county [fips] and the year [year], in the order of the rows. *)
Definition key_rows (keep_year : Z -> bool) (fips : string) (year : Z)
  (rows : list Row) : list (Z * Q) :=
  omap (fun row =>
          match row_outcome keep_year row with
          | Adds f y age_group value =>
              if bool_decide (f = fips /\ y = year) then Some (age_group, value)
              else None
          | _ => None
          end) rows.

(** The values of the rows of [key_rows] whose age band [counts]
    takes, as the floats that the loop adds. *)
Definition added_floats (counts : Z -> bool) (l : list (Z * Q)) : list Q :=
  (fun gv => double (snd gv)) <$> filter (fun gv => counts (fst gv) = true) l.

(** Two runs of a row loop end alike: both raise [ValueError], or both
    return accumulators for the same counties and years, equal for every
    county and year whose rows come in the same order in both runs. *)
Definition ends_alike {A : Type} (keep_year : Z -> bool) (rows rows' : list Row)
  (run run' : result (gmap string (gmap Z A))) : Prop :=
  match run, run' with
  | Ok county_data, Ok county_data' =>
      forall fips year,
        (is_Some (county_data !! fips ≫= lookup year)
         <-> is_Some (county_data' !! fips ≫= lookup year))
        /\ (key_rows keep_year fips year rows = key_rows keep_year fips year rows' ->
            county_data !! fips ≫= lookup year = county_data' !! fips ≫= lookup year)
  | Raise e, Raise e' => e = ValueError /\ e' = ValueError
  | _, _ => False
  end.

(** The bound on the rounding of a chain of [+=] over the floats [l]:
    every addition rounds by no more than [2^-53] of its result, or by
    [2^-1075] where the doubles are evenly spaced. *)
Definition rounding_bound (l : list Q) : Q :=
  (((1 + 2 ^ (-53)) ^ Z.of_nat (length l) - 1)
   * (Qsum (Qabs <$> l) + 2 ^ (-1022)))%Q.

(** [s] is the chain of [+=] over the floats [l], in their order, and
    [s'] differs from it by no more than the rounding of two such
    chains. *)
Definition sums_agree (l : list Q) (s s' : Q) : Prop :=
  s = fsum l /\ (Qabs (s - s') <= 2 * rounding_bound l)%Q.

(** The value column of a row is not negative, when it parses. *)
Definition value_not_negative (row : Row) : Prop :=
  match SSP2 row with
  | Parses v => (0 <= v)%Q
  | Malformed => True
  end.

(** The accumulators of [process_hauer] are nested. *)
Definition nested (a : process_data.Agg) : Prop :=
  (0 <= process_data.plus85 a)%Q
  /\ (process_data.plus85 a <= process_data.plus65 a)%Q
  /\ (process_data.plus65 a <= process_data.total a)%Q.

(** The row passes the two filters of the row loop and belongs to the
    county [fips] and the year [year]. *)
Definition row_of (keep_year : Z -> bool) (fips : string) (year : Z) (row : Row) : Prop :=
  YEAR row = Parses year /\ keep_year year = true
  /\ zfill 2 (strip (STATE row)) ∈ STATE_FIPS
  /\ fips = zfill 2 (strip (STATE row)) +:+ zfill 3 (strip (COUNTY row)).

(** The entry that the year loop of [build_fertility_projections]
    writes for a scenario and year. *)
Definition scenario_year (rate_2022 annual_decline : Q) (census_multipliers : gmap Z Q)
  (sc : process_closure_risk.scenario) (year : Z) : process_closure_risk.YearData :=
  match sc with
  | process_closure_risk.census =>
      process_closure_risk.census_year rate_2022 census_multipliers year
  | process_closure_risk.state_trend =>
      process_closure_risk.state_trend_year rate_2022 annual_decline year
  end.

(** The year is a known year of the table or lies between two of them. *)
Definition bracketed (years : list Z) (y : Z) : Prop :=
  Exists (fun yr => yr <= y) years /\ Exists (fun yr => y <= yr) years.

#[global] Instance bracketed_dec (years : list Z) (y : Z) : Decision (bracketed years y).
Proof. unfold bracketed. apply _. Defined.

(** What is known of a school that [filter_tps_schools] keeps. *)
Definition passes (o : process_school_data.School) : Prop :=
  0 < process_school_data.enrollment o
  /\ (5 <= String.length (process_school_data.fips o))%nat
  /\ String.substring 0 2 (process_school_data.fips o) ∈ STATE_FIPS.

(** * Properties *)

(** ** Rational comparisons and sums *)

Lemma Qltb_lt (x y : Q) : Qltb x y = true <-> (x < y)%Q.
Proof.
  unfold Qltb. rewrite negb_true_iff, <- not_true_iff_false, Qle_bool_iff.
  split; [apply Qnot_le_lt | apply Qlt_not_le].
Qed.

Lemma Qltb_ge (x y : Q) : Qltb x y = false <-> (y <= x)%Q.
Proof.
  unfold Qltb. rewrite negb_false_iff. apply Qle_bool_iff.
Qed.

Lemma Qgeb_ge (x y : Q) : Qgeb x y = true <-> (y <= x)%Q.
Proof. apply Qle_bool_iff. Qed.

Lemma Qgeb_lt (x y : Q) : Qgeb x y = false <-> (x < y)%Q.
Proof.
  unfold Qgeb. rewrite <- not_true_iff_false, Qle_bool_iff.
  split; [apply Qnot_le_lt | apply Qlt_not_le].
Qed.

Lemma Qsum_cons (x : Q) (l : list Q) : Qsum (x :: l) = (x + Qsum l)%Q.
Proof. reflexivity. Qed.

(** ** The cohort-lag decline model *)

Section cohort_lag.

Import process_closure_risk.

Variable scenario_data : gmap Z YearData.

Lemma range_enrolled (Y : Z) :
  range (Y - 17) (Y - 5 + 1) = seqZ (Y - 17) 13.
Proof. unfold range. f_equal. lia. Qed.

(** The inner loop counts the birth years after 2022 and sums their
    birth declines. *)
Lemma cohort_loop (l : list Z) (acc : Z * Q) :
  fst (foldl (cohort_body scenario_data) acc l)
  = fst acc + Z.of_nat (length (filter (fun b => 2022 < b) l))
  /\ (snd (foldl (cohort_body scenario_data) acc l)
      == snd acc
         + Qsum (bd scenario_data <$> filter (fun b : Z => (2022 < b)%Z) l))%Q.
Proof.
  revert acc. induction l as [|b l IH]; intros acc; simpl.
  - split; [lia | unfold Qsum; simpl; ring].
  - destruct (IH (cohort_body scenario_data acc b)) as [IH1 IH2].
    rewrite IH1, IH2. unfold cohort_body.
    destruct (Z.ltb_spec 2022 b) as [Hb|Hb].
    + rewrite filter_cons_True by exact Hb. simpl fst. simpl snd.
      rewrite fmap_cons, Qsum_cons. simpl length.
      split; [lia | ring].
    + rewrite filter_cons_False by lia. split; [reflexivity | reflexivity].
Qed.

Lemma post_2022_grades_count (Y : Z) :
  post_2022_grades (lagged_decline scenario_data Y)
  = Z.of_nat (length (design.affected_birth_years Y)).
Proof.
  unfold lagged_decline, design.affected_birth_years.
  cbn [post_2022_grades]. rewrite range_enrolled.
  destruct (cohort_loop (seqZ (Y - 17) 13) (0, 0%Q)) as [H _].
  rewrite H. cbn [fst]. lia.
Qed.

Lemma avg_birth_decline_mean (Y : Z) :
  (avg_birth_decline (lagged_decline scenario_data Y)
   == design.mean (bd scenario_data <$> design.affected_birth_years Y))%Q.
Proof.
  unfold lagged_decline, design.affected_birth_years.
  cbn [avg_birth_decline]. rewrite range_enrolled.
  destruct (cohort_loop (seqZ (Y - 17) 13) (0, 0%Q)) as [H1 H2].
  cbn [fst] in H1. cbn [snd] in H2.
  set (acc := foldl (cohort_body scenario_data) (0, 0%Q) (seqZ (Y - 17) 13)) in *.
  set (aff := filter (fun b => 2022 < b) (seqZ (Y - 17) 13)) in *.
  rewrite H1. destruct aff as [|b aff].
  - reflexivity.
  - destruct (Z.ltb_spec 0 (0 + Z.of_nat (length (b :: aff)))) as [_|Hn];
      [|cbn [length] in Hn; lia].
    unfold design.mean. rewrite fmap_cons, <- fmap_cons.
    rewrite H2, length_fmap, Z.add_0_l.
    apply Qdiv_comp; [ring | reflexivity].
Qed.

End cohort_lag.

Section cohort_lag_claim.

Import process_closure_risk.

Lemma affected_birth_years_spec (Y b : Z) :
  b ∈ design.affected_birth_years Y <-> Y - 17 <= b <= Y - 5 /\ 2022 < b.
Proof.
  unfold design.affected_birth_years.
  rewrite list_elem_of_filter, elem_of_seqZ. lia.
Qed.

Lemma enrollment_decline_pct_unfold (scenario_data : gmap Z YearData) (Y : Z) :
  enrollment_decline_pct (lagged_decline scenario_data Y)
  = (post_2022_fraction (lagged_decline scenario_data Y)
     * avg_birth_decline (lagged_decline scenario_data Y))%Q
  /\ post_2022_fraction (lagged_decline scenario_data Y)
     = (inject_Z (post_2022_grades (lagged_decline scenario_data Y)) / inject_Z 13)%Q.
Proof. split; reflexivity. Qed.

(** C1.  For every target year [Y] the model walks the birth years
    [Y-17 .. Y-5], counts those after 2022, averages the trajectory's
    birth decline over exactly those (0 when there is none) and
    multiplies the average by [affected / 13]; what it writes back is
    that product rounded to two decimals (and the fraction rounded to
    three).  Target year 2025 has no affected grade and decline 0;
    target year 2040 has 13 affected grades and fraction 1. *)
Theorem cohort_lag_decline (scenario_data : gmap Z YearData) (Y : Z) :
  let d := lagged_decline scenario_data Y in
  range (Y - 17) (Y - 5 + 1)
  = [Y - 17; Y - 16; Y - 15; Y - 14; Y - 13; Y - 12; Y - 11; Y - 10; Y - 9;
     Y - 8; Y - 7; Y - 6; Y - 5]
  /\ post_2022_grades d = Z.of_nat (length (design.affected_birth_years Y))
  /\ (avg_birth_decline d
      == design.mean (bd scenario_data <$> design.affected_birth_years Y))%Q
  /\ (post_2022_fraction d == inject_Z (post_2022_grades d) / 13)%Q
  /\ (enrollment_decline_pct d
      == inject_Z (post_2022_grades d) / 13 * avg_birth_decline d)%Q
  /\ decline_body Y scenario_data
     = match scenario_data !! Y with
       | Some yd =>
           Ok (<[Y := {| rate := rate yd;
                         birth_decline_pct := birth_decline_pct yd;
                         key_post_2022_fraction :=
                           Some (py_round (post_2022_fraction d) 3);
                         key_enrollment_decline_pct :=
                           Some (py_round (enrollment_decline_pct d) 2) |}]>
                 scenario_data)
       | None => Raise KeyError
       end
  /\ post_2022_grades (lagged_decline scenario_data 2025) = 0
  /\ (enrollment_decline_pct (lagged_decline scenario_data 2025) == 0)%Q
  /\ post_2022_grades (lagged_decline scenario_data 2040) = 13
  /\ (post_2022_fraction (lagged_decline scenario_data 2040) == 1)%Q.
Proof.
  intros d.
  assert (H25 : post_2022_grades (lagged_decline scenario_data 2025) = 0)
    by (rewrite post_2022_grades_count; reflexivity).
  assert (H40 : post_2022_grades (lagged_decline scenario_data 2040) = 13)
    by (rewrite post_2022_grades_count; reflexivity).
  split; [|split; [|split; [|split; [|split; [|split; [|split; [|split; [|split]]]]]]]].
  - rewrite range_enrolled. unfold seqZ.
    change (Z.to_nat 13) with 13%nat. cbn [seq fmap list_fmap].
    repeat (f_equal; try lia).
  - apply post_2022_grades_count.
  - apply avg_birth_decline_mean.
  - reflexivity.
  - reflexivity.
  - unfold decline_body, subscript. fold d.
    destruct (scenario_data !! Y); reflexivity.
  - exact H25.
  - destruct (enrollment_decline_pct_unfold scenario_data 2025) as [-> ->].
    rewrite H25. reflexivity.
  - exact H40.
  - destruct (enrollment_decline_pct_unfold scenario_data 2040) as [_ ->].
    rewrite H40. reflexivity.
Qed.

End cohort_lag_claim.

(** The target-year loop mutates the dictionary it reads from.  It only
    adds keys that the inner loop never reads, so every year is computed
    from the trajectory as it was on entry. *)
Section cohort_lag_loop.

Import process_closure_risk.

Lemma lagged_decline_ext (m sd : gmap Z YearData) (Y : Z) :
  (forall b, bd m b = bd sd b) -> lagged_decline m Y = lagged_decline sd Y.
Proof.
  intros Hbd. unfold lagged_decline.
  assert (Hf : forall l acc,
             foldl (cohort_body m) acc l = foldl (cohort_body sd) acc l).
  { induction l as [|b l IH]; intros acc; [reflexivity|].
    cbn [foldl]. rewrite IH. unfold cohort_body. now rewrite Hbd. }
  now rewrite Hf.
Qed.

Lemma loop_inv_bd (sd m : gmap Z YearData) (done : list Z) :
  loop_inv sd m done -> forall b, bd m b = bd sd b.
Proof.
  intros Hinv b. unfold bd. rewrite (Hinv b).
  case_bool_decide; [|reflexivity].
  destruct (sd !! b); reflexivity.
Qed.

Lemma decline_loop (sd : gmap Z YearData) (l done : list Z) (m : gmap Z YearData) :
  loop_inv sd m done ->
  (forall y, y ∈ l -> is_Some (sd !! y)) ->
  exists m', for_each decline_body l m = Ok m' /\ loop_inv sd m' (done ++ l).
Proof.
  revert done m. induction l as [|Y l IH]; intros done m Hinv Hkeys.
  - exists m. rewrite app_nil_r. split; [reflexivity | exact Hinv].
  - destruct (Hkeys Y) as [yd Hyd]; [left|].
    assert (HmY : exists yd', m !! Y = Some yd' /\ rate yd' = rate yd
                              /\ birth_decline_pct yd' = birth_decline_pct yd).
    { rewrite (Hinv Y), Hyd. case_bool_decide; eauto. }
    destruct HmY as (yd' & HmY & Hrate & Hbdp).
    cbn [for_each]. unfold decline_body at 1, subscript. rewrite HmY.
    cbn [mbind result_bind mret result_ret].
    rewrite (lagged_decline_ext m sd Y (loop_inv_bd sd m done Hinv)).
    rewrite Hrate, Hbdp. fold (written sd Y yd).
    destruct (IH (done ++ [Y]) (<[Y := written sd Y yd]> m)) as (m' & Hm' & Hinv').
    + intros y. destruct (decide (y = Y)) as [->|Hne].
      * rewrite lookup_insert_eq, Hyd.
        rewrite bool_decide_eq_true_2 by (apply elem_of_app; right; left).
        reflexivity.
      * rewrite lookup_insert_ne by congruence. rewrite (Hinv y).
        apply (f_equal (fun b : bool => if b then _ else _)).
        apply bool_decide_ext. rewrite elem_of_app, list_elem_of_singleton.
        tauto.
    + intros y Hy. apply Hkeys. now right.
    + exists m'. split; [exact Hm'|]. now rewrite <- app_assoc in Hinv'.
Qed.

Lemma compute_enrollment_decline_stores (sd : gmap Z YearData) :
  (forall Y, 2025 <= Y <= 2050 -> is_Some (sd !! Y)) ->
  exists sd',
    compute_enrollment_decline sd = Ok sd'
    /\ forall Y, sd' !! Y
                 = if bool_decide (2025 <= Y <= 2050)
                   then written sd Y <$> sd !! Y else sd !! Y.
Proof.
  intros Hkeys. unfold compute_enrollment_decline.
  destruct (decline_loop sd (range 2025 2051) [] sd) as (sd' & Hrun & Hinv).
  - intros y. now rewrite bool_decide_eq_false_2 by apply not_elem_of_nil.
  - intros y Hy. apply Hkeys. unfold range in Hy.
    apply elem_of_seqZ in Hy. lia.
  - exists sd'. split; [exact Hrun|]. intros Y. rewrite (Hinv Y).
    apply (f_equal (fun b : bool => if b then _ else _)).
    apply bool_decide_ext. rewrite app_nil_l. unfold range.
    rewrite elem_of_seqZ. lia.
Qed.

End cohort_lag_loop.

(** ** The closure risk scorer *)

Section closure_scorer.

Import process_closure_risk.

(** The expected closures that one bucket adds to the accumulator. *)
Lemma bucket_body_expected (avg : bucket_name -> Q) (decline_ratio : Q)
  (target_year : Z) (acc : Tally) (bc : bucket_name * Z) :
  (expected_closures
     (bucket_body avg decline_ratio (years_from_2025 target_year) acc bc)
   == expected_closures acc
      + design.bucket_closures design.state_rules large_stable avg decline_ratio
          (target_year - 2025) bc)%Q.
Proof.
  unfold bucket_body, design.bucket_closures, design.cum_prob, years_from_2025.
  destruct (Z.eqb_spec (snd bc) 0) as [->|Hc].
  - ring.
  - unfold design.state_rules, design.first_match. cbn [fst snd].
    destruct (Qltb (avg (fst bc) * (1 - decline_ratio)) 100);
      [cbn [expected_closures]; reflexivity|].
    destruct (Qltb (avg (fst bc) * (1 - decline_ratio)) 200
              && Qgtb decline_ratio 0.25);
      [cbn [expected_closures]; reflexivity|].
    destruct (Qgtb decline_ratio 0.10); [cbn [expected_closures]; reflexivity|].
    destruct (Qgtb decline_ratio 0.03); cbn [expected_closures]; reflexivity.
Qed.

Lemma bucket_loop_expected (avg : bucket_name -> Q) (decline_ratio : Q)
  (target_year : Z) (bs : list (bucket_name * Z)) (acc : Tally) :
  (expected_closures
     (foldl (bucket_body avg decline_ratio (years_from_2025 target_year)) acc bs)
   == expected_closures acc
      + design.expected_closures design.state_rules large_stable avg decline_ratio
          (target_year - 2025) bs)%Q.
Proof.
  revert acc. induction bs as [|bc bs IH]; intros acc.
  - unfold design.expected_closures, Qsum. cbn. ring.
  - cbn [foldl]. rewrite IH, bucket_body_expected.
    unfold design.expected_closures. rewrite fmap_cons, Qsum_cons. ring.
Qed.

Lemma closure_body_expected (decline_ratio : Q) (years : Z) (acc : Q)
  (bc : bucket_name * Z) :
  (process_cooper_center.closure_body decline_ratio years acc bc
   == acc
      + design.bucket_closures design.cooper_rules
          process_cooper_center.large_stable process_cooper_center.avg_enrollment
          decline_ratio years bc)%Q.
Proof.
  unfold process_cooper_center.closure_body, design.bucket_closures,
    design.cum_prob.
  destruct (Z.eqb_spec (snd bc) 0) as [->|Hc].
  - ring.
  - unfold design.cooper_rules, design.first_match. cbn [fst snd].
    destruct (Qltb _ 100); [reflexivity|].
    destruct (Qltb _ 200 && Qgtb decline_ratio 0.25); [reflexivity|].
    destruct (Qgtb decline_ratio 0.10).
    + destruct (Qltb _ 300); reflexivity.
    + rewrite andb_false_r. reflexivity.
Qed.

Lemma compute_closures_expected (decline_ratio : Q) (years : Z)
  (bs : list (bucket_name * Z)) (acc : Q) :
  (foldl (process_cooper_center.closure_body decline_ratio years) acc bs
   == acc
      + design.expected_closures design.cooper_rules
          process_cooper_center.large_stable process_cooper_center.avg_enrollment
          decline_ratio years bs)%Q.
Proof.
  revert acc. induction bs as [|bc bs IH]; intros acc.
  - unfold design.expected_closures, Qsum. cbn. ring.
  - cbn [foldl]. rewrite IH, closure_body_expected.
    unfold design.expected_closures. rewrite fmap_cons, Qsum_cons. ring.
Qed.

End closure_scorer.

(** Rounding does not depend on how a rational is written. *)
Lemma round_half_even_comp (x y : Q) : (x == y)%Q -> round_half_even x = round_half_even y.
Proof.
  intros H. unfold round_half_even.
  rewrite (Qfloor_comp x y H).
  assert (Hc : (x - inject_Z (Qfloor y) ?= 1 # 2)%Q
               = (y - inject_Z (Qfloor y) ?= 1 # 2)%Q).
  { apply Qcompare_comp; [rewrite H|]; reflexivity. }
  now rewrite Hc.
Qed.

Lemma py_round_comp (x y : Q) (n : Z) : (x == y)%Q -> py_round x n = py_round y n.
Proof.
  intros H. unfold py_round.
  rewrite (round_half_even_comp (x * 10 ^ n) (y * 10 ^ n)); [reflexivity|].
  now rewrite H.
Qed.

(** ** Sorted keys and the two neighbours of a target year *)

Section neighbours.

Context {A : Type} (series : gmap Z A).

Lemma elem_of_sorted_keys (y : Z) : y ∈ sorted_keys series <-> is_Some (series !! y).
Proof.
  unfold sorted_keys. rewrite merge_sort_Permutation, elem_of_elements.
  apply elem_of_dom.
Qed.

Lemma sorted_keys_sorted : StronglySorted Z.le (sorted_keys series).
Proof. apply StronglySorted_merge_sort; apply _. Qed.

Lemma StronglySorted_filter_le (P : Z -> Prop) `{!forall y, Decision (P y)}
  (l : list Z) :
  StronglySorted Z.le l -> StronglySorted Z.le (filter P l).
Proof.
  induction 1 as [|y l Hl IH Hy]; [constructor|].
  rewrite filter_cons. case_decide; [|exact IH].
  constructor; [exact IH|].
  rewrite Forall_forall in *. intros z Hz.
  apply Hy. apply list_elem_of_filter in Hz. tauto.
Qed.

Lemma elem_of_years_before (target y : Z) :
  y ∈ years_before (sorted_keys series) target
  <-> y <= target /\ is_Some (series !! y).
Proof.
  unfold years_before. now rewrite list_elem_of_filter, elem_of_sorted_keys.
Qed.

Lemma elem_of_years_after (target y : Z) :
  y ∈ years_after (sorted_keys series) target
  <-> target <= y /\ is_Some (series !! y).
Proof.
  unfold years_after. now rewrite list_elem_of_filter, elem_of_sorted_keys.
Qed.

(** [before[-1]] is the nearest known year at or below the target. *)
Lemma last_before (target y : Z) :
  design.nearest_at_or_below series target y ->
  last (years_before (sorted_keys series) target) = Some y.
Proof.
  intros (Hy & Hle & Hmax).
  assert (Hin : y ∈ years_before (sorted_keys series) target)
    by (apply elem_of_years_before; auto).
  destruct (last (years_before (sorted_keys series) target)) as [z|] eqn:Hlast.
  - f_equal.
    assert (Hz : z ∈ years_before (sorted_keys series) target)
      by (apply last_Some_elem_of; exact Hlast).
    apply elem_of_years_before in Hz as [Hzt [x Hx]].
    pose proof (map_Forall_lookup_1 _ _ _ _ Hmax Hx Hzt) as Hzy.
    apply last_Some in Hlast as [l' Hl'].
    assert (Hs : StronglySorted Z.le (l' ++ [z])).
    { rewrite <- Hl'. apply StronglySorted_filter_le, sorted_keys_sorted. }
    rewrite Hl' in Hin. apply elem_of_app in Hin as [Hin|Hin].
    + pose proof (StronglySorted_app_1_elem_of _ _ _ y z Hs Hin) as Hyz.
      specialize (Hyz ltac:(left)). lia.
    + apply list_elem_of_singleton in Hin. lia.
  - apply last_None in Hlast. rewrite Hlast in Hin.
    now apply not_elem_of_nil in Hin.
Qed.

(** [after[0]] is the nearest known year at or above the target. *)
Lemma head_after (target y : Z) :
  design.nearest_at_or_above series target y ->
  head (years_after (sorted_keys series) target) = Some y.
Proof.
  intros (Hy & Hle & Hmin).
  assert (Hin : y ∈ years_after (sorted_keys series) target)
    by (apply elem_of_years_after; auto).
  destruct (years_after (sorted_keys series) target) as [|z l'] eqn:Hafter.
  - now apply not_elem_of_nil in Hin.
  - cbn. f_equal.
    assert (Hz : z ∈ years_after (sorted_keys series) target)
      by (rewrite Hafter; left).
    apply elem_of_years_after in Hz as [Hzt [x Hx]].
    pose proof (map_Forall_lookup_1 _ _ _ _ Hmin Hx Hzt) as Hzy.
    assert (Hs : StronglySorted Z.le (z :: l')).
    { rewrite <- Hafter. apply StronglySorted_filter_le, sorted_keys_sorted. }
    apply StronglySorted_cons in Hs as [Hall _].
    apply elem_of_cons in Hin as [Hin|Hin]; [lia|].
    rewrite Forall_forall in Hall. specialize (Hall y Hin). lia.
Qed.

Lemma no_years_before (target : Z) :
  map_Forall (fun y' _ => target < y') series ->
  years_before (sorted_keys series) target = [].
Proof.
  intros Hall. apply elem_of_nil_inv. intros y Hy.
  apply elem_of_years_before in Hy as [Hle [x Hx]].
  pose proof (map_Forall_lookup_1 _ _ _ _ Hall Hx) as Hlt. cbv beta in Hlt. lia.
Qed.

Lemma no_years_after (target : Z) :
  map_Forall (fun y' _ => y' < target) series ->
  years_after (sorted_keys series) target = [].
Proof.
  intros Hall. apply elem_of_nil_inv. intros y Hy.
  apply elem_of_years_after in Hy as [Hle [x Hx]].
  pose proof (map_Forall_lookup_1 _ _ _ _ Hall Hx) as Hlt. cbv beta in Hlt. lia.
Qed.

(** The years that the loops subscript with are keys of the series. *)
Lemma last_before_key (target y : Z) :
  last (years_before (sorted_keys series) target) = Some y ->
  is_Some (series !! y) /\ y <= target.
Proof.
  intros H. apply last_Some_elem_of, elem_of_years_before in H. tauto.
Qed.

Lemma head_after_key (target y : Z) :
  head (years_after (sorted_keys series) target) = Some y ->
  is_Some (series !! y) /\ target <= y.
Proof.
  intros H. apply head_Some_elem_of, elem_of_years_after in H. tauto.
Qed.

End neighbours.

(** ** The temporal resampler of [process_hauer] *)

Section resampler.

Import process_data.

Variable years_data : gmap Z Agg.
Variable target_year : Z.

Lemma resample_known (d : Agg) :
  years_data !! target_year = Some d ->
  resample years_data target_year = Ok (Some d).
Proof. intros H. unfold resample. now rewrite H. Qed.

Lemma resample_between (y1 y2 : Z) (d1 d2 : Agg) :
  years_data !! target_year = None ->
  design.nearest_at_or_below years_data target_year y1 ->
  design.nearest_at_or_above years_data target_year y2 ->
  years_data !! y1 = Some d1 ->
  years_data !! y2 = Some d2 ->
  resample years_data target_year
  = Ok (Some {| total := lerp (fraction target_year y1 y2) (total d1) (total d2);
                plus65 := lerp (fraction target_year y1 y2) (plus65 d1) (plus65 d2);
                plus85 := lerp (fraction target_year y1 y2) (plus85 d1) (plus85 d2) |}).
Proof.
  intros Hnone Hb Ha H1 H2. unfold resample.
  rewrite Hnone, (last_before _ _ _ Hb), (head_after _ _ _ Ha).
  destruct Hb as (_ & Hle1 & _), Ha as (_ & Hle2 & _).
  destruct (Z.eqb_spec y1 y2) as [Heq|Hne].
  - assert (y1 = target_year) by lia. subst y1. congruence.
  - unfold subscript. rewrite H1, H2. reflexivity.
Qed.

Lemma resample_above_range (y : Z) (d : Agg) :
  years_data !! y = Some d ->
  map_Forall (fun y' _ => y' <= y) years_data ->
  y < target_year ->
  resample years_data target_year = Ok (Some d).
Proof.
  intros Hy Hmax Hlt. unfold resample.
  assert (Hnone : years_data !! target_year = None).
  { destruct (years_data !! target_year) as [x|] eqn:Hx; [|reflexivity].
    pose proof (map_Forall_lookup_1 _ _ _ _ Hmax Hx) as H. cbv beta in H. lia. }
  rewrite Hnone.
  rewrite (last_before _ target_year y).
  - rewrite no_years_after.
    + cbn [head]. unfold subscript. now rewrite Hy.
    + eapply map_Forall_impl; [exact Hmax|]. cbv beta. intros; lia.
  - split; [eauto|]. split; [lia|].
    eapply map_Forall_impl; [exact Hmax|]. cbv beta. intros; lia.
Qed.

Lemma resample_below_range (y : Z) (d : Agg) :
  years_data !! y = Some d ->
  map_Forall (fun y' _ => y <= y') years_data ->
  target_year < y ->
  resample years_data target_year = Ok (Some d).
Proof.
  intros Hy Hmin Hlt. unfold resample.
  assert (Hnone : years_data !! target_year = None).
  { destruct (years_data !! target_year) as [x|] eqn:Hx; [|reflexivity].
    pose proof (map_Forall_lookup_1 _ _ _ _ Hmin Hx) as H. cbv beta in H. lia. }
  rewrite Hnone.
  rewrite (head_after _ target_year y).
  - rewrite no_years_before.
    + cbn [last]. unfold subscript. now rewrite Hy.
    + eapply map_Forall_impl; [exact Hmin|]. cbv beta. intros; lia.
  - split; [eauto|]. split; [lia|].
    eapply map_Forall_impl; [exact Hmin|]. cbv beta. intros; lia.
Qed.

(** The resampler never raises: the years it subscripts with are keys. *)
Lemma resample_total : exists od, resample years_data target_year = Ok od.
Proof.
  unfold resample. destruct (years_data !! target_year); [eauto|].
  destruct (last _) as [y1|] eqn:Hl, (head _) as [y2|] eqn:Hh.
  - apply last_before_key in Hl as [[d1 H1] _].
    apply head_after_key in Hh as [[d2 H2] _].
    unfold subscript. rewrite H1, H2.
    destruct (y1 =? y2); eauto.
  - apply last_before_key in Hl as [[d1 H1] _].
    unfold subscript. rewrite H1. eauto.
  - apply head_after_key in Hh as [[d2 H2] _].
    unfold subscript. rewrite H2. eauto.
  - eauto.
Qed.

End resampler.

Lemma resample_empty (target_year : Z) :
  process_data.resample ∅ target_year = Ok None.
Proof. reflexivity. Qed.

Lemma resample_singleton (y : Z) (d : process_data.Agg) (target_year : Z) :
  process_data.resample {[ y := d ]} target_year = Ok (Some d).
Proof.
  destruct (Z.lt_trichotomy target_year y) as [Hlt|[->|Hgt]].
  - apply resample_below_range with y; [apply lookup_singleton_eq| |exact Hlt].
    apply map_Forall_singleton. lia.
  - apply resample_known, lookup_singleton_eq.
  - apply resample_above_range with y; [apply lookup_singleton_eq| |lia].
    apply map_Forall_singleton. lia.
Qed.

Section resampler_claim.

Import process_data.

(** C5.  The value that [process_hauer] takes for a target year: the
    known value when the year is in the series; when it lies strictly
    between two known years, [v1 + (target - y1)/(y2 - y1) * (v2 - v1)]
    for each accumulator, [y1] and [y2] being the nearest known years
    at or below and at or above the target; the value of the last
    (first) known year when the target lies after (before) all of
    them; hence the single value of a one-year series for every
    target.  Between (2025, 100) and (2030, 150) the year 2027 gets
    120. *)
Theorem temporal_resampler (years_data : gmap Z Agg) (target_year : Z) :
  (forall d, years_data !! target_year = Some d ->
             resample years_data target_year = Ok (Some d))
  /\ (forall y1 y2 d1 d2,
        years_data !! target_year = None ->
        design.nearest_at_or_below years_data target_year y1 ->
        design.nearest_at_or_above years_data target_year y2 ->
        years_data !! y1 = Some d1 ->
        years_data !! y2 = Some d2 ->
        let t := (inject_Z (target_year - y1) / inject_Z (y2 - y1))%Q in
        y1 < target_year < y2
        /\ resample years_data target_year
           = Ok (Some {| total := (total d1 + t * (total d2 - total d1))%Q;
                         plus65 := (plus65 d1 + t * (plus65 d2 - plus65 d1))%Q;
                         plus85 := (plus85 d1 + t * (plus85 d2 - plus85 d1))%Q |}))
  /\ (forall y d,
        years_data !! y = Some d ->
        map_Forall (fun y' _ => y' <= y) years_data ->
        y < target_year ->
        resample years_data target_year = Ok (Some d))
  /\ (forall y d,
        years_data !! y = Some d ->
        map_Forall (fun y' _ => y <= y') years_data ->
        target_year < y ->
        resample years_data target_year = Ok (Some d))
  /\ (forall y d, resample {[ y := d ]} target_year = Ok (Some d))
  /\ (forall a b c e,
        exists d,
          resample (<[2025 := {| total := 100; plus65 := a; plus85 := b |}]>
                      {[ 2030 := {| total := 150; plus65 := c; plus85 := e |} ]})
            2027 = Ok (Some d)
          /\ (total d == 120)%Q).
Proof.
  split; [|split; [|split; [|split; [|split]]]].
  - apply resample_known.
  - intros y1 y2 d1 d2 Hnone Hb Ha H1 H2 t. split.
    + destruct Hb as (_ & Hb & _), Ha as (_ & Ha & _).
      assert (y1 <> target_year) by congruence.
      assert (y2 <> target_year) by congruence. lia.
    + apply resample_between; assumption.
  - apply resample_above_range.
  - apply resample_below_range.
  - intros y d. apply resample_singleton.
  - intros a b c e. eexists. split.
    + apply resample_between with (y1 := 2025) (y2 := 2030).
      * reflexivity.
      * split; [rewrite lookup_insert_eq; eauto|]. split; [lia|].
        apply map_Forall_insert_2; [lia|]. apply map_Forall_singleton. lia.
      * split; [rewrite lookup_insert_ne by lia; rewrite lookup_singleton_eq; eauto|].
        split; [lia|].
        apply map_Forall_insert_2; [lia|]. apply map_Forall_singleton. lia.
      * apply lookup_insert_eq.
      * rewrite lookup_insert_ne by lia. apply lookup_singleton_eq.
    + reflexivity.
Qed.

Lemma temporal_resampler_witness :
  let series : gmap Z Agg :=
    <[2025 := {| total := 100; plus65 := 10; plus85 := 1 |}]>
      {[ 2030 := {| total := 150; plus65 := 20; plus85 := 2 |} ]} in
  resample series 2030 = Ok (Some {| total := 150; plus65 := 20; plus85 := 2 |})
  /\ resample series 2050 = Ok (Some {| total := 150; plus65 := 20; plus85 := 2 |})
  /\ 2025 < 2027 < 2030
  /\ resample series 2027
     = Ok (Some {| total := 100 + 2 / 5 * (150 - 100);
                   plus65 := 10 + 2 / 5 * (20 - 10);
                   plus85 := 1 + 2 / 5 * (2 - 1) |}).
Proof.
  intros series. split; [|split].
  - apply (proj1 (temporal_resampler series 2030)). reflexivity.
  - apply (proj1 (proj2 (proj2 (temporal_resampler series 2050))) 2030).
    + reflexivity.
    + apply map_Forall_insert_2; [lia|]. apply map_Forall_singleton. lia.
    + lia.
  - apply (proj1 (proj2 (temporal_resampler series 2027)) 2025 2030
             {| total := 100; plus65 := 10; plus85 := 1 |}
             {| total := 150; plus65 := 20; plus85 := 2 |}).
    + reflexivity.
    + split; [eexists; reflexivity|]. split; [lia|].
      apply map_Forall_insert_2; [lia|]. apply map_Forall_singleton. lia.
    + split; [eexists; reflexivity|]. split; [lia|].
      apply map_Forall_insert_2; [lia|]. apply map_Forall_singleton. lia.
    + reflexivity.
    + reflexivity.
Defined.

End resampler_claim.

(** ** The accumulation loop over the rows *)

Section accumulation_facts.

Context {A : Type} (zero : A) (add : Z -> Q -> A -> A) (keep_year : Z -> bool).

Implicit Types (county_data : gmap string (gmap Z A)) (fips : string) (year : Z).

Lemma row_body_outcome row county_data :
  row_body zero add keep_year row county_data
  = match row_outcome keep_year row with
    | Fails => Raise ValueError
    | Skipped => Ok county_data
    | Adds fips year age_group value =>
        Ok (store county_data fips year
              (add age_group value (accumulators zero county_data fips year)))
    end.
Proof.
  unfold row_body, row_outcome.
  destruct (YEAR row) as [year|]; [|reflexivity]. cbn [parse mbind result_bind].
  destruct (negb (keep_year year)); [reflexivity|].
  destruct (negb (bool_decide (zfill 2 (strip (STATE row)) ∈ STATE_FIPS)));
    [reflexivity|].
  destruct (AGE row) as [age_group|]; [|reflexivity].
  destruct (SSP2 row) as [value|]; reflexivity.
Qed.

Lemma accumulators_store_eq county_data fips year a :
  accumulators zero (store county_data fips year a) fips year = a.
Proof.
  unfold accumulators, store. rewrite lookup_insert_eq. cbn.
  now rewrite lookup_insert_eq.
Qed.

Lemma accumulators_store_ne county_data fips year a fips' year' :
  (fips, year) <> (fips', year') ->
  accumulators zero (store county_data fips year a) fips' year'
  = accumulators zero county_data fips' year'.
Proof.
  intros Hne. unfold accumulators, store.
  destruct (decide (fips = fips')) as [<-|Hf].
  - rewrite lookup_insert_eq. cbn.
    rewrite lookup_insert_ne by congruence.
    destruct (county_data !! fips); [reflexivity|]. cbn. now rewrite lookup_empty.
  - now rewrite lookup_insert_ne by exact Hf.
Qed.

End accumulation_facts.

(** ** Rows that do not parse *)

Lemma row_fails_iff (keep_year : Z -> bool) (row : Row) :
  row_outcome keep_year row = Fails
  <-> YEAR row = Malformed
      \/ exists year, YEAR row = Parses year /\ keep_year year = true
                      /\ zfill 2 (strip (STATE row)) ∈ STATE_FIPS
                      /\ (AGE row = Malformed \/ SSP2 row = Malformed).
Proof.
  unfold row_outcome. destruct (YEAR row) as [year|]; [|tauto].
  destruct (keep_year year) eqn:Hk; cbn [negb].
  - case_bool_decide as Hst; cbn [negb].
    + destruct (AGE row) as [g|], (SSP2 row) as [v|]; split;
        try (intros _; right; exists year; tauto); try reflexivity.
      * discriminate.
      * intros [H|(y & _ & _ & _ & [H|H])]; discriminate.
    + split; [discriminate|].
      intros [H|(y & _ & _ & H & _)]; [discriminate | contradiction].
  - split; [discriminate|].
    intros [H|(y & Hy & H & _)]; [discriminate|].
    injection Hy as <-. congruence.
Qed.

Lemma row_skipped_iff (keep_year : Z -> bool) (row : Row) :
  row_outcome keep_year row = Skipped
  <-> exists year, YEAR row = Parses year
                   /\ (keep_year year = false
                       \/ zfill 2 (strip (STATE row)) ∉ STATE_FIPS).
Proof.
  unfold row_outcome. destruct (YEAR row) as [year|].
  - destruct (keep_year year) eqn:Hk; cbn [negb].
    + case_bool_decide as Hst; cbn [negb].
      * destruct (AGE row) as [g|], (SSP2 row) as [v|]; split; try discriminate;
          intros (y & Hy & [H|H]); injection Hy as <-; congruence.
      * split; [|reflexivity]. intros _. exists year. tauto.
    + split; [|reflexivity]. intros _. exists year. tauto.
  - split; [discriminate|]. intros (y & H & _). discriminate.
Qed.

Section malformed_rows.

Context {A : Type} (zero : A) (add : Z -> Q -> A -> A) (keep_year : Z -> bool).

(** The loop raises exactly when some row fails, and then it raises
    [ValueError]. *)
Lemma for_each_rows_result (rows : list Row) (county_data : gmap string (gmap Z A)) :
  match for_each (row_body zero add keep_year) rows county_data with
  | Raise e => e = ValueError /\ Exists (fun r => row_outcome keep_year r = Fails) rows
  | Ok _ => Forall (fun r => row_outcome keep_year r <> Fails) rows
  end.
Proof.
  revert county_data. induction rows as [|r rows IH]; intros county_data.
  - constructor.
  - cbn [for_each]. rewrite row_body_outcome.
    destruct (row_outcome keep_year r) as [| |f y g v] eqn:Hr.
    + split; [reflexivity|]. now left.
    + specialize (IH county_data).
      destruct (for_each _ rows county_data).
      * constructor; [congruence | exact IH].
      * destruct IH as [-> IH]. split; [reflexivity | now right].
    + specialize (IH (store county_data f y
                        (add g v (accumulators zero county_data f y)))).
      destruct (for_each _ rows _).
      * constructor; [congruence | exact IH].
      * destruct IH as [-> IH]. split; [reflexivity | now right].
Qed.

End malformed_rows.

Lemma process_data_keep_year (year : Z) :
  process_data.keep_year year = true <-> year ∈ process_data.YEARS.
Proof.
  unfold process_data.keep_year. case_bool_decide as H; cbn.
  - tauto.
  - destruct (Z.eqb_spec year 2020) as [->|_]; cbn.
    + exfalso. apply H. left.
    + split; [discriminate | contradiction].
Qed.

Lemma process_school_data_keep_year (year : Z) :
  process_school_data.keep_year year = true
  <-> year ∈ 2020 :: process_school_data.YEARS.
Proof.
  unfold process_school_data.keep_year. rewrite negb_involutive.
  apply bool_decide_eq_true.
Qed.

(** C8, as the scripts behave.  Neither row loop catches a parse error
    or counts anything.  A row is passed over, leaving the accumulators
    as they are, exactly when its YEAR parses and either is not a kept
    year or its state code is not a known one.  A row fails exactly when
    its YEAR does not parse, or it passes both filters and its AGE or
    its value does not parse; the loop then raises [ValueError] and
    there is no result.  Every other row is added to the accumulators
    of its county and year, whatever its age-band code. *)
Theorem malformed_rows_abort (rows : list Row) :
  (forall row county_data,
     row_body process_data.zero process_data.add process_data.keep_year row county_data
     = match row_outcome process_data.keep_year row with
       | Fails => Raise ValueError
       | Skipped => Ok county_data
       | Adds fips year age_group value =>
           Ok (store county_data fips year
                 (process_data.add age_group value
                    (accumulators process_data.zero county_data fips year)))
       end)
  /\ (forall row county_data,
        row_body process_school_data.zero process_school_data.add
          process_school_data.keep_year row county_data
        = match row_outcome process_school_data.keep_year row with
          | Fails => Raise ValueError
          | Skipped => Ok county_data
          | Adds fips year age_group value =>
              Ok (store county_data fips year
                    (process_school_data.add age_group value
                       (accumulators process_school_data.zero county_data fips year)))
          end)
  /\ (forall keep_year row,
        (row_outcome keep_year row = Fails
         <-> YEAR row = Malformed
             \/ exists year, YEAR row = Parses year /\ keep_year year = true
                             /\ zfill 2 (strip (STATE row)) ∈ STATE_FIPS
                             /\ (AGE row = Malformed \/ SSP2 row = Malformed))
        /\ (row_outcome keep_year row = Skipped
            <-> exists year, YEAR row = Parses year
                             /\ (keep_year year = false
                                 \/ zfill 2 (strip (STATE row)) ∉ STATE_FIPS)))
  /\ match process_data.read_hauer rows with
     | Raise e =>
         e = ValueError
         /\ Exists (fun r => row_outcome process_data.keep_year r = Fails) rows
     | Ok _ => Forall (fun r => row_outcome process_data.keep_year r <> Fails) rows
     end
  /\ match process_school_data.process_hauer_school_age rows with
     | Raise e =>
         e = ValueError
         /\ Exists (fun r => row_outcome process_school_data.keep_year r = Fails) rows
     | Ok _ =>
         Forall (fun r => row_outcome process_school_data.keep_year r <> Fails) rows
     end.
Proof.
  split; [|split; [|split; [|split]]].
  - intros. apply row_body_outcome.
  - intros. apply row_body_outcome.
  - intros. split; [apply row_fails_iff | apply row_skipped_iff].
  - apply for_each_rows_result.
  - apply for_each_rows_result.
Qed.

(** C8, as stated, fails: a row whose YEAR does not parse aborts both
    loops, although the other row alone would give a result; and a row
    with the age-band code 99 is not passed over but added. *)
Lemma malformed_row_is_fatal :
  let good := {| YEAR := Parses 2030; STATE := "1"; COUNTY := "1";
                 AGE := Parses 15; SSP2 := Parses 10.5%Q |} in
  let bad := {| YEAR := Malformed; STATE := "1"; COUNTY := "1";
                AGE := Parses 15; SSP2 := Parses 10.5%Q |} in
  let odd := {| YEAR := Parses 2030; STATE := "1"; COUNTY := "1";
                AGE := Parses 99; SSP2 := Parses 10.5%Q |} in
  process_data.read_hauer [good]
  = Ok (store ∅ "01001" 2030 (process_data.add 15 10.5 process_data.zero))
  /\ process_data.read_hauer [bad; good] = Raise ValueError
  /\ process_data.process_hauer [bad; good] = Raise ValueError
  /\ process_school_data.process_hauer_school_age [bad; good] = Raise ValueError
  /\ process_data.read_hauer [odd]
     = Ok (store ∅ "01001" 2030 (process_data.add 99 10.5 process_data.zero)).
Proof. repeat split; vm_compute; reflexivity. Qed.

Lemma malformed_rows_abort_witness :
  row_outcome process_data.keep_year
    {| YEAR := Parses 2030; STATE := "1"; COUNTY := "1";
       AGE := Malformed; SSP2 := Parses 10.5%Q |} = Fails.
Proof.
  apply (proj2 (proj1 (proj1 (proj2 (proj2 (malformed_rows_abort []))) _ _))).
  right. exists 2030. cbn [YEAR STATE AGE SSP2].
  split; [reflexivity|]. split; [reflexivity|]. split; [|left; reflexivity].
  apply (bool_decide_unpack _). vm_compute. reflexivity.
Defined.

(** ** The scenario composer and the risk tiers of [assemble_risk_data] *)

Section composer.

Import process_school_data.

(** C3.  [assemble_risk_data] composes the demographic ratio and the
    market-share multiplier, both surviving fractions, by their
    product; in terms of decline ratios [1 - fraction] that is
    [1 - (1 - a) * (1 - b)], which is the percentage the tiers are cut
    from.  Ratio 0 is neutral and ratio 1 absorbing, on either side. *)
Theorem scenario_composition (survival_a survival_b r : Q) :
  (combined_ratio survival_a survival_b == survival_a * survival_b)%Q
  /\ (1 - combined_ratio survival_a survival_b
      == design.composite_ratio (1 - survival_a) (1 - survival_b))%Q
  /\ (1 - combined_ratio (1 - 0) (1 - r) == r)%Q
  /\ (1 - combined_ratio (1 - r) (1 - 0) == r)%Q
  /\ (1 - combined_ratio (1 - 1) (1 - r) == 1)%Q
  /\ (1 - combined_ratio (1 - r) (1 - 1) == 1)%Q
  /\ (design.composite_ratio 0 r == r)%Q
  /\ (design.composite_ratio r 0 == r)%Q
  /\ (design.composite_ratio 1 r == 1)%Q
  /\ (design.composite_ratio r 1 == 1)%Q.
Proof.
  unfold combined_ratio, design.composite_ratio.
  repeat split; ring.
Qed.

(** Every school of the list goes to exactly one of the four tiers. *)
Lemma school_loop_tiers (ratio : Q) (school_list : list School) (acc : Tiers) :
  let t := foldl (school_body ratio) acc school_list in
  green t + yellow t + orange t + red t
  = green acc + yellow acc + orange acc + red acc + Z.of_nat (length school_list).
Proof.
  revert acc. induction school_list as [|s l IH]; intros acc.
  - cbn. lia.
  - cbn [foldl length]. cbv zeta in IH. rewrite IH.
    unfold school_body.
    destruct (Qltb ((1 - ratio) * 100) 10); [cbn [green yellow orange red]; lia|].
    destruct (Qltb ((1 - ratio) * 100) 25); [cbn [green yellow orange red]; lia|].
    destruct (Qltb ((1 - ratio) * 100) 50); cbn [green yellow orange red]; lia.
Qed.

Lemma school_loop_below (ratio : Q) (school_list : list School) (acc : Tiers) :
  let t := foldl (school_body ratio) acc school_list in
  below_threshold acc <= below_threshold t
  <= below_threshold acc + Z.of_nat (length school_list).
Proof.
  revert acc. induction school_list as [|s l IH]; intros acc.
  - cbn. lia.
  - cbn [foldl length]. cbv zeta in IH.
    specialize (IH (school_body ratio acc s)).
    assert (below_threshold acc <= below_threshold (school_body ratio acc s)
            <= below_threshold acc + 1).
    { unfold school_body.
      destruct (Qltb ((1 - ratio) * 100) 10), (Qltb ((1 - ratio) * 100) 25),
        (Qltb ((1 - ratio) * 100) 50), (Qltb _ 100);
        cbn [below_threshold]; lia. }
    lia.
Qed.

(** The decline that the scorer reports for a county is the composite
    of the two decline ratios. *)
Lemma school_loop_projected (ratio : Q) (school_list : list School) (acc : Tiers) :
  (projected_enrollment (foldl (school_body ratio) acc school_list)
   == projected_enrollment acc + inject_Z (total_enrollment_of school_list) * ratio)%Q.
Proof.
  revert acc. induction school_list as [|s l IH]; intros acc.
  - cbn. ring.
  - cbn [foldl]. rewrite IH. unfold total_enrollment_of.
    rewrite fmap_cons. cbn [foldr]. rewrite inject_Z_plus.
    unfold school_body.
    destruct (Qltb ((1 - ratio) * 100) 10), (Qltb ((1 - ratio) * 100) 25),
      (Qltb ((1 - ratio) * 100) 50); cbn [projected_enrollment]; ring.
Qed.

Lemma year_risk_pct_decline (hauer_data : gmap string (gmap Z Agg))
  (census_data : option (gmap string CensusCounty))
  (tps_multipliers : scenario -> gmap Z Q) (baseline_sa : Q) (fips : string)
  (school_list : list School) (demo : demo_source) (sc : scenario) (yr : Z)
  (sa : Q * Q) :
  0 < total_enrollment_of school_list ->
  demographic demo hauer_data census_data fips yr baseline_sa = Ok sa ->
  exists r,
    year_risk hauer_data census_data tps_multipliers baseline_sa fips school_list
      demo sc yr = Ok r
    /\ pct_decline r
       = py_round
           (design.composite_ratio (1 - demo_ratio (fst sa) (snd sa))
              (1 - tps_mult tps_multipliers sc yr) * 100) 1.
Proof.
  intros Htot Hsa. unfold year_risk. rewrite Hsa.
  cbn [mbind result_bind mret result_ret]. eexists. split; [reflexivity|].
  cbn [pct_decline].
  destruct (Z.ltb_spec 0 (total_enrollment_of school_list)) as [_|]; [|lia].
  apply py_round_comp. rewrite school_loop_projected.
  unfold design.composite_ratio, combined_ratio. cbn [projected_enrollment no_tiers].
  assert (Hne : ~ (inject_Z (total_enrollment_of school_list) == 0)%Q).
  { change 0%Q with (inject_Z 0). rewrite inject_Z_injective. lia. }
  field. exact Hne.
Qed.

End composer.

(** A loop whose body keeps an invariant, and never raises while it
    holds, ends in a state where it holds. *)
Lemma for_each_invariant {B S : Type} (body : B -> S -> result S) (P : S -> Prop)
  (l : list B) (s : S) :
  P s ->
  (forall b s, b ∈ l -> P s -> exists s', body b s = Ok s' /\ P s') ->
  exists s', for_each body l s = Ok s' /\ P s'.
Proof.
  revert s. induction l as [|b l IH]; intros s Hs Hbody.
  - exists s. split; [reflexivity | exact Hs].
  - destruct (Hbody b s) as (s1 & Hb & Hs1); [left | exact Hs |].
    cbn [for_each]. rewrite Hb. apply IH; [exact Hs1|].
    intros b' s' Hin. apply Hbody. now right.
Qed.

Section tier_partition.

Import process_school_data.

Variable hauer_data : gmap string (gmap Z Agg).
Variable census_data : option (gmap string CensusCounty).
Variable tps_multipliers : scenario -> gmap Z Q.

Lemma hauer_proj_sa_total (fips : string) (yr : Z) (baseline_sa : Q) :
  exists q, hauer_proj_sa hauer_data fips yr baseline_sa = Ok q.
Proof.
  unfold hauer_proj_sa.
  destruct (hauer_data !! fips) as [years_data|]; [|eauto].
  destruct (years_data !! yr); [eauto|].
  destruct (last _) as [y1|] eqn:Hl; [|eauto].
  destruct (head _) as [y2|] eqn:Hh; [|eauto].
  apply last_before_key in Hl as [[d1 H1] _].
  apply head_after_key in Hh as [[d2 H2] _].
  unfold subscript. rewrite H1, H2.
  destruct (y1 =? y2); eauto.
Qed.

Lemma demographic_total (demo : demo_source) (fips : string) (yr : Z)
  (baseline_sa : Q) :
  exists sa, demographic demo hauer_data census_data fips yr baseline_sa = Ok sa.
Proof.
  unfold demographic. destruct demo.
  - destruct (hauer_proj_sa_total fips yr baseline_sa) as [q ->]. cbn. eauto.
  - destruct (census_county census_data fips); eauto.
Qed.

Lemma year_risk_tiers (baseline_sa : Q) (fips : string) (school_list : list School)
  (demo : demo_source) (sc : scenario) (yr : Z) :
  exists r,
    year_risk hauer_data census_data tps_multipliers baseline_sa fips school_list
      demo sc yr = Ok r
    /\ design.tiers_sum_to (Z.of_nat (length school_list)) r.
Proof.
  unfold year_risk.
  destruct (demographic_total demo fips yr baseline_sa) as [sa ->].
  cbn [mbind result_bind mret result_ret]. eexists. split; [reflexivity|].
  unfold design.tiers_sum_to.
  cbn [schools_green schools_yellow schools_orange schools_red].
  pose proof (school_loop_tiers
                (combined_ratio (demo_ratio sa.1 sa.2) (tps_mult tps_multipliers sc yr))
                school_list no_tiers) as H.
  cbv zeta in H. rewrite H. cbn. lia.
Qed.

Lemma years_of_tiers (baseline_sa : Q) (fips : string) (school_list : list School)
  (demo : demo_source) (sc : scenario) :
  exists years,
    years_of hauer_data census_data tps_multipliers baseline_sa fips school_list
      demo sc = Ok years
    /\ map_Forall (fun _ r => design.tiers_sum_to (Z.of_nat (length school_list)) r)
         years.
Proof.
  unfold years_of. apply for_each_invariant.
  - apply map_Forall_empty.
  - intros yr years _ Hyears.
    destruct (year_risk_tiers baseline_sa fips school_list demo sc yr)
      as (r & -> & Hr).
    cbn [mbind result_bind mret result_ret]. eexists. split; [reflexivity|].
    now apply map_Forall_insert_2.
Qed.

Lemma county_entry_partitioned (county_baseline_sa : gmap string Q) (fips : string)
  (school_list : list School) :
  exists e,
    county_entry hauer_data census_data tps_multipliers county_baseline_sa fips
      school_list = Ok e
    /\ schools_total e = Z.of_nat (length school_list)
    /\ design.partitioned e.
Proof.
  unfold county_entry.
  match goal with
  | |- context [for_each ?body ?l ∅] =>
      destruct (for_each_invariant body
                  (map_Forall
                     (fun _ years =>
                        map_Forall
                          (fun _ r =>
                             design.tiers_sum_to (Z.of_nat (length school_list)) r)
                          years))
                  l ∅) as (scs & Hscs & Hall)
  end.
  - apply map_Forall_empty.
  - intros key scs _ Hscs.
    destruct (years_of_tiers (default 0%Q (county_baseline_sa !! fips)) fips
                school_list key.1 key.2) as (years & -> & Hyears).
    cbn [mbind result_bind mret result_ret]. eexists. split; [reflexivity|].
    now apply map_Forall_insert_2.
  - rewrite Hscs. cbn [mbind result_bind mret result_ret].
    eexists. split; [reflexivity|]. split; [reflexivity|]. exact Hall.
Qed.

Lemma assemble_risk_data_partitioned (schools : list School)
  (county_baseline_sa : gmap string Q) :
  exists output,
    assemble_risk_data schools hauer_data census_data tps_multipliers
      county_baseline_sa = Ok output
    /\ map_Forall (fun _ e => design.partitioned e) output.
Proof.
  unfold assemble_risk_data. apply for_each_invariant.
  - apply map_Forall_empty.
  - intros item output _ Hout.
    destruct (county_entry_partitioned county_baseline_sa item.1 item.2)
      as (e & -> & _ & He).
    cbn [mbind result_bind mret result_ret]. eexists. split; [reflexivity|].
    now apply map_Forall_insert_2.
Qed.

End tier_partition.

(** ** Loops over the items of a dictionary *)

Section items.

Context {K V B : Type} `{Countable K}.

Variable body : K * V -> gmap K B -> result (gmap K B).
Variable f : K -> V -> option B.

(** The body writes the entry [f k v] under [k], or nothing. *)
Hypothesis body_writes :
  forall item out,
    body item out
    = Ok (match f item.1 item.2 with
          | Some e => <[item.1 := e]> out
          | None => out
          end).

Lemma for_each_assoc (l : list (K * V)) (acc : gmap K B) :
  NoDup l.*1 ->
  exists out,
    for_each body l acc = Ok out
    /\ forall k,
         out !! k
         = match (list_to_map l : gmap K V) !! k with
           | Some v => match f k v with Some e => Some e | None => acc !! k end
           | None => acc !! k
           end.
Proof.
  revert acc. induction l as [|[k0 v0] l IH]; intros acc Hnd.
  - exists acc. split; [reflexivity|]. intros k. cbn. now rewrite lookup_empty.
  - rewrite fmap_cons in Hnd. apply NoDup_cons in Hnd as [Hk0 Hnd].
    cbn [for_each]. rewrite body_writes. cbn [fst snd].
    destruct (IH (match f k0 v0 with
                  | Some e => <[k0 := e]> acc
                  | None => acc
                  end) Hnd) as (out & Hrun & Hout).
    exists out. split; [exact Hrun|]. intros k. rewrite (Hout k).
    cbn [list_to_map foldr]. cbn [fst snd uncurry].
    destruct (decide (k = k0)) as [->|Hne].
    + rewrite lookup_insert_eq.
      rewrite (not_elem_of_list_to_map_1 _ _ Hk0).
      destruct (f k0 v0); [apply lookup_insert_eq | reflexivity].
    + rewrite lookup_insert_ne by congruence.
      assert (Hacc : (match f k0 v0 with
                      | Some e => <[k0 := e]> acc
                      | None => acc
                      end) !! k = acc !! k).
      { destruct (f k0 v0); [apply lookup_insert_ne; congruence | reflexivity]. }
      now rewrite Hacc.
Qed.

Lemma for_each_items (m : gmap K V) :
  for_each body (map_to_list m) ∅ = Ok (map_imap f m).
Proof.
  destruct (for_each_assoc (map_to_list m) ∅ (NoDup_fst_map_to_list m))
    as (out & Hrun & Hout).
  rewrite Hrun. f_equal. apply map_eq. intros k.
  rewrite (Hout k), list_to_map_to_list, map_lookup_imap.
  destruct (m !! k) as [v|]; cbn.
  - destruct (f k v); [reflexivity | apply lookup_empty].
  - apply lookup_empty.
Qed.

End items.

(** A loop whose body keeps a property whenever it returns. *)
Lemma for_each_preserves {B S : Type} (body : B -> S -> result S) (P : S -> Prop)
  (l : list B) (s s' : S) :
  (forall b s s', body b s = Ok s' -> P s -> P s') ->
  P s -> for_each body l s = Ok s' -> P s'.
Proof.
  intros Hbody. revert s. induction l as [|b l IH]; intros s Hs Hrun.
  - cbn in Hrun. now injection Hrun as <-.
  - cbn [for_each] in Hrun. destruct (body b s) as [s1|] eqn:Hb; [|discriminate].
    apply (IH s1); [eapply Hbody; eauto | exact Hrun].
Qed.

(** ** A series without known years *)

Section empty_series.

Import process_data.

Lemma entry_years_total (years_data : gmap Z Agg) :
  exists years, entry_years years_data = Ok years.
Proof.
  unfold entry_years.
  destruct (for_each_invariant (target_body years_data) (fun _ => True)
              TARGET_YEARS ∅ I) as (years & Hrun & _); [|eauto].
  intros target_year years _ _. unfold target_body.
  destruct (resample_total years_data target_year) as [od ->].
  cbn [mbind result_bind].
  destruct od as [d|]; [destruct (Qltb 0 (total d))|]; eauto.
Qed.

Lemma build_output_items (county_data : gmap string (gmap Z Agg)) :
  build_output county_data
  = Ok (map_imap
          (fun _ years_data =>
             match entry_years years_data with
             | Ok years => if (size years =? 0)%nat then None else Some years
             | Raise _ => None
             end)
          county_data).
Proof.
  unfold build_output. apply for_each_items.
  intros [fips years_data] out. unfold county_body. cbn [fst snd].
  destruct (entry_years_total years_data) as [years ->].
  cbn [mbind result_bind mret result_ret].
  destruct (size years =? 0)%nat; reflexivity.
Qed.

Lemma build_output_empty_series (county_data : gmap string (gmap Z Agg))
  (fips : string) :
  county_data !! fips = Some ∅ ->
  exists output, build_output county_data = Ok output /\ output !! fips = None.
Proof.
  intros Hfips. rewrite build_output_items. eexists. split; [reflexivity|].
  rewrite map_lookup_imap, Hfips. reflexivity.
Qed.

(** The row loop never leaves a county with an empty series. *)
Lemma read_rows_no_empty_series {A : Type} (zero : A) (add : Z -> Q -> A -> A)
  (keep_year : Z -> bool) (rows : list Row) (county_data : gmap string (gmap Z A)) :
  read_rows zero add keep_year rows = Ok county_data ->
  map_Forall (fun _ years_data => years_data <> ∅) county_data.
Proof.
  unfold read_rows.
  apply (for_each_preserves (row_body zero add keep_year)
           (map_Forall (fun _ years_data => years_data <> ∅))).
  - intros row cd cd' Hrow Hcd. rewrite row_body_outcome in Hrow.
    destruct (row_outcome keep_year row) as [| |f y g v].
    + discriminate.
    + now injection Hrow as <-.
    + injection Hrow as <-. unfold store.
      apply map_Forall_insert_2; [|exact Hcd].
      apply insert_non_empty.
  - apply map_Forall_empty.
Qed.

End empty_series.

Section empty_series_school.

Import process_school_data.

Lemma hauer_proj_sa_empty (hauer_data : gmap string (gmap Z Agg)) (fips : string)
  (yr : Z) (baseline_sa : Q) :
  hauer_data !! fips = Some ∅ ->
  hauer_proj_sa hauer_data fips yr baseline_sa = Ok baseline_sa.
Proof. intros H. unfold hauer_proj_sa. rewrite H. reflexivity. Qed.

Lemma county_schools_key (schools : list School) (s : School) :
  s ∈ schools -> is_Some (county_schools schools !! fips s).
Proof.
  unfold county_schools.
  assert (Hgen : forall l (m : gmap string (list School)),
             is_Some (m !! fips s) \/ s ∈ l ->
             is_Some (foldl (fun m s => <[fips s := default [] (m !! fips s) ++ [s]]> m)
                        m l !! fips s)).
  { induction l as [|s0 l IH]; intros m [Hm|Hin].
    - exact Hm.
    - now apply not_elem_of_nil in Hin.
    - cbn [foldl]. apply IH. left.
      destruct (decide (fips s0 = fips s)) as [->|Hne].
      + rewrite lookup_insert_eq. eauto.
      + now rewrite lookup_insert_ne.
    - cbn [foldl]. apply IH. apply elem_of_cons in Hin as [->|Hin].
      + left. rewrite lookup_insert_eq. eauto.
      + now right. }
  intros Hin. apply Hgen. now right.
Qed.

Lemma assemble_risk_data_keeps (schools : list School)
  (hauer_data : gmap string (gmap Z Agg))
  (census_data : option (gmap string CensusCounty))
  (tps_multipliers : scenario -> gmap Z Q) (county_baseline_sa : gmap string Q) :
  exists output,
    assemble_risk_data schools hauer_data census_data tps_multipliers
      county_baseline_sa = Ok output
    /\ forall s, s ∈ schools -> is_Some (output !! fips s).
Proof.
  unfold assemble_risk_data.
  rewrite (for_each_items _
             (fun fips school_list =>
                match county_entry hauer_data census_data tps_multipliers
                        county_baseline_sa fips school_list with
                | Ok e => Some e
                | Raise _ => None
                end)).
  - eexists. split; [reflexivity|]. intros s Hs.
    rewrite map_lookup_imap.
    destruct (county_schools_key schools s Hs) as [l ->]. cbn [mbind option_bind].
    destruct (county_entry_partitioned hauer_data census_data tps_multipliers
                county_baseline_sa (fips s) l) as (e & -> & _). eauto.
  - intros [fips0 l] out. cbn [fst snd].
    destruct (county_entry_partitioned hauer_data census_data tps_multipliers
                county_baseline_sa fips0 l) as (e & -> & _).
    reflexivity.
Qed.

End empty_series_school.

(** C7, as the scripts behave.  No error is raised for a series without
    known years, and none of the loops that resample can abort the run.
    [process_hauer] finds no value for any target year of such a series
    and leaves the county out of its output (and its own row loop never
    produces such a series).  [assemble_risk_data] takes the county's
    baseline as the projected school-age population and keeps every
    county that has a school in its output. *)
Theorem empty_series_handling :
  (forall target_year, process_data.resample ∅ target_year = Ok None)
  /\ (forall county_data fips,
        county_data !! fips = Some ∅ ->
        exists output,
          process_data.build_output county_data = Ok output /\ output !! fips = None)
  /\ (forall county_data, exists output, process_data.build_output county_data = Ok output)
  /\ (forall rows county_data,
        process_data.read_hauer rows = Ok county_data ->
        map_Forall (fun _ years_data => years_data <> ∅) county_data)
  /\ (forall hauer_data fips yr baseline_sa,
        hauer_data !! fips = Some ∅ ->
        process_school_data.hauer_proj_sa hauer_data fips yr baseline_sa
        = Ok baseline_sa)
  /\ (forall schools hauer_data census_data tps_multipliers county_baseline_sa,
        exists output,
          process_school_data.assemble_risk_data schools hauer_data census_data
            tps_multipliers county_baseline_sa = Ok output
          /\ forall s, s ∈ schools -> is_Some (output !! process_school_data.fips s)).
Proof.
  split; [|split; [|split; [|split; [|split]]]].
  - apply resample_empty.
  - apply build_output_empty_series.
  - intros county_data. rewrite build_output_items. eauto.
  - intros rows county_data. apply read_rows_no_empty_series.
  - apply hauer_proj_sa_empty.
  - apply assemble_risk_data_keeps.
Qed.

Lemma empty_series_handling_witness :
  exists output,
    process_data.build_output {[ "01001"%string := ∅ ]} = Ok output
    /\ output !! "01001"%string = None.
Proof.
  apply (proj1 (proj2 empty_series_handling)).
  apply lookup_singleton_eq.
Defined.

(** C7, as stated, fails: for a county whose series has no known year
    [process_hauer] builds an output (without the county) and raises
    nothing, and [assemble_risk_data] falls back on the baseline. *)
Lemma empty_series_raises_nothing :
  process_data.resample ∅ 2030 = Ok None
  /\ process_data.build_output {[ "01001"%string := ∅ ]} = Ok ∅
  /\ process_data.build_output {[ "01001"%string := ∅ ]}
     <> Raise (NoDataError "01001")
  /\ process_school_data.hauer_proj_sa {[ "01001"%string := ∅ ]} "01001" 2030 500
     = Ok 500%Q.
Proof.
  split; [reflexivity|]. split; [vm_compute; reflexivity|].
  split; [vm_compute; discriminate | reflexivity].
Qed.

(** ** The two risk tallies of the state-level scorer *)

Section risk_tallies.

Import process_closure_risk.

Lemma count_school_adds_up (e : Z) (sd : StateSchools) :
  design.counts_add_up sd -> design.counts_add_up (count_school e sd).
Proof.
  unfold design.counts_add_up, count_school, incr.
  cbn [total_schools bucket_under100 bucket_100_199 bucket_200_299
         bucket_300_499 bucket_500plus].
  intros (? & ? & ? & ? & ? & ?).
  destruct (size_bucket e); repeat case_bool_decide; try congruence;
    repeat split; lia.
Qed.

Lemma process_ccd_schools_adds_up (filtered : list School) :
  map_Forall (fun _ sd => design.counts_add_up sd) (process_ccd_schools filtered).
Proof.
  unfold process_ccd_schools.
  assert (Hgen : forall l (m : gmap string StateSchools),
             map_Forall (fun _ sd => design.counts_add_up sd) m ->
             map_Forall (fun _ sd => design.counts_add_up sd)
               (foldl (fun sd s => aggregate_school s sd) m l)).
  { induction l as [|s l IH]; intros m Hm; [exact Hm|].
    cbn [foldl]. apply IH. unfold aggregate_school.
    destruct (or_else _ _) as [st|]; [|exact Hm].
    destruct (_ || _); [exact Hm|].
    apply map_Forall_insert_2; [|exact Hm].
    apply count_school_adds_up.
    destruct (m !! st) as [sd|] eqn:Hst; cbn [default].
    - exact (map_Forall_lookup_1 _ _ _ _ Hm Hst).
    - unfold design.counts_add_up. cbn. lia. }
  apply Hgen, map_Forall_empty.
Qed.

(** What one bucket adds to the two tallies: nothing, its count to
    the elevated tally only, or its count to both. *)
Lemma bucket_body_tallies (avg : bucket_name -> Q) (decline_ratio : Q) (years : Z)
  (acc : Tally) (bc : bucket_name * Z) :
  let t := bucket_body avg decline_ratio years acc bc in
  (risk_severe t = risk_severe acc /\ risk_elevated t = risk_elevated acc)
  \/ (risk_severe t = risk_severe acc /\ risk_elevated t = risk_elevated acc + snd bc)
  \/ (risk_severe t = risk_severe acc + snd bc
      /\ risk_elevated t = risk_elevated acc + snd bc).
Proof.
  unfold bucket_body. destruct (snd bc =? 0); [tauto|].
  destruct (Qltb _ 100); [cbn; tauto|].
  destruct (Qltb _ 200 && Qgtb decline_ratio 0.25); [cbn; tauto|].
  destruct (Qgtb decline_ratio 0.10); [cbn; tauto|].
  destruct (Qgtb decline_ratio 0.03); cbn; tauto.
Qed.

Lemma bucket_loop_tallies (avg : bucket_name -> Q) (decline_ratio : Q) (years : Z)
  (bs : list (bucket_name * Z)) (acc : Tally) :
  Forall (fun bc => 0 <= snd bc) bs ->
  let t := foldl (bucket_body avg decline_ratio years) acc bs in
  risk_severe acc <= risk_severe t
  /\ risk_severe t - risk_severe acc <= risk_elevated t - risk_elevated acc
  /\ risk_elevated t - risk_elevated acc <= foldr Z.add 0 (snd <$> bs).
Proof.
  intros Hbs. revert acc. induction Hbs as [|bc bs Hbc _ IH]; intros acc.
  - cbn. lia.
  - cbn [foldl]. cbv zeta in IH.
    specialize (IH (bucket_body avg decline_ratio years acc bc)).
    pose proof (bucket_body_tallies avg decline_ratio years acc bc) as Hstep.
    cbv zeta in Hstep. rewrite fmap_cons. cbn [foldr]. lia.
Qed.

Lemma estimate_year_tallies (schools : StateSchools)
  (scenario_data : gmap Z YearData) (target_year : Z) :
  design.counts_add_up schools ->
  0 <= schools_severe_risk (estimate_year schools scenario_data target_year)
    <= schools_elevated_risk (estimate_year schools scenario_data target_year)
  /\ schools_elevated_risk (estimate_year schools scenario_data target_year)
     <= total_schools schools.
Proof.
  intros (H1 & H2 & H3 & H4 & H5 & Htot).
  unfold estimate_year. cbn [schools_severe_risk schools_elevated_risk].
  unfold bucket_loop.
  pose proof (bucket_loop_tallies (avg_enrollment schools)
                (decline_ratio_of scenario_data target_year)
                (years_from_2025 target_year) (buckets schools)
                {| expected_closures := 0; risk_elevated := 0; risk_severe := 0 |})
    as H.
  cbv zeta in H. cbn [risk_severe risk_elevated] in H.
  assert (Hbs : Forall (fun bc => 0 <= snd bc) (buckets schools)).
  { unfold buckets. repeat constructor; assumption. }
  specialize (H Hbs).
  assert (Hsum : foldr Z.add 0 (snd <$> buckets schools)
                 = bucket_under100 schools + (bucket_100_199 schools
                   + (bucket_200_299 schools + (bucket_300_499 schools
                   + (bucket_500plus schools + 0))))) by reflexivity.
  rewrite Hsum in H. lia.
Qed.

End risk_tallies.

Section risk_tallies_claim.

Import process_closure_risk.

(** C9.  A bucket adds its count to both tallies, to the elevated
    tally only, or to neither; so, for every state that
    [process_ccd_schools] has counted, every scenario and every
    projection year, the two tallies written by [estimate_closures]
    satisfy [0 <= severe <= elevated <= current_schools]. *)
Theorem nested_risk_tallies (filtered : list School)
  (fertility_projections : gmap string StateProj) (abbr : string)
  (est : StateEstimate) (sc : scenario) (target_year : Z) (ye : YearEstimate) :
  (forall avg decline_ratio years acc bc,
     let t := bucket_body avg decline_ratio years acc bc in
     (risk_severe t = risk_severe acc /\ risk_elevated t = risk_elevated acc)
     \/ (risk_severe t = risk_severe acc
         /\ risk_elevated t = risk_elevated acc + snd bc)
     \/ (risk_severe t = risk_severe acc + snd bc
         /\ risk_elevated t = risk_elevated acc + snd bc))
  /\ (estimate_closures fertility_projections (process_ccd_schools filtered) !! abbr
      = Some est ->
      estimates est sc !! target_year = Some ye ->
      0 <= schools_severe_risk ye <= schools_elevated_risk ye
      /\ schools_elevated_risk ye <= current_schools est).
Proof.
  split; [apply bucket_body_tallies|].
  intros Hest Hye. unfold estimate_closures in Hest.
  rewrite map_lookup_imap in Hest.
  destruct (fertility_projections !! abbr) as [proj|]; [|discriminate].
  cbn [mbind option_bind] in Hest.
  destruct (process_ccd_schools filtered !! abbr) as [schools|] eqn:Hschools;
    [|discriminate].
  injection Hest as <-. cbn [estimates estimate_state current_schools] in *.
  apply elem_of_list_to_map_2, list_elem_of_fmap in Hye as (y & [= -> ->] & _).
  apply estimate_year_tallies.
  exact (map_Forall_lookup_1 _ _ _ _ (process_ccd_schools_adds_up filtered) Hschools).
Qed.

Lemma nested_risk_tallies_witness :
  let schools :=
    {| total_schools := 2; total_enrollment := 720; bucket_under100 := 1;
       bucket_100_199 := 0; bucket_200_299 := 0; bucket_300_499 := 0;
       bucket_500plus := 1 |} in
  let scenario_data : gmap Z YearData :=
    {[ 2030 := {| rate := 60; birth_decline_pct := 8;
                  key_post_2022_fraction := Some 0.231%Q;
                  key_enrollment_decline_pct := Some 12%Q |} ]} in
  let ye := estimate_year schools scenario_data 2030 in
  0 <= schools_severe_risk ye <= schools_elevated_risk ye
  /\ schools_elevated_risk ye <= 2.
Proof.
  intros schools scenario_data ye.
  apply (proj2 (nested_risk_tallies
                  [ {| state_location := Some "UT"%string; state_mailing := None;
                       enrollment := 80 |};
                    {| state_location := None; state_mailing := Some "UT"%string;
                       enrollment := 640 |} ]
                  {[ "UT"%string := {| proj_census := scenario_data;
                                       proj_state_trend := ∅ |} ]}
                  "UT"%string
                  (estimate_state {| proj_census := scenario_data;
                                     proj_state_trend := ∅ |} schools)
                  census 2030 ye)).
  - unfold estimate_closures. rewrite map_lookup_imap, lookup_singleton_eq.
    cbn [mbind option_bind].
    assert (Hs : process_ccd_schools
                   [ {| state_location := Some "UT"%string; state_mailing := None;
                        enrollment := 80 |};
                     {| state_location := None; state_mailing := Some "UT"%string;
                        enrollment := 640 |} ] !! "UT"%string = Some schools)
      by (vm_compute; reflexivity).
    rewrite Hs. reflexivity.
  - cbn [estimates estimate_state scenario_data_of proj_census].
    unfold PROJECTION_YEARS. cbn [fmap list_fmap list_to_map foldr uncurry fst snd].
    rewrite lookup_insert_ne by lia. rewrite lookup_insert_ne by lia.
    apply lookup_insert_eq.
Defined.

End risk_tallies_claim.

(** ** The growth gate of the Cooper Center scenario *)

Section cooper_gate.

Import process_cooper_center.

Lemma py_round_zero (n : Z) : (py_round 0 n == 0)%Q.
Proof.
  unfold py_round.
  assert (H : round_half_even (0 * 10 ^ n) = 0).
  { rewrite (round_half_even_comp _ 0); [reflexivity | apply Qmult_0_l]. }
  rewrite H. unfold Qdiv. apply Qmult_0_l.
Qed.

Lemma cooper_scenario_2030 (school_age : Z -> gmap string Q) (abbr : string)
  (entry : StateEntry) (sa_2020 sa_yr : Q) :
  school_age 2020 !! abbr = Some sa_2020 ->
  ~ (sa_2020 == 0)%Q ->
  school_age 2030 !! abbr = Some sa_yr ->
  ~ (sa_yr == 0)%Q ->
  exists scenario_data,
    cooper_scenario school_age abbr entry = Some scenario_data
    /\ scenario_data !! 2030 = Some (year_out entry sa_2020 sa_yr 2030).
Proof.
  intros H20 Hn20 H30 Hn30. unfold cooper_scenario, present.
  rewrite H20.
  destruct (Qeq_bool sa_2020 0) eqn:E20;
    [apply Qeq_bool_iff in E20; contradiction|].
  cbn [foldl]. rewrite H30.
  destruct (Qeq_bool sa_yr 0) eqn:E30;
    [apply Qeq_bool_iff in E30; contradiction|].
  eexists. split; [reflexivity | apply lookup_insert_eq].
Qed.

(** C10.  With [ratio = sa_yr / sa_2020]: when the ratio is at least 1
    the entry of the year has [expected_closures] and
    [expected_closures_pct] equal to 0, and the closure model is not
    consulted; when it is below 1 the closures are those of
    [compute_closures] at decline ratio [1 - ratio] and horizon
    [max(yr - 2025, 1)], rounded to one decimal in the entry.  That
    entry is what the scenario holds for 2030 whenever both
    school-age figures are present and not zero. *)
Theorem cooper_growth_gate (school_age : Z -> gmap string Q) (abbr : string)
  (entry : StateEntry) (sa_2020 sa_yr : Q) (yr : Z) :
  let ratio := (sa_yr / sa_2020)%Q in
  ((1 <= ratio)%Q ->
   closures_of ratio entry yr = 0%Q
   /\ (expected_closures (year_out entry sa_2020 sa_yr yr) == 0)%Q
   /\ (expected_closures_pct (year_out entry sa_2020 sa_yr yr) == 0)%Q)
  /\ ((ratio < 1)%Q ->
      closures_of ratio entry yr
      = compute_closures (1 - ratio) (buckets entry) (Z.max (yr - 2025) 1)
      /\ expected_closures (year_out entry sa_2020 sa_yr yr)
         = py_round
             (compute_closures (1 - ratio) (buckets entry) (Z.max (yr - 2025) 1)) 1)
  /\ (school_age 2020 !! abbr = Some sa_2020 ->
      ~ (sa_2020 == 0)%Q ->
      school_age 2030 !! abbr = Some sa_yr ->
      ~ (sa_yr == 0)%Q ->
      exists scenario_data,
        cooper_scenario school_age abbr entry = Some scenario_data
        /\ scenario_data !! 2030 = Some (year_out entry sa_2020 sa_yr 2030)).
Proof.
  intros ratio. split; [|split].
  - intros Hge.
    assert (Hc : closures_of ratio entry yr = 0%Q).
    { unfold closures_of. now rewrite (proj2 (Qgeb_ge ratio 1) Hge). }
    split; [exact Hc|].
    unfold year_out. cbn [expected_closures expected_closures_pct].
    fold ratio. rewrite Hc. split; [apply py_round_zero|].
    destruct (0 <? current_schools entry); [|reflexivity].
    rewrite (py_round_comp (0 / inject_Z (current_schools entry) * 100) 0 1).
    + apply py_round_zero.
    + unfold Qdiv. now rewrite !Qmult_0_l.
  - intros Hlt.
    assert (Hc : closures_of ratio entry yr
                 = compute_closures (1 - ratio) (buckets entry) (Z.max (yr - 2025) 1)).
    { unfold closures_of. now rewrite (proj2 (Qgeb_lt ratio 1) Hlt). }
    split; [exact Hc|].
    unfold year_out. cbn [expected_closures]. fold ratio. now rewrite Hc.
  - apply cooper_scenario_2030.
Qed.

Lemma cooper_growth_gate_witness :
  let entry :=
    {| current_enrollment := 1000; current_schools := 3;
       buckets := [(process_closure_risk.under100, 1);
                   (process_closure_risk.b500plus, 2)] |} in
  (expected_closures (year_out entry 100 110 2030) == 0)%Q
  /\ expected_closures (year_out entry 100 80 2030)
     = py_round (compute_closures (1 - 80 / 100) (buckets entry)
                   (Z.max (2030 - 2025) 1)) 1.
Proof.
  intros entry. split.
  - apply (proj1 (cooper_growth_gate (fun _ => ∅) "" entry 100 110 2030)).
    vm_compute. discriminate.
  - apply (proj1 (proj2 (cooper_growth_gate (fun _ => ∅) "" entry 100 80 2030))).
    vm_compute. reflexivity.
Defined.

End cooper_gate.

(** ** Worked examples *)

(** One affected grade out of 13 with a birth decline of 1 percent:
    the decline [1/13] is written as 0.08, the fraction as 0.077. *)
Example decline_2028 :
  let scenario_data : gmap Z process_closure_risk.YearData :=
    list_to_map
      ((fun y => (y, {| process_closure_risk.rate := 60;
                        process_closure_risk.birth_decline_pct := inject_Z (y - 2022);
                        process_closure_risk.key_post_2022_fraction := None;
                        process_closure_risk.key_enrollment_decline_pct := None |}))
         <$> range 2022 2051) in
  match process_closure_risk.compute_enrollment_decline scenario_data with
  | Ok sd =>
      (sd !! 2028 ≫= process_closure_risk.key_post_2022_fraction,
       sd !! 2028 ≫= process_closure_risk.key_enrollment_decline_pct)
  | Raise _ => (None, None)
  end = (Some 0.077%Q, Some 0.08%Q).
Proof. vm_compute. reflexivity. Qed.

(** A county with two schools, no projection data and a market-share
    multiplier of 0.8 in 2030: a decline of 20 percent puts both
    schools in the yellow tier, and one of them falls below 100. *)
Example county_two_schools :
  match
    process_school_data.assemble_risk_data
      [ {| process_school_data.fips := "01001"; process_school_data.enrollment := 120 |};
        {| process_school_data.fips := "01001"; process_school_data.enrollment := 400 |} ]
      ∅ None (fun _ => {[ 2030 := 0.8%Q ]}) ∅
  with
  | Ok output =>
      e ← output !! "01001"%string;
      years ← process_school_data.entry_scenarios e !! "hauer_post_trend"%string;
      r ← years !! 2030;
      Some (process_school_data.schools_total e,
            process_school_data.schools_green r,
            process_school_data.schools_yellow r,
            process_school_data.schools_orange r,
            process_school_data.schools_red r,
            process_school_data.schools_below_threshold r,
            process_school_data.key_projected_enrollment r)
  | Raise _ => None
  end = Some (2, 0, 2, 0, 0, 1, 416).
Proof. vm_compute. reflexivity. Qed.

(** The state of the example above under C9: with a 12 percent decline
    the small school counts in both tallies, the large one in the
    elevated tally only. *)
Example tallies_two_schools :
  let ye :=
    process_closure_risk.estimate_year
      {| process_closure_risk.total_schools := 2;
         process_closure_risk.total_enrollment := 720;
         process_closure_risk.bucket_under100 := 1;
         process_closure_risk.bucket_100_199 := 0;
         process_closure_risk.bucket_200_299 := 0;
         process_closure_risk.bucket_300_499 := 0;
         process_closure_risk.bucket_500plus := 1 |}
      {[ 2030 := {| process_closure_risk.rate := 60;
                    process_closure_risk.birth_decline_pct := 8;
                    process_closure_risk.key_post_2022_fraction := Some 0.231%Q;
                    process_closure_risk.key_enrollment_decline_pct := Some 12%Q |} ]}
      2030 in
  (process_closure_risk.schools_severe_risk ye,
   process_closure_risk.schools_elevated_risk ye,
   process_closure_risk.key_expected_closures ye) = (1, 2, 0.3%Q).
Proof. vm_compute. reflexivity. Qed.

(** * Further properties of the scripts *)

(** ** Rounding and powers *)

Lemma round_half_even_near (x : Q) :
  (inject_Z (round_half_even x) - (1 # 2) <= x
   /\ x <= inject_Z (round_half_even x) + (1 # 2))%Q.
Proof.
  unfold round_half_even.
  pose proof (Qfloor_le x) as Hlo. pose proof (Qlt_floor x) as Hhi.
  rewrite inject_Z_plus in Hhi. change (inject_Z 1) with 1%Q in Hhi.
  destruct (Qcompare_spec (x - inject_Z (Qfloor x)) (1 # 2)) as [He|Hl|Hg].
  - destruct (Z.even (Qfloor x)).
    + split; lra.
    + rewrite inject_Z_plus. change (inject_Z 1) with 1%Q. split; lra.
  - split; lra.
  - rewrite inject_Z_plus. change (inject_Z 1) with 1%Q. split; lra.
Qed.

Lemma round_half_even_le (x y : Q) :
  (x <= y)%Q -> round_half_even x <= round_half_even y.
Proof.
  intros Hxy.
  destruct (Z_le_gt_dec (round_half_even x) (round_half_even y)) as [H|H]; [exact H|].
  exfalso.
  destruct (round_half_even_near x) as [Hx _].
  destruct (round_half_even_near y) as [_ Hy].
  assert (Hi : (inject_Z (round_half_even y) + 1 <= inject_Z (round_half_even x))%Q).
  { change 1%Q with (inject_Z 1). rewrite <- inject_Z_plus, <- Zle_Qle. lia. }
  assert (Heq : (x == y)%Q) by lra.
  rewrite (round_half_even_comp x y Heq) in H. lia.
Qed.

Lemma round_half_even_inject (k : Z) : round_half_even (inject_Z k) = k.
Proof.
  unfold round_half_even. rewrite Qfloor_Z.
  destruct (Qcompare_spec (inject_Z k - inject_Z k) (1 # 2)) as [He|Hl|Hg].
  - exfalso. lra.
  - reflexivity.
  - exfalso. lra.
Qed.

Lemma ten_power_pos (n : Z) : (0 < 10 ^ n)%Q.
Proof. apply Qpower_0_lt. reflexivity. Qed.

Lemma py_round_le (x y : Q) (n : Z) : (x <= y)%Q -> (py_round x n <= py_round y n)%Q.
Proof.
  intros Hxy. unfold py_round. pose proof (ten_power_pos n) as Hp.
  apply Qmult_le_compat_r.
  - rewrite <- Zle_Qle. apply round_half_even_le.
    apply Qmult_le_compat_r; [exact Hxy | lra].
  - apply Qlt_le_weak, Qinv_lt_0_compat, Hp.
Qed.

(** Powers of a ratio between 0 and 1. *)
Lemma Qpower_unit_le_1 (q : Q) (n : Z) :
  (0 <= q <= 1)%Q -> 0 <= n -> (0 <= q ^ n <= 1)%Q.
Proof.
  intros [H0 H1] Hn. split; [now apply Qpower_0_le|].
  revert n Hn. apply natlike_ind.
  - cbn. lra.
  - intros n Hn IH. unfold Z.succ. rewrite Qpower_plus' by lia.
    rewrite Qpower_1_r.
    assert (0 <= q ^ n)%Q by now apply Qpower_0_le.
    nra.
Qed.

Lemma Qpower_unit_antitone (q : Q) (n m : Z) :
  (0 <= q <= 1)%Q -> 0 <= n <= m -> (q ^ m <= q ^ n)%Q.
Proof.
  intros Hq [Hn Hnm].
  destruct (Z.eq_dec m n) as [->|Hne]; [lra|].
  replace m with (n + (m - n)) by lia.
  rewrite Qpower_plus' by lia.
  destruct (Qpower_unit_le_1 q n Hq Hn) as [Ha Hb].
  destruct (Qpower_unit_le_1 q (m - n) Hq ltac:(lia)) as [Hc Hd].
  nra.
Qed.

(** ** State school counts *)

Section ccd_counts.

Import process_closure_risk.

Lemma aggregate_school_state_of (s : School) (m : gmap string StateSchools) :
  aggregate_school s m
  = match state_of s with
    | Some st => <[st := count_school (enrollment s) (default empty_state (m !! st))]> m
    | None => m
    end.
Proof.
  unfold aggregate_school, state_of.
  destruct (or_else _ _) as [st|]; [|reflexivity].
  destruct (truthy (Some st)), (String.length st =? 2)%nat; reflexivity.
Qed.

Lemma process_ccd_schools_snoc (l : list School) (s : School) :
  process_ccd_schools (l ++ [s]) = aggregate_school s (process_ccd_schools l).
Proof. unfold process_ccd_schools. now rewrite foldl_app. Qed.

(** The record of a state is the count of its own schools alone. *)
Lemma process_ccd_schools_lookup (l : list School) (st : string) :
  process_ccd_schools l !! st
  = match schools_of st l with
    | [] => None
    | _ => Some (foldl (fun sd s => count_school (enrollment s) sd) empty_state
                   (schools_of st l))
    end.
Proof.
  induction l as [|s l IH] using rev_ind; [reflexivity|].
  rewrite process_ccd_schools_snoc, aggregate_school_state_of.
  unfold schools_of in *. rewrite filter_app.
  destruct (state_of s) as [st'|] eqn:Hs.
  - destruct (decide (st' = st)) as [->|Hne].
    + rewrite lookup_insert_eq, IH.
      rewrite (filter_cons_True _ s []) by exact Hs. rewrite filter_nil.
      rewrite foldl_app. cbn [foldl].
      destruct (filter _ l); reflexivity.
    + rewrite lookup_insert_ne by exact Hne. rewrite IH.
      rewrite (filter_cons_False _ s []) by congruence.
      now rewrite filter_nil, app_nil_r.
  - rewrite IH. rewrite (filter_cons_False _ s []) by congruence.
    now rewrite filter_nil, app_nil_r.
Qed.

Lemma count_fold_totals (l : list School) (sd : StateSchools) :
  let sd' := foldl (fun sd s => count_school (enrollment s) sd) sd l in
  total_schools sd' = total_schools sd + Z.of_nat (length l)
  /\ total_enrollment sd' = total_enrollment sd + foldr Z.add 0 (enrollment <$> l)
  /\ (design.counts_add_up sd -> design.counts_add_up sd').
Proof.
  revert sd. induction l as [|s l IH]; intros sd.
  - cbn. split; [lia|]. split; [lia | tauto].
  - cbn [foldl]. cbv zeta in IH. destruct (IH (count_school (enrollment s) sd))
      as (H1 & H2 & H3).
    rewrite H1, H2, fmap_cons. cbn [foldr length total_schools total_enrollment
                                      count_school].
    split; [lia|]. split; [lia|].
    intros H. apply H3, count_school_adds_up, H.
Qed.

(** X1.  For a state under which at least one kept school is counted,
    [process_ccd_schools] holds the number of those schools, the sum of
    their enrollments, and bucket counts that are not negative and add
    up to the number of schools; a state under which no school is
    counted has no entry. *)
Theorem ccd_state_counts (filtered : list School) (st : string) :
  match process_ccd_schools filtered !! st with
  | Some sd =>
      schools_of st filtered <> []
      /\ total_schools sd = Z.of_nat (length (schools_of st filtered))
      /\ total_enrollment sd
         = foldr Z.add 0 (enrollment <$> schools_of st filtered)
      /\ design.counts_add_up sd
  | None => schools_of st filtered = []
  end.
Proof.
  rewrite process_ccd_schools_lookup.
  destruct (schools_of st filtered) as [|s l] eqn:Hl; [reflexivity|].
  pose proof (count_fold_totals (s :: l) empty_state) as H. cbv zeta in H.
  destruct H as (H1 & H2 & H3).
  split; [discriminate|]. split; [rewrite H1; cbn; lia|].
  split; [rewrite H2; cbn; lia|].
  apply H3. unfold design.counts_add_up. cbn. lia.
Qed.

End ccd_counts.

(** ** The target-year loop of [compute_enrollment_decline] *)

Section decline_loop_keys.

Import process_closure_risk.

Lemma decline_loop_missing (sd : gmap Z YearData) (l done : list Z)
  (m : gmap Z YearData) :
  loop_inv sd m done ->
  Exists (fun y => sd !! y = None) l ->
  for_each decline_body l m = Raise KeyError.
Proof.
  revert done m. induction l as [|Y l IH]; intros done m Hinv Hex.
  - inversion Hex.
  - destruct (sd !! Y) as [yd|] eqn:HY.
    + assert (Hk : forall y, y ∈ [Y] -> is_Some (sd !! y)).
      { intros y Hy. apply list_elem_of_singleton in Hy as ->. rewrite HY. eauto. }
      destruct (decline_loop sd [Y] done m Hinv Hk) as (m1 & Hrun & Hinv1).
      cbn [for_each] in Hrun |- *.
      destruct (decline_body Y m) as [m1'|]; [|discriminate].
      injection Hrun as ->. apply (IH (done ++ [Y])); [exact Hinv1|].
      apply Exists_cons in Hex as [Hex|Hex]; [congruence | exact Hex].
    + cbn [for_each]. unfold decline_body, subscript.
      rewrite (Hinv Y), HY. now case_bool_decide.
Qed.

(** X2.  The loop over the target years 2025 to 2050 returns exactly
    when each of them is a key of the scenario, and raises [KeyError]
    otherwise.  When it returns, the entry of each target year keeps
    its rate and birth decline and gains the two rounded values,
    computed from the trajectory as it was on entry: what the loop
    writes for one year is never read for another; the other years are
    untouched. *)
Theorem decline_loop_result (scenario_data : gmap Z YearData) :
  match compute_enrollment_decline scenario_data with
  | Ok sd' =>
      Forall (fun Y => is_Some (scenario_data !! Y)) (range 2025 2051)
      /\ forall Y,
           sd' !! Y
           = if bool_decide (2025 <= Y <= 2050)
             then written scenario_data Y <$> scenario_data !! Y
             else scenario_data !! Y
  | Raise e =>
      e = KeyError /\ Exists (fun Y => scenario_data !! Y = None) (range 2025 2051)
  end.
Proof.
  destruct (decide (Forall (fun Y => is_Some (scenario_data !! Y)) (range 2025 2051)))
    as [Hall|Hex].
  - assert (Hkeys : forall Y, 2025 <= Y <= 2050 -> is_Some (scenario_data !! Y)).
    { intros Y HY. rewrite Forall_forall in Hall. apply Hall.
      unfold range. apply elem_of_seqZ. lia. }
    destruct (compute_enrollment_decline_stores scenario_data Hkeys)
      as (sd' & -> & Hsd').
    split; [exact Hall | exact Hsd'].
  - apply not_Forall_Exists in Hex; [|intros Y; apply _].
    assert (Hex' : Exists (fun Y => scenario_data !! Y = None) (range 2025 2051)).
    { eapply Exists_impl; [exact Hex|]. intros Y HY. unfold compose in HY.
      destruct (scenario_data !! Y) as [yd|]; [|reflexivity].
      exfalso. apply HY. exists yd. reflexivity. }
    unfold compute_enrollment_decline.
    rewrite (decline_loop_missing scenario_data (range 2025 2051) [] scenario_data).
    + split; [reflexivity | exact Hex'].
    + intros y. now rewrite bool_decide_eq_false_2 by apply not_elem_of_nil.
    + exact Hex'.
Qed.

End decline_loop_keys.

(** ** How the pipeline saturates *)

Lemma filter_none {A : Type} (P : A -> Prop) `{!forall x, Decision (P x)} (l : list A) :
  Forall (fun x => ~ P x) l -> filter P l = [].
Proof.
  induction 1 as [|x l Hx _ IH]; [reflexivity|].
  now rewrite filter_cons_False.
Qed.

Lemma filter_all {A : Type} (P : A -> Prop) `{!forall x, Decision (P x)} (l : list A) :
  Forall P l -> filter P l = l.
Proof.
  induction 1 as [|x l Hx _ IH]; [reflexivity|].
  rewrite filter_cons_True by exact Hx. now rewrite IH.
Qed.

Lemma affected_none (Y : Z) : Y <= 2027 -> design.affected_birth_years Y = [].
Proof.
  intros HY. unfold design.affected_birth_years. apply filter_none.
  apply Forall_forall. intros b Hb. apply elem_of_seqZ in Hb. lia.
Qed.

Lemma affected_all (Y : Z) :
  2040 <= Y -> design.affected_birth_years Y = seqZ (Y - 17) 13.
Proof.
  intros HY. unfold design.affected_birth_years. apply filter_all.
  apply Forall_forall. intros b Hb. apply elem_of_seqZ in Hb. lia.
Qed.

Lemma affected_count (Y : Z) :
  Z.of_nat (length (design.affected_birth_years Y)) = Z.max 0 (Z.min 13 (Y - 2027)).
Proof.
  destruct (Z_le_gt_dec Y 2027) as [Hlo|Hlo].
  - rewrite affected_none by exact Hlo. cbn. lia.
  - destruct (Z_le_gt_dec 2040 Y) as [Hhi|Hhi].
    + rewrite affected_all by exact Hhi. rewrite length_seqZ. lia.
    + assert (HY : Y = 2028 \/ Y = 2029 \/ Y = 2030 \/ Y = 2031 \/ Y = 2032
                   \/ Y = 2033 \/ Y = 2034 \/ Y = 2035 \/ Y = 2036 \/ Y = 2037
                   \/ Y = 2038 \/ Y = 2039) by lia.
      repeat (destruct HY as [->|HY]; [reflexivity|]). subst Y. reflexivity.
Qed.

Lemma Qsum_bounds (B : Q) (l : list Q) :
  Forall (fun x => 0 <= x <= B)%Q l ->
  (0 <= Qsum l /\ Qsum l <= B * inject_Z (Z.of_nat (length l)))%Q.
Proof.
  induction 1 as [|x l [Hx0 HxB] _ [IH0 IHB]].
  - change (Qsum []) with 0%Q. change (inject_Z (Z.of_nat (length (@nil Q)))) with 0%Q.
    lra.
  - rewrite Qsum_cons. cbn [length]. rewrite Nat2Z.inj_succ. unfold Z.succ.
    rewrite inject_Z_plus. change (inject_Z 1) with 1%Q. lra.
Qed.

Lemma mean_bounds (B : Q) (l : list Q) :
  (0 <= B)%Q -> Forall (fun x => 0 <= x <= B)%Q l -> (0 <= design.mean l <= B)%Q.
Proof.
  intros HB Hl. destruct l as [|x l]; [cbn; lra|].
  destruct (Qsum_bounds B (x :: l) Hl) as [H0 H1].
  unfold design.mean.
  assert (Hn : (0 < inject_Z (Z.of_nat (length (x :: l))))%Q).
  { change 0%Q with (inject_Z 0). rewrite <- Zlt_Qlt. cbn [length]. lia. }
  split.
  - apply Qle_shift_div_l; [exact Hn | lra].
  - apply Qle_shift_div_r; [exact Hn | lra].
Qed.

Section saturation.

Import process_closure_risk.

(** X3.  The number of affected grades of target year [Y] is [Y - 2027]
    cut off at 0 and at 13, so the enrolled fraction lies in [0, 1]: the
    decline is 0 up to 2027, is the plain average of the 13 enrolled
    birth years from 2040 on, and whenever the birth declines of the
    affected birth years lie between 0 and a bound, so does the
    enrollment decline. *)
Theorem pipeline_saturation (scenario_data : gmap Z YearData) (Y : Z) :
  let d := lagged_decline scenario_data Y in
  post_2022_grades d = Z.max 0 (Z.min 13 (Y - 2027))
  /\ (0 <= post_2022_fraction d <= 1)%Q
  /\ (Y <= 2027 -> (enrollment_decline_pct d == 0)%Q)
  /\ (2040 <= Y ->
      (enrollment_decline_pct d
       == Qsum (bd scenario_data <$> seqZ (Y - 17) 13) / 13)%Q)
  /\ (forall B,
        (forall b, Y - 17 <= b <= Y - 5 -> 2022 < b ->
                   (0 <= bd scenario_data b <= B)%Q) ->
        (0 <= B)%Q ->
        (0 <= enrollment_decline_pct d <= B)%Q).
Proof.
  intros d.
  assert (Hg : post_2022_grades d = Z.max 0 (Z.min 13 (Y - 2027))).
  { unfold d. rewrite post_2022_grades_count. apply affected_count. }
  destruct (enrollment_decline_pct_unfold scenario_data Y) as [Hedp Hfrac].
  fold d in Hedp, Hfrac.
  pose proof (avg_birth_decline_mean scenario_data Y) as Havg. fold d in Havg.
  assert (Hf : (0 <= post_2022_fraction d <= 1)%Q).
  { rewrite Hfrac, Hg.
    assert (H0 : (0 <= inject_Z (Z.max 0 (Z.min 13 (Y - 2027))))%Q).
    { change 0%Q with (inject_Z 0). rewrite <- Zle_Qle. lia. }
    assert (H1 : (inject_Z (Z.max 0 (Z.min 13 (Y - 2027))) <= 13)%Q).
    { change 13%Q with (inject_Z 13). rewrite <- Zle_Qle. lia. }
    change (inject_Z 13) with 13%Q.
    split.
    - apply Qle_shift_div_l; [reflexivity | lra].
    - apply Qle_shift_div_r; [reflexivity | lra]. }
  split; [exact Hg|]. split; [exact Hf|]. split; [|split].
  - intros HY. rewrite Hedp, Hfrac, Hg.
    replace (Z.max 0 (Z.min 13 (Y - 2027))) with 0 by lia.
    unfold Qdiv. now rewrite !Qmult_0_l.
  - intros HY. rewrite Hedp, Hfrac, Hg, Havg.
    replace (Z.max 0 (Z.min 13 (Y - 2027))) with 13 by lia.
    rewrite affected_all by exact HY. unfold design.mean.
    destruct (seqZ (Y - 17) 13) as [|b l] eqn:Hs.
    { apply (f_equal length) in Hs. rewrite length_seqZ in Hs. discriminate. }
    rewrite <- Hs, length_fmap, length_seqZ, Hs.
    change (inject_Z (Z.of_nat (Z.to_nat 13))) with 13%Q.
    rewrite fmap_cons. change (inject_Z 13) with 13%Q. field.
  - intros B Hbd HB.
    assert (Hm : (0 <= avg_birth_decline d <= B)%Q).
    { rewrite Havg. apply mean_bounds; [exact HB|].
      apply Forall_fmap, Forall_forall. intros b Hb. cbv beta.
      apply affected_birth_years_spec in Hb as [Hb1 Hb2]. now apply Hbd. }
    rewrite Hedp. destruct Hf as [Hf0 Hf1], Hm as [Hm0 Hm1]. split; nra.
Qed.

Lemma pipeline_saturation_witness :
  let scenario_data : gmap Z YearData :=
    list_to_map
      ((fun y => (y, {| rate := 60; birth_decline_pct := inject_Z (y - 2022);
                        key_post_2022_fraction := None;
                        key_enrollment_decline_pct := None |}))
         <$> range 2022 2051) in
  (enrollment_decline_pct (lagged_decline scenario_data 2026) == 0)%Q
  /\ (0 <= enrollment_decline_pct (lagged_decline scenario_data 2030) <= 3)%Q.
Proof.
  intros scenario_data. split.
  - apply (proj1 (proj2 (proj2 (pipeline_saturation scenario_data 2026)))). lia.
  - apply (proj2 (proj2 (proj2 (proj2 (pipeline_saturation scenario_data 2030))))).
    + intros b Hb1 Hb2.
      assert (Hb : b = 2023 \/ b = 2024 \/ b = 2025) by lia.
      destruct Hb as [-> | [-> | ->]]; vm_compute; split; discriminate.
    + discriminate.
Defined.

End saturation.

(** ** Bounds on the expected closures *)

Lemma py_round_inject (k n : Z) : 0 <= n -> (py_round (inject_Z k) n == inject_Z k)%Q.
Proof.
  intros Hn. unfold py_round. pose proof (ten_power_pos n) as Hp.
  assert (H10 : (10 ^ n == inject_Z (10 ^ n))%Q).
  { rewrite Zpower_Qpower by exact Hn. reflexivity. }
  rewrite (round_half_even_comp _ (inject_Z (k * 10 ^ n))).
  - rewrite round_half_even_inject, inject_Z_mult, <- H10. field. lra.
  - now rewrite inject_Z_mult, <- H10.
Qed.

Lemma py_round_between (a b : Z) (x : Q) (n : Z) :
  0 <= n -> (inject_Z a <= x <= inject_Z b)%Q ->
  (inject_Z a <= py_round x n <= inject_Z b)%Q.
Proof.
  intros Hn [Ha Hb]. split.
  - rewrite <- (py_round_inject a n) by exact Hn. now apply py_round_le.
  - rewrite <- (py_round_inject b n) by exact Hn. now apply py_round_le.
Qed.

Lemma cum_prob_range (p : Q) (years : Z) :
  (0 <= p <= 1)%Q -> (0 <= design.cum_prob p years <= 1)%Q.
Proof.
  intros Hp. unfold design.cum_prob.
  destruct (Qpower_unit_le_1 (1 - p) (Z.max years 1)) as [H0 H1]; [lra | lia |].
  lra.
Qed.

Lemma cum_prob_mono (p : Q) (years years' : Z) :
  (0 <= p <= 1)%Q -> years <= years' ->
  (design.cum_prob p years <= design.cum_prob p years')%Q.
Proof.
  intros Hp Hy. unfold design.cum_prob.
  pose proof (Qpower_unit_antitone (1 - p) (Z.max years 1) (Z.max years' 1)) as H.
  assert (H' : ((1 - p) ^ Z.max years' 1 <= (1 - p) ^ Z.max years 1)%Q)
    by (apply H; [lra | lia]).
  lra.
Qed.

Section closure_bounds.

Context {B : Type} (rules : list design.rule) (background : Q) (avg : B -> Q).

(** Every probability of the table is a probability. *)
Hypothesis prob_range :
  forall size decline, (0 <= design.first_match rules background size decline <= 1)%Q.

Lemma expected_closures_range (decline : Q) (years : Z) (bs : list (B * Z)) :
  Forall (fun bc => 0 <= snd bc) bs ->
  (0 <= design.expected_closures rules background avg decline years bs
   /\ design.expected_closures rules background avg decline years bs
      <= inject_Z (foldr Z.add 0%Z (snd <$> bs)))%Q.
Proof.
  unfold design.expected_closures.
  induction 1 as [|bc bs Hbc _ [IH0 IH1]].
  - cbn. change (inject_Z 0) with 0%Q. unfold Qsum. cbn. lra.
  - rewrite !fmap_cons, Qsum_cons. cbn [foldr]. rewrite inject_Z_plus.
    unfold design.bucket_closures at 1 3.
    pose proof (cum_prob_range _ years
                  (prob_range (avg (fst bc) * (1 - decline)) decline)) as [Hc0 Hc1].
    assert (Hn : (0 <= inject_Z (snd bc))%Q)
      by (change 0%Q with (inject_Z 0); now rewrite <- Zle_Qle).
    split; nra.
Qed.

Lemma expected_closures_mono (decline : Q) (years years' : Z) (bs : list (B * Z)) :
  Forall (fun bc => 0 <= snd bc) bs ->
  years <= years' ->
  (design.expected_closures rules background avg decline years bs
   <= design.expected_closures rules background avg decline years' bs)%Q.
Proof.
  intros Hbs Hy. unfold design.expected_closures.
  induction Hbs as [|bc bs Hbc _ IH].
  - cbn. lra.
  - rewrite !fmap_cons, !Qsum_cons.
    unfold design.bucket_closures at 1 3.
    pose proof (cum_prob_mono _ years years'
                  (prob_range (avg (fst bc) * (1 - decline)) decline) Hy) as Hc.
    assert (Hn : (0 <= inject_Z (snd bc))%Q)
      by (change 0%Q with (inject_Z 0); now rewrite <- Zle_Qle).
    nra.
Qed.

End closure_bounds.

Lemma state_prob_range (size decline : Q) :
  (0 <= design.first_match design.state_rules process_closure_risk.large_stable
          size decline <= 1)%Q.
Proof.
  unfold design.state_rules, design.first_match. cbn [fst snd].
  destruct (Qltb size 100); [split; discriminate|].
  destruct (Qltb size 200 && Qgtb decline 0.25); [split; discriminate|].
  destruct (Qgtb decline 0.10); [split; discriminate|].
  destruct (Qgtb decline 0.03); split; discriminate.
Qed.

Lemma cooper_prob_range (size decline : Q) :
  (0 <= design.first_match design.cooper_rules process_cooper_center.large_stable
          size decline <= 1)%Q.
Proof.
  unfold design.cooper_rules, design.first_match. cbn [fst snd].
  destruct (Qltb size 100); [split; discriminate|].
  destruct (Qltb size 200 && Qgtb decline 0.25); [split; discriminate|].
  destruct (Qgtb decline 0.10); split; discriminate.
Qed.

Section state_bounds.

Import process_closure_risk.

Lemma buckets_not_negative (schools : StateSchools) :
  design.counts_add_up schools ->
  Forall (fun bc => 0 <= snd bc) (buckets schools)
  /\ foldr Z.add 0 (snd <$> buckets schools) = total_schools schools.
Proof.
  intros (H1 & H2 & H3 & H4 & H5 & Htot). split.
  - unfold buckets. repeat constructor; assumption.
  - unfold buckets. cbn. lia.
Qed.

Lemma pct_of_total_range (x : Q) (total : Z) :
  (0 <= x <= inject_Z total)%Q -> (0 <= pct_of_total x total <= 100)%Q.
Proof.
  intros [H0 H1]. unfold pct_of_total.
  destruct (Z.ltb_spec 0 total) as [Ht|Ht]; [|lra].
  assert (Hq : (0 < inject_Z total)%Q)
    by (change 0%Q with (inject_Z 0); now rewrite <- Zlt_Qlt).
  assert (Hr : (0 <= x / inject_Z total * 100 <= 100)%Q).
  { assert (0 <= x / inject_Z total)%Q by (apply Qle_shift_div_l; lra).
    assert (x / inject_Z total <= 1)%Q by (apply Qle_shift_div_r; lra).
    lra. }
  apply (py_round_between 0 100); [lia | exact Hr].
Qed.

Lemma bucket_loop_design (schools : StateSchools) (decline_ratio : Q) (target_year : Z) :
  (expected_closures
     (bucket_loop (avg_enrollment schools) decline_ratio
        (years_from_2025 target_year) (buckets schools))
   == design.expected_closures design.state_rules large_stable
        (avg_enrollment schools) decline_ratio (target_year - 2025)
        (buckets schools))%Q.
Proof.
  unfold bucket_loop. rewrite bucket_loop_expected. cbn [expected_closures]. ring.
Qed.

Lemma year_fields_bounds (t : Tally) (total : Z) :
  (0 <= expected_closures t <= inject_Z total)%Q ->
  0 <= risk_severe t <= risk_elevated t ->
  risk_elevated t <= total ->
  (0 <= py_round (expected_closures t) 1 <= inject_Z total)%Q
  /\ (0 <= pct_of_total (expected_closures t) total <= 100)%Q
  /\ (0 <= pct_of_total (inject_Z (risk_elevated t)) total <= 100)%Q
  /\ (0 <= pct_of_total (inject_Z (risk_severe t)) total <= 100)%Q.
Proof.
  intros Hx Hs He. split; [|split; [|split]].
  - apply (py_round_between 0 total); [lia | exact Hx].
  - apply pct_of_total_range, Hx.
  - apply pct_of_total_range. change 0%Q with (inject_Z 0).
    rewrite <- !Zle_Qle. lia.
  - apply pct_of_total_range. change 0%Q with (inject_Z 0).
    rewrite <- !Zle_Qle. lia.
Qed.

Lemma estimate_year_fields (schools : StateSchools) (scenario_data : gmap Z YearData)
  (target_year : Z) :
  estimate_year schools scenario_data target_year
  = let t := bucket_loop (avg_enrollment schools)
               (decline_ratio_of scenario_data target_year)
               (years_from_2025 target_year) (buckets schools) in
    {| projected_enrollment :=
         round_half_even (inject_Z (total_enrollment schools)
                          * (1 - decline_ratio_of scenario_data target_year));
       key_expected_closures := py_round (expected_closures t) 1;
       expected_closures_pct := pct_of_total (expected_closures t) (total_schools schools);
       schools_elevated_risk := risk_elevated t;
       schools_elevated_risk_pct :=
         pct_of_total (inject_Z (risk_elevated t)) (total_schools schools);
       schools_severe_risk := risk_severe t;
       schools_severe_risk_pct :=
         pct_of_total (inject_Z (risk_severe t)) (total_schools schools) |}.
Proof. reflexivity. Qed.

(** X4.  For a state whose bucket counts are not negative and add up
    to its number of schools, the expected closures of every scenario
    year lie between 0 and the number of schools, before and after
    rounding, and the three percentages written beside them lie between
    0 and 100. *)
Theorem expected_closures_bounds (schools : StateSchools)
  (scenario_data : gmap Z YearData) (target_year : Z) :
  design.counts_add_up schools ->
  let e := estimate_year schools scenario_data target_year in
  (0 <= expected_closures
          (bucket_loop (avg_enrollment schools)
             (decline_ratio_of scenario_data target_year)
             (years_from_2025 target_year) (buckets schools))
   <= inject_Z (total_schools schools))%Q
  /\ (0 <= key_expected_closures e <= inject_Z (total_schools schools))%Q
  /\ (0 <= expected_closures_pct e <= 100)%Q
  /\ (0 <= schools_elevated_risk_pct e <= 100)%Q
  /\ (0 <= schools_severe_risk_pct e <= 100)%Q.
Proof.
  intros Hwf e.
  destruct (buckets_not_negative schools Hwf) as [Hbs Hsum].
  assert (Hx : (0 <= expected_closures
                      (bucket_loop (avg_enrollment schools)
                         (decline_ratio_of scenario_data target_year)
                         (years_from_2025 target_year) (buckets schools))
                <= inject_Z (total_schools schools))%Q).
  { rewrite bucket_loop_design, <- Hsum.
    apply (expected_closures_range _ _ _ state_prob_range). exact Hbs. }
  destruct (estimate_year_tallies schools scenario_data target_year Hwf) as [Hs He].
  rewrite (estimate_year_fields schools scenario_data target_year) in Hs, He.
  split; [exact Hx|]. unfold e.
  rewrite (estimate_year_fields schools scenario_data target_year).
  cbn [key_expected_closures expected_closures_pct schools_elevated_risk_pct
         schools_severe_risk_pct].
  cbn [schools_severe_risk schools_elevated_risk] in Hs, He.
  apply year_fields_bounds; assumption.
Qed.

Lemma expected_closures_bounds_witness :
  let schools :=
    {| total_schools := 2; total_enrollment := 720; bucket_under100 := 1;
       bucket_100_199 := 0; bucket_200_299 := 0; bucket_300_499 := 0;
       bucket_500plus := 1 |} in
  let e := estimate_year schools ∅ 2030 in
  (0 <= key_expected_closures e <= 2)%Q /\ (0 <= expected_closures_pct e <= 100)%Q.
Proof.
  intros schools e.
  assert (Hwf : design.counts_add_up schools) by (unfold design.counts_add_up; cbn; lia).
  pose proof (expected_closures_bounds schools ∅ 2030 Hwf) as (_ & H1 & H2 & _).
  split; [exact H1 | exact H2].
Defined.

(** X5.  For a fixed decline ratio a later target year never lowers the
    expected closures of a state. *)
Theorem closures_grow_with_horizon (schools : StateSchools) (decline_ratio : Q)
  (target_year target_year' : Z) :
  design.counts_add_up schools ->
  target_year <= target_year' ->
  (expected_closures
     (bucket_loop (avg_enrollment schools) decline_ratio
        (years_from_2025 target_year) (buckets schools))
   <= expected_closures
        (bucket_loop (avg_enrollment schools) decline_ratio
           (years_from_2025 target_year') (buckets schools)))%Q.
Proof.
  intros Hwf Hle. destruct (buckets_not_negative schools Hwf) as [Hbs _].
  rewrite !bucket_loop_design.
  apply (expected_closures_mono _ _ _ state_prob_range); [exact Hbs | lia].
Qed.

Lemma closures_grow_with_horizon_witness :
  let schools :=
    {| total_schools := 2; total_enrollment := 720; bucket_under100 := 1;
       bucket_100_199 := 0; bucket_200_299 := 0; bucket_300_499 := 0;
       bucket_500plus := 1 |} in
  (expected_closures
     (bucket_loop (avg_enrollment schools) 0.12 (years_from_2025 2030) (buckets schools))
   <= expected_closures
        (bucket_loop (avg_enrollment schools) 0.12 (years_from_2025 2040)
           (buckets schools)))%Q.
Proof.
  intros schools.
  apply (closures_grow_with_horizon schools 0.12 2030 2040
           ltac:(unfold design.counts_add_up; cbn; lia)).
  lia.
Defined.

End state_bounds.

Section quiet_years.

Import process_closure_risk.

Lemma avg_enrollment_floor (schools : StateSchools) (b : bucket_name) :
  b <> under100 -> (150 <= avg_enrollment schools b)%Q.
Proof.
  intros Hb. destruct b; try congruence; cbn [avg_enrollment]; try discriminate.
  destruct (0 <? bucket_500plus schools); [|discriminate].
  unfold Qmax_py. destruct (Qltb 750 _) eqn:E; [|discriminate].
  apply Qltb_lt in E. lra.
Qed.

Lemma bucket_body_quiet (avg : bucket_name -> Q) (decline_ratio : Q) (years : Z)
  (acc : Tally) (bc : bucket_name * Z) :
  (150 <= avg (fst bc))%Q -> (0 <= decline_ratio <= 0.03)%Q ->
  risk_severe (bucket_body avg decline_ratio years acc bc) = risk_severe acc
  /\ risk_elevated (bucket_body avg decline_ratio years acc bc) = risk_elevated acc.
Proof.
  intros Havg [Hd0 Hd1]. unfold bucket_body.
  destruct (snd bc =? 0); [tauto|].
  assert (E1 : Qltb (avg (fst bc) * (1 - decline_ratio)) 100 = false).
  { apply Qltb_ge. nra. }
  assert (E2 : Qgtb decline_ratio 0.25 = false) by (apply Qltb_ge; lra).
  assert (E3 : Qgtb decline_ratio 0.10 = false) by (apply Qltb_ge; lra).
  assert (E4 : Qgtb decline_ratio 0.03 = false) by (apply Qltb_ge; lra).
  rewrite E1, E2, E3, E4, andb_false_r. cbn. tauto.
Qed.

Lemma bucket_body_tiny (avg : bucket_name -> Q) (decline_ratio : Q) (years : Z)
  (acc : Tally) (bc : bucket_name * Z) :
  (avg (fst bc) == 55)%Q -> (0 <= decline_ratio)%Q ->
  risk_severe (bucket_body avg decline_ratio years acc bc) = risk_severe acc + snd bc
  /\ risk_elevated (bucket_body avg decline_ratio years acc bc)
     = risk_elevated acc + snd bc.
Proof.
  intros Havg Hd. unfold bucket_body.
  destruct (Z.eqb_spec (snd bc) 0) as [->|_]; [split; lia|].
  assert (E1 : Qltb (avg (fst bc) * (1 - decline_ratio)) 100 = true).
  { apply Qltb_lt. rewrite Havg. lra. }
  rewrite E1. cbn. tauto.
Qed.

(** X6.  While the decline ratio of a year lies between 0 and 3
    percent, the two risk tallies of a state are both the number of its
    schools under 100 pupils: no other bucket is flagged. *)
Theorem quiet_years_flag_small_schools (schools : StateSchools)
  (scenario_data : gmap Z YearData) (target_year : Z) :
  (0 <= decline_ratio_of scenario_data target_year <= 0.03)%Q ->
  schools_severe_risk (estimate_year schools scenario_data target_year)
  = bucket_under100 schools
  /\ schools_elevated_risk (estimate_year schools scenario_data target_year)
     = bucket_under100 schools.
Proof.
  intros Hd. rewrite estimate_year_fields.
  cbn [schools_severe_risk schools_elevated_risk].
  set (avg := avg_enrollment schools).
  set (dr := decline_ratio_of scenario_data target_year) in *.
  set (y := years_from_2025 target_year).
  unfold bucket_loop, buckets. cbn [foldl].
  set (t0 := {| expected_closures := 0; risk_elevated := 0; risk_severe := 0 |}).
  set (t1 := bucket_body avg dr y t0 (under100, bucket_under100 schools)).
  set (t2 := bucket_body avg dr y t1 (b100_199, bucket_100_199 schools)).
  set (t3 := bucket_body avg dr y t2 (b200_299, bucket_200_299 schools)).
  set (t4 := bucket_body avg dr y t3 (b300_499, bucket_300_499 schools)).
  destruct (bucket_body_tiny avg dr y t0 (under100, bucket_under100 schools))
    as [H1s H1e]; [reflexivity | tauto |].
  destruct (bucket_body_quiet avg dr y t1 (b100_199, bucket_100_199 schools))
    as [H2s H2e]; [apply avg_enrollment_floor; discriminate | exact Hd |].
  destruct (bucket_body_quiet avg dr y t2 (b200_299, bucket_200_299 schools))
    as [H3s H3e]; [apply avg_enrollment_floor; discriminate | exact Hd |].
  destruct (bucket_body_quiet avg dr y t3 (b300_499, bucket_300_499 schools))
    as [H4s H4e]; [apply avg_enrollment_floor; discriminate | exact Hd |].
  destruct (bucket_body_quiet avg dr y t4 (b500plus, bucket_500plus schools))
    as [H5s H5e]; [apply avg_enrollment_floor; discriminate | exact Hd |].
  fold t1 in H1s, H1e. fold t2 in H2s, H2e. fold t3 in H3s, H3e. fold t4 in H4s, H4e.
  rewrite H5s, H5e, H4s, H4e, H3s, H3e, H2s, H2e, H1s, H1e. cbn. split; lia.
Qed.

Lemma quiet_years_flag_small_schools_witness :
  let schools :=
    {| total_schools := 9; total_enrollment := 4000; bucket_under100 := 2;
       bucket_100_199 := 3; bucket_200_299 := 0; bucket_300_499 := 1;
       bucket_500plus := 3 |} in
  let scenario_data : gmap Z YearData :=
    {[ 2030 := {| rate := 60; birth_decline_pct := 4;
                  key_post_2022_fraction := Some 0.231%Q;
                  key_enrollment_decline_pct := Some 0.92%Q |} ]} in
  schools_severe_risk (estimate_year schools scenario_data 2030) = 2.
Proof.
  intros schools scenario_data.
  apply (proj1 (quiet_years_flag_small_schools schools scenario_data 2030
                  ltac:(split; apply Qle_bool_iff; vm_compute; reflexivity))).
Defined.

End quiet_years.

Section cooper_bounds.

Import process_cooper_center.

Lemma compute_closures_design (decline_ratio : Q)
  (bs : list (process_closure_risk.bucket_name * Z)) (years : Z) :
  (compute_closures decline_ratio bs years
   == design.expected_closures design.cooper_rules large_stable avg_enrollment
        decline_ratio years bs)%Q.
Proof.
  unfold compute_closures. rewrite compute_closures_expected. ring.
Qed.

(** X7.  With bucket counts that are not negative, [compute_closures]
    returns a value between 0 and the number of schools in the buckets,
    never lowers it for a longer horizon, and gives the one-year value
    for every horizon of at most one year, a horizon of 0 included. *)
Theorem compute_closures_bounds (decline_ratio : Q)
  (bs : list (process_closure_risk.bucket_name * Z)) (years years' : Z) :
  Forall (fun bc => 0 <= snd bc) bs ->
  (0 <= compute_closures decline_ratio bs years
   <= inject_Z (foldr Z.add 0%Z (snd <$> bs)))%Q
  /\ (years <= years' ->
      (compute_closures decline_ratio bs years
       <= compute_closures decline_ratio bs years')%Q)
  /\ (years <= 1 ->
      compute_closures decline_ratio bs years = compute_closures decline_ratio bs 1).
Proof.
  intros Hbs. split; [|split].
  - rewrite compute_closures_design.
    apply (expected_closures_range _ _ _ cooper_prob_range). exact Hbs.
  - intros Hy. rewrite !compute_closures_design.
    now apply (expected_closures_mono _ _ _ cooper_prob_range).
  - intros Hy. unfold compute_closures. f_equal. unfold closure_body.
    now replace (Z.max years 1) with (Z.max 1 1) by lia.
Qed.

Lemma compute_closures_bounds_witness :
  let bs := [(process_closure_risk.under100, 1); (process_closure_risk.b500plus, 2)] in
  (0 <= compute_closures 0.2 bs 5 <= 3)%Q.
Proof.
  intros bs.
  apply (proj1 (compute_closures_bounds 0.2 bs 5 5
                  ltac:(repeat constructor; cbn; lia))).
Defined.

End cooper_bounds.

(** ** More on the temporal resampler *)

Section resampler_more.

Import process_data.

Lemma fraction_unit (target y1 y2 : Z) :
  y1 < target < y2 -> (0 < fraction target y1 y2 < 1)%Q.
Proof.
  intros [H1 H2]. unfold fraction.
  assert (Hd : (0 < inject_Z (y2 - y1))%Q)
    by (change 0%Q with (inject_Z 0); rewrite <- Zlt_Qlt; lia).
  assert (Hn : (0 < inject_Z (target - y1))%Q)
    by (change 0%Q with (inject_Z 0); rewrite <- Zlt_Qlt; lia).
  assert (Hlt : (inject_Z (target - y1) < inject_Z (y2 - y1))%Q)
    by (rewrite <- Zlt_Qlt; lia).
  split.
  - apply Qlt_shift_div_l; lra.
  - apply Qlt_shift_div_r; lra.
Qed.

(** Where the value of a target year comes from: a known year, or the
    two known years around it. *)
Lemma resample_cases (years_data : gmap Z Agg) (target_year : Z) (d : Agg) :
  resample years_data target_year = Ok (Some d) ->
  (exists y, years_data !! y = Some d)
  \/ (exists y1 y2 d1 d2,
        years_data !! y1 = Some d1 /\ years_data !! y2 = Some d2
        /\ y1 < target_year < y2
        /\ d = {| total := lerp (fraction target_year y1 y2) (total d1) (total d2);
                  plus65 := lerp (fraction target_year y1 y2) (plus65 d1) (plus65 d2);
                  plus85 := lerp (fraction target_year y1 y2) (plus85 d1) (plus85 d2) |}).
Proof.
  unfold resample.
  destruct (years_data !! target_year) as [d0|] eqn:Ht.
  { intros [= <-]. left. eauto. }
  destruct (last _) as [y1|] eqn:Hl, (head _) as [y2|] eqn:Hh.
  - apply last_before_key in Hl as [[d1 H1] Hle1].
    apply head_after_key in Hh as [[d2 H2] Hle2].
    unfold subscript. rewrite H1, H2.
    destruct (Z.eqb_spec y1 y2) as [->|Hne].
    + intros [= <-]. left. eauto.
    + intros [= <-]. right. exists y1, y2, d1, d2.
      split; [exact H1|]. split; [exact H2|]. split; [|reflexivity].
      assert (y1 <> target_year) by congruence.
      assert (y2 <> target_year) by congruence. lia.
  - apply last_before_key in Hl as [[d1 H1] _].
    unfold subscript. rewrite H1. intros [= <-]. left. eauto.
  - apply head_after_key in Hh as [[d2 H2] _].
    unfold subscript. rewrite H2. intros [= <-]. left. eauto.
  - discriminate.
Qed.

(** X8.  The resampler never raises, and it finds a value for a target
    year exactly when the series has at least one known year. *)
Theorem resample_value_iff_known (years_data : gmap Z Agg) (target_year : Z) :
  match resample years_data target_year with
  | Ok (Some _) => years_data <> ∅
  | Ok None => years_data = ∅
  | Raise _ => False
  end.
Proof.
  destruct (resample_total years_data target_year) as [od Hod]. rewrite Hod.
  destruct od as [d|].
  - apply resample_cases in Hod as [[y Hy]|(y1 & _ & d1 & _ & Hy & _)];
      intros ->; now rewrite lookup_empty in Hy.
  - destruct (map_choose_or_empty years_data) as [(y & x & Hy)|He]; [|exact He].
    exfalso. unfold resample in Hod.
    destruct (years_data !! target_year); [discriminate|].
    destruct (last _) as [y1|] eqn:Hl, (head _) as [y2|] eqn:Hh.
    + apply last_before_key in Hl as [[d1 H1] _].
      apply head_after_key in Hh as [[d2 H2] _].
      unfold subscript in Hod. rewrite H1, H2 in Hod.
      destruct (y1 =? y2); discriminate.
    + apply last_before_key in Hl as [[d1 H1] _].
      unfold subscript in Hod. rewrite H1 in Hod. discriminate.
    + apply head_after_key in Hh as [[d2 H2] _].
      unfold subscript in Hod. rewrite H2 in Hod. discriminate.
    + apply last_None in Hl. apply head_None in Hh.
      destruct (Z_le_gt_dec y target_year) as [Hle|Hgt].
      * assert (Hin : y ∈ years_before (sorted_keys years_data) target_year)
          by (apply elem_of_years_before; eauto).
        rewrite Hl in Hin. now apply not_elem_of_nil in Hin.
      * assert (Hin : y ∈ years_after (sorted_keys years_data) target_year)
          by (apply elem_of_years_after; split; [lia | eauto]).
        rewrite Hh in Hin. now apply not_elem_of_nil in Hin.
Qed.

Lemma lerp_between (t lo hi v1 v2 : Q) :
  (0 <= t <= 1)%Q -> (lo <= v1 <= hi)%Q -> (lo <= v2 <= hi)%Q ->
  (lo <= lerp t v1 v2 <= hi)%Q.
Proof. intros Ht H1 H2. unfold lerp. split; nra. Qed.

Lemma lerp_le (t a1 a2 b1 b2 : Q) :
  (0 <= t <= 1)%Q -> (a1 <= b1)%Q -> (a2 <= b2)%Q -> (lerp t a1 a2 <= lerp t b1 b2)%Q.
Proof. intros Ht H1 H2. unfold lerp. nra. Qed.

Lemma resample_nested (years_data : gmap Z Agg) (target_year : Z) (d : Agg) :
  map_Forall (fun _ a => nested a) years_data ->
  resample years_data target_year = Ok (Some d) ->
  nested d.
Proof.
  intros Hall Hd.
  apply resample_cases in Hd as [[y Hy]|(y1 & y2 & d1 & d2 & H1 & H2 & Hy & ->)].
  - exact (map_Forall_lookup_1 _ _ _ _ Hall Hy).
  - pose proof (map_Forall_lookup_1 _ _ _ _ Hall H1) as (Ha1 & Hb1 & Hc1).
    pose proof (map_Forall_lookup_1 _ _ _ _ Hall H2) as (Ha2 & Hb2 & Hc2).
    destruct (fraction_unit target_year y1 y2 Hy) as [Ht0 Ht1].
    unfold nested. cbn [total plus65 plus85].
    split; [|split].
    + unfold lerp. nra.
    + apply lerp_le; [lra | exact Hb1 | exact Hb2].
    + apply lerp_le; [lra | exact Hc1 | exact Hc2].
Qed.

(** X9.  A resampled value never leaves the range of the known values:
    bounds that hold for an accumulator in every known year hold for its
    resampled value, and the nesting [0 <= 85+ <= 65+ <= total] of the
    known years carries over to it. *)
Theorem resample_stays_in_range (years_data : gmap Z Agg) (target_year : Z) (d : Agg)
  (lo hi : Q) :
  resample years_data target_year = Ok (Some d) ->
  (map_Forall (fun _ a => lo <= total a <= hi)%Q years_data ->
   (lo <= total d <= hi)%Q)
  /\ (map_Forall (fun _ a => lo <= plus65 a <= hi)%Q years_data ->
      (lo <= plus65 d <= hi)%Q)
  /\ (map_Forall (fun _ a => lo <= plus85 a <= hi)%Q years_data ->
      (lo <= plus85 d <= hi)%Q)
  /\ (map_Forall (fun _ a => nested a) years_data -> nested d).
Proof.
  intros Hd. split; [|split; [|split]].
  4: { intros Hall. exact (resample_nested _ _ _ Hall Hd). }
  all: intros Hall;
    apply resample_cases in Hd as [[y Hy]|(y1 & y2 & d1 & d2 & H1 & H2 & Hy & ->)];
    [ exact (map_Forall_lookup_1 _ _ _ _ Hall Hy)
    | pose proof (map_Forall_lookup_1 _ _ _ _ Hall H1) as Hb1;
      pose proof (map_Forall_lookup_1 _ _ _ _ Hall H2) as Hb2;
      destruct (fraction_unit target_year y1 y2 Hy) as [Ht0 Ht1];
      cbn [total plus65 plus85]; cbv beta in Hb1, Hb2;
      apply lerp_between; [lra | exact Hb1 | exact Hb2] ].
Qed.

Lemma resample_stays_in_range_witness :
  exists d,
    resample (<[2025 := {| total := 100; plus65 := 10; plus85 := 1 |}]>
                {[ 2030 := {| total := 150; plus65 := 20; plus85 := 2 |} ]}) 2027
    = Ok (Some d)
    /\ (100 <= total d <= 150)%Q.
Proof.
  destruct (resample (<[2025 := {| total := 100; plus65 := 10; plus85 := 1 |}]>
                        {[ 2030 := {| total := 150; plus65 := 20; plus85 := 2 |} ]}) 2027)
    as [[d|]|e] eqn:Hd; [|exfalso; vm_compute in Hd; discriminate..].
  exists d. split; [reflexivity|].
  apply (proj1 (resample_stays_in_range _ 2027 d 100 150 Hd)).
  apply map_Forall_insert_2; [cbn; split; discriminate|].
  apply map_Forall_singleton. cbn. split; discriminate.
Defined.

End resampler_more.

(** ** What the row loop leaves in the accumulators *)

Section accumulated.

Context {A : Type} (zero : A) (add : Z -> Q -> A -> A) (keep_year : Z -> bool).

(** One accumulator of the record, and the age bands it takes. *)
Context (field : A -> Q) (counts : Z -> bool).
Hypothesis field_zero : (field zero == 0)%Q.
Hypothesis field_add : forall age_group value a,
  (field (add age_group value a)
   == field a + (if counts age_group then value else 0))%Q.

Lemma for_each_rows_sum (rows : list Row) :
  forall county_data county_data',
    for_each (row_body zero add keep_year) rows county_data = Ok county_data' ->
    forall fips year,
      (field (accumulators zero county_data' fips year)
       == field (accumulators zero county_data fips year)
          + Qsum (added_value keep_year counts fips year <$> rows))%Q.
Proof.
  induction rows as [|r rows IH]; intros cd cd' Hrun fips year.
  - injection Hrun as <-. change (Qsum _) with 0%Q. lra.
  - cbn [for_each] in Hrun. rewrite row_body_outcome in Hrun.
    rewrite fmap_cons, Qsum_cons. unfold added_value at 1.
    destruct (row_outcome keep_year r) as [| |f y g v].
    + discriminate.
    + rewrite (IH _ _ Hrun fips year). lra.
    + rewrite (IH _ _ Hrun fips year).
      case_bool_decide as Hk; cbn [andb].
      * destruct Hk as [-> ->]. rewrite accumulators_store_eq, field_add. lra.
      * rewrite accumulators_store_ne by (intros [= -> ->]; tauto). lra.
Qed.

Lemma read_rows_sum (rows : list Row) (county_data : gmap string (gmap Z A))
  (fips : string) (year : Z) :
  read_rows zero add keep_year rows = Ok county_data ->
  (field (accumulators zero county_data fips year)
   == Qsum (added_value keep_year counts fips year <$> rows))%Q.
Proof.
  intros Hrun. rewrite (for_each_rows_sum rows ∅ county_data Hrun fips year).
  unfold accumulators at 1. rewrite lookup_empty. cbn [mbind option_bind default].
  rewrite field_zero. lra.
Qed.

End accumulated.

Section accumulated_keys.

Context {A : Type} (zero : A) (add : Z -> Q -> A -> A) (keep_year : Z -> bool).

Lemma row_adds_iff (row : Row) (fips : string) (year : Z) :
  (exists age_group value, row_outcome keep_year row = Adds fips year age_group value)
  <-> row_of keep_year fips year row /\ row_outcome keep_year row <> Fails.
Proof.
  unfold row_of, row_outcome. destruct (YEAR row) as [y|].
  - destruct (keep_year y) eqn:Hk; cbn [negb].
    + case_bool_decide as Hst; cbn [negb].
      * destruct (AGE row) as [g|], (SSP2 row) as [v|]; split.
        -- intros (g' & v' & [= <- <- <- <-]). split; [tauto | discriminate].
        -- intros [(Hy & _ & _ & ->) _]. injection Hy as <-. eauto.
        -- intros (? & ? & ?). discriminate.
        -- intros [_ H]. now contradiction H.
        -- intros (? & ? & ?). discriminate.
        -- intros [_ H]. now contradiction H.
        -- intros (? & ? & ?). discriminate.
        -- intros [_ H]. now contradiction H.
      * split; [intros (? & ? & ?); discriminate|].
        intros [(_ & _ & H & _) _]. contradiction.
    + split; [intros (? & ? & ?); discriminate|].
      intros [(Hy & H & _) _]. injection Hy as <-. congruence.
  - split; [intros (? & ? & ?); discriminate|].
    intros [(Hy & _) _]. discriminate.
Qed.

Lemma for_each_rows_keys (rows : list Row) :
  forall county_data county_data',
    for_each (row_body zero add keep_year) rows county_data = Ok county_data' ->
    forall fips year,
      is_Some (county_data' !! fips ≫= lookup year)
      <-> is_Some (county_data !! fips ≫= lookup year)
          \/ Exists (row_of keep_year fips year) rows.
Proof.
  induction rows as [|r rows IH]; intros cd cd' Hrun fips year.
  - injection Hrun as <-. rewrite Exists_nil. tauto.
  - cbn [for_each] in Hrun. rewrite row_body_outcome in Hrun.
    rewrite Exists_cons.
    pose proof (row_adds_iff r fips year) as Hr.
    destruct (row_outcome keep_year r) as [| |f y g v] eqn:Ho.
    + discriminate.
    + rewrite (IH _ _ Hrun fips year).
      assert (~ row_of keep_year fips year r).
      { intros H. destruct (proj2 Hr) as (? & ? & ?); [|discriminate].
        split; [exact H | discriminate]. }
      tauto.
    + rewrite (IH _ _ Hrun fips year).
      assert (Hiff : row_of keep_year fips year r <-> f = fips /\ y = year).
      { split.
        - intros H. destruct (proj2 Hr) as (g' & v' & [= -> -> _ _]); [|tauto].
          split; [exact H | discriminate].
        - intros [-> ->]. apply Hr. eauto. }
      assert (Hstore : is_Some (store cd f y (add g v (accumulators zero cd f y)) !! fips
                                  ≫= lookup year)
                       <-> is_Some (cd !! fips ≫= lookup year) \/ (f = fips /\ y = year)).
      { unfold store. destruct (decide (f = fips)) as [->|Hf].
        - rewrite lookup_insert_eq. cbn [mbind option_bind].
          destruct (decide (y = year)) as [->|Hy].
          + rewrite lookup_insert_eq. split; [tauto | eauto].
          + rewrite lookup_insert_ne by exact Hy.
            destruct (cd !! fips) as [m|]; cbn [default mbind option_bind].
            * tauto.
            * rewrite lookup_empty. tauto.
        - rewrite lookup_insert_ne by exact Hf. tauto. }
      tauto.
Qed.

(** X10.  After the row loop of either aggregator, a county has an entry
    for a year exactly when some row passed both filters (a kept year
    and a known state code) and carries that county's code and that
    year: county codes are a known state code followed by the padded
    county code, and years are kept years. *)
Theorem read_rows_keys (rows : list Row) (county_data : gmap string (gmap Z A))
  (fips : string) (year : Z) :
  read_rows zero add keep_year rows = Ok county_data ->
  (is_Some (county_data !! fips ≫= lookup year)
   <-> Exists (fun row =>
                 YEAR row = Parses year /\ keep_year year = true
                 /\ zfill 2 (strip (STATE row)) ∈ STATE_FIPS
                 /\ fips = zfill 2 (strip (STATE row)) +:+ zfill 3 (strip (COUNTY row)))
         rows).
Proof.
  intros Hrun. rewrite (for_each_rows_keys rows ∅ county_data Hrun fips year).
  rewrite lookup_empty. cbn [mbind option_bind].
  split; [intros [H|H]; [now apply is_Some_None in H | exact H] | tauto].
Qed.

End accumulated_keys.

Lemma read_rows_keys_witness :
  let row := {| YEAR := Parses 2030; STATE := "1"; COUNTY := "1"; AGE := Parses 15;
                SSP2 := Parses 10.5%Q |} in
  let county_data :=
    store (∅ : gmap string (gmap Z process_data.Agg)) "01001" 2030
      (process_data.add 15 10.5%Q process_data.zero) in
  process_data.read_hauer [row] = Ok county_data
  /\ is_Some (county_data !! "01001"%string ≫= lookup 2030).
Proof.
  intros row county_data.
  assert (Hrun : process_data.read_hauer [row] = Ok county_data) by reflexivity.
  split; [exact Hrun|].
  apply (proj2 (read_rows_keys process_data.zero process_data.add process_data.keep_year
                  [row] county_data "01001" 2030 Hrun)).
  apply Exists_cons_hd.
  split; [reflexivity|]. split; [reflexivity|].
  split; [|reflexivity]. vm_compute. apply (bool_decide_unpack _). vm_compute. reflexivity.
Defined.

Lemma read_hauer_sums (rows : list Row)
  (county_data : gmap string (gmap Z process_data.Agg)) (fips : string) (year : Z) :
  process_data.read_hauer rows = Ok county_data ->
  let a := accumulators process_data.zero county_data fips year in
  let sum_of counts :=
    Qsum (added_value process_data.keep_year counts fips year <$> rows) in
  (process_data.total a == sum_of (fun _ => true))%Q
  /\ (process_data.plus65 a == sum_of (fun age_group => (14 <=? age_group)%Z))%Q
  /\ (process_data.plus85 a == sum_of (fun age_group => (18 <=? age_group)%Z))%Q.
Proof.
  intros Hrun a sum_of. subst a sum_of. cbv beta.
  split; [|split].
  - apply (read_rows_sum process_data.zero process_data.add process_data.keep_year
             process_data.total (fun _ => true)); [reflexivity | | exact Hrun].
    intros g v a. cbn. reflexivity.
  - apply (read_rows_sum process_data.zero process_data.add process_data.keep_year
             process_data.plus65 (fun g => 14 <=? g)); [reflexivity | | exact Hrun].
    intros g v a. cbn. destruct (14 <=? g); [reflexivity | lra].
  - apply (read_rows_sum process_data.zero process_data.add process_data.keep_year
             process_data.plus85 (fun g => 18 <=? g)); [reflexivity | | exact Hrun].
    intros g v a. cbn. destruct (18 <=? g); [reflexivity | lra].
Qed.





(** ** Nested subtotals *)

Lemma Qsum_fmap_le {B : Type} (f g : B -> Q) (l : list B) :
  Forall (fun b => f b <= g b)%Q l -> (Qsum (f <$> l) <= Qsum (g <$> l))%Q.
Proof.
  induction 1 as [|b l Hb _ IH].
  - apply Qle_refl.
  - rewrite !fmap_cons, !Qsum_cons. lra.
Qed.

Lemma Qsum_fmap_not_negative {B : Type} (f : B -> Q) (l : list B) :
  Forall (fun b => 0 <= f b)%Q l -> (0 <= Qsum (f <$> l))%Q.
Proof.
  induction 1 as [|b l Hb _ IH].
  - apply Qle_refl.
  - rewrite fmap_cons, Qsum_cons. lra.
Qed.

Lemma row_adds_value (keep_year : Z -> bool) (row : Row) fips year age_group value :
  row_outcome keep_year row = Adds fips year age_group value ->
  SSP2 row = Parses value.
Proof.
  unfold row_outcome. destruct (YEAR row); [|discriminate].
  destruct (negb _); [discriminate|]. destruct (negb _); [discriminate|].
  destruct (AGE row), (SSP2 row); try discriminate. now intros [= _ _ _ ->].
Qed.

Lemma added_value_le (keep_year : Z -> bool) (counts counts' : Z -> bool)
  (fips : string) (year : Z) (row : Row) :
  (forall age_group, counts age_group = true -> counts' age_group = true) ->
  value_not_negative row ->
  (0 <= added_value keep_year counts fips year row)%Q
  /\ (added_value keep_year counts fips year row
      <= added_value keep_year counts' fips year row)%Q.
Proof.
  intros Hsub Hrow. unfold added_value.
  destruct (row_outcome keep_year row) as [| |f y g v] eqn:Ho;
    try (split; apply Qle_refl).
  apply row_adds_value in Ho. unfold value_not_negative in Hrow. rewrite Ho in Hrow.
  destruct (bool_decide _); cbn [andb]; [|split; apply Qle_refl].
  specialize (Hsub g). destruct (counts g).
  - rewrite Hsub by reflexivity. split; [exact Hrow | apply Qle_refl].
  - destruct (counts' g); split; try apply Qle_refl; exact Hrow.
Qed.

Lemma added_sums_le (keep_year : Z -> bool) (counts counts' : Z -> bool)
  (fips : string) (year : Z) (rows : list Row) :
  (forall age_group, counts age_group = true -> counts' age_group = true) ->
  Forall value_not_negative rows ->
  (0 <= Qsum (added_value keep_year counts fips year <$> rows))%Q
  /\ (Qsum (added_value keep_year counts fips year <$> rows)
      <= Qsum (added_value keep_year counts' fips year <$> rows))%Q.
Proof.
  intros Hsub Hrows. split.
  - apply Qsum_fmap_not_negative. eapply Forall_impl; [exact Hrows|].
    intros row Hrow. now apply (added_value_le keep_year counts counts').
  - apply Qsum_fmap_le. eapply Forall_impl; [exact Hrows|].
    intros row Hrow. now apply (added_value_le keep_year counts counts').
Qed.

Lemma hauer_nested (rows : list Row)
  (county_data : gmap string (gmap Z process_data.Agg)) (fips : string) (year : Z) :
  Forall value_not_negative rows ->
  process_data.read_hauer rows = Ok county_data ->
  nested (accumulators process_data.zero county_data fips year).
Proof.
  intros Hrows Hrun.
  destruct (read_hauer_sums rows county_data fips year Hrun) as (Ht & H65 & H85).
  unfold nested. rewrite Ht, H65, H85.
  split; [|split].
  - apply (added_sums_le _ _ (fun _ => true)); [reflexivity | exact Hrows].
  - apply added_sums_le; [|exact Hrows]. intros g. rewrite !Z.leb_le. lia.
  - apply added_sums_le; [|exact Hrows]. reflexivity.
Qed.

(** X13.  When no row of the table carries a negative value, the
    accumulators that the row loop of [process_hauer] leaves for any
    county and year are nested: [0 <= 85+ <= 65+ <= total]. *)
Theorem hauer_accumulators_nested (rows : list Row)
  (county_data : gmap string (gmap Z process_data.Agg)) (fips : string) (year : Z) :
  Forall value_not_negative rows ->
  process_data.read_hauer rows = Ok county_data ->
  nested (accumulators process_data.zero county_data fips year).
Proof. exact (hauer_nested rows county_data fips year). Qed.

Lemma hauer_accumulators_nested_witness :
  let rows :=
    [ {| YEAR := Parses 2030; STATE := "1"; COUNTY := "1"; AGE := Parses 15;
         SSP2 := Parses 10.5%Q |};
      {| YEAR := Parses 2030; STATE := "1"; COUNTY := "1"; AGE := Parses 3;
         SSP2 := Parses 0.25%Q |} ] in
  exists county_data,
    process_data.read_hauer rows = Ok county_data
    /\ nested (accumulators process_data.zero county_data "01001" 2030).
Proof.
  intros rows.
  destruct (process_data.read_hauer rows) as [county_data|e] eqn:Hrun;
    [|exfalso; vm_compute in Hrun; discriminate].
  exists county_data. split; [reflexivity|].
  apply (hauer_accumulators_nested rows county_data "01001" 2030); [|exact Hrun].
  repeat constructor; cbn; discriminate.
Defined.

(** ** The output of [process_hauer] *)

Section hauer_output.

Import process_data.

Lemma year_out_bounds (d : Agg) :
  nested d -> (0 < total d)%Q ->
  let o := year_out d in
  (0 <= pct_85plus o)%Q /\ (pct_85plus o <= pct_65plus o)%Q /\ (pct_65plus o <= 100)%Q
  /\ 0 <= pop_85plus o /\ pop_85plus o <= pop_65plus o /\ pop_65plus o <= pop_total o.
Proof.
  intros (H85 & H65 & Ht) Hpos. cbn [year_out pct_85plus pct_65plus pop_85plus
                                      pop_65plus pop_total].
  assert (Hr85 : (0 <= 100 * plus85 d / total d)%Q)
    by (apply Qle_shift_div_l; lra).
  assert (Hr : (100 * plus85 d / total d <= 100 * plus65 d / total d)%Q).
  { unfold Qdiv. apply Qmult_le_compat_r; [lra|].
    apply Qlt_le_weak, Qinv_lt_0_compat, Hpos. }
  assert (Hr65 : (100 * plus65 d / total d <= 100)%Q)
    by (apply Qle_shift_div_r; lra).
  assert (Hb85 : (0 <= 100 * plus85 d / total d <= 100)%Q).
  { split; [exact Hr85 | exact (Qle_trans _ _ _ Hr Hr65)]. }
  assert (Hb65 : (0 <= 100 * plus65 d / total d <= 100)%Q).
  { split; [exact (Qle_trans _ _ _ Hr85 Hr) | exact Hr65]. }
  split; [|split; [|split; [|split; [|split]]]].
  - apply (py_round_between 0 100); [lia | exact Hb85].
  - apply py_round_le, Hr.
  - apply (py_round_between 0 100); [lia | exact Hb65].
  - rewrite <- (round_half_even_inject 0). apply round_half_even_le. exact H85.
  - apply round_half_even_le, H65.
  - apply round_half_even_le, Ht.
Qed.

Lemma for_each_preserves_in {B S : Type} (body : B -> S -> result S) (P : S -> Prop)
  (l : list B) (s s' : S) :
  (forall b s s', b ∈ l -> body b s = Ok s' -> P s -> P s') ->
  P s -> for_each body l s = Ok s' -> P s'.
Proof.
  revert s. induction l as [|b l IH]; intros s Hbody Hs Hrun.
  - cbn in Hrun. now injection Hrun as <-.
  - cbn [for_each] in Hrun. destruct (body b s) as [s1|] eqn:Hb; [|discriminate].
    apply (IH s1); [|eapply Hbody; eauto; left | exact Hrun].
    intros b' t t' Hin. apply Hbody. now right.
Qed.

(** The years of an entry: each one is a target year whose resampled
    total is positive, and holds the figures of the resampled value. *)
Lemma entry_years_lookup (years_data : gmap Z Agg) (years : gmap Z YearOut)
  (y : Z) (o : YearOut) :
  entry_years years_data = Ok years ->
  years !! y = Some o ->
  y ∈ TARGET_YEARS
  /\ exists d, resample years_data y = Ok (Some d) /\ (0 < total d)%Q /\ o = year_out d.
Proof.
  unfold entry_years. intros Hrun. revert y o.
  refine (for_each_preserves_in (target_body years_data)
            (fun years => forall y o, years !! y = Some o ->
               y ∈ TARGET_YEARS
               /\ exists d, resample years_data y = Ok (Some d) /\ (0 < total d)%Q
                            /\ o = year_out d)
            TARGET_YEARS ∅ years _ _ Hrun).
  - intros t ys ys' Hin Hbody Hys y o Hy. unfold target_body in Hbody.
    destruct (resample years_data t) as [[d|]|] eqn:Hres; cbn [mbind result_bind] in Hbody;
      [|injection Hbody as <-; now apply Hys|discriminate].
    destruct (Qltb 0 (total d)) eqn:Hpos; injection Hbody as <-; [|now apply Hys].
    destruct (decide (t = y)) as [->|Hne].
    + rewrite lookup_insert_eq in Hy. injection Hy as <-.
      split; [exact Hin|].
      exists d. split; [exact Hres|]. split; [now apply Qltb_lt | reflexivity].
    + rewrite lookup_insert_ne in Hy by exact Hne. now apply Hys.
  - intros y o Hy. now rewrite lookup_empty in Hy.
Qed.

Lemma build_output_lookup (county_data : gmap string (gmap Z Agg))
  (output : gmap string (gmap Z YearOut)) (fips : string) (years : gmap Z YearOut) :
  build_output county_data = Ok output ->
  output !! fips = Some years ->
  exists years_data,
    county_data !! fips = Some years_data
    /\ entry_years years_data = Ok years /\ years <> ∅.
Proof.
  rewrite build_output_items. intros [= <-]. rewrite map_lookup_imap.
  destruct (county_data !! fips) as [years_data|]; cbn [mbind option_bind]; [|discriminate].
  destruct (entry_years years_data) as [ys|] eqn:Hys; [|discriminate].
  destruct (size ys =? 0)%nat eqn:Hsz; [discriminate|].
  intros [= <-]. exists years_data. split; [reflexivity|]. split; [exact Hys|].
  intros ->. now rewrite map_size_empty in Hsz.
Qed.

(** X14.  The output of [process_hauer], when no row carries a negative
    value: every county written has at least one year; its years are
    target years; and in each of them the percentages satisfy
    [0 <= pct_85plus <= pct_65plus <= 100] and the rounded populations
    [0 <= pop_85plus <= pop_65plus <= pop_total]. *)
Theorem process_hauer_output_bounds (rows : list Row)
  (output : gmap string (gmap Z YearOut)) (fips : string) (years : gmap Z YearOut) :
  Forall value_not_negative rows ->
  process_hauer rows = Ok output ->
  output !! fips = Some years ->
  years <> ∅
  /\ forall y o, years !! y = Some o ->
       y ∈ TARGET_YEARS
       /\ (0 <= pct_85plus o)%Q /\ (pct_85plus o <= pct_65plus o)%Q
       /\ (pct_65plus o <= 100)%Q
       /\ 0 <= pop_85plus o /\ pop_85plus o <= pop_65plus o
       /\ pop_65plus o <= pop_total o.
Proof.
  intros Hrows Hrun Hfips. unfold process_hauer in Hrun.
  destruct (read_hauer rows) as [county_data|] eqn:Hread; [|discriminate].
  cbn [mbind result_bind] in Hrun.
  destruct (build_output_lookup _ _ _ _ Hrun Hfips) as (years_data & Hcd & Hyears & Hne).
  split; [exact Hne|]. intros y o Hy.
  destruct (entry_years_lookup _ _ _ _ Hyears Hy) as (Hin & d & Hres & Hpos & ->).
  split; [exact Hin|].
  apply year_out_bounds; [|exact Hpos].
  apply (resample_nested years_data y d); [|exact Hres].
  intros y' a Ha.
  pose proof (hauer_nested rows county_data fips y' Hrows Hread) as Hn.
  unfold accumulators in Hn. rewrite Hcd in Hn. cbn [mbind option_bind] in Hn.
  now rewrite Ha in Hn.
Qed.

End hauer_output.

Lemma process_hauer_output_bounds_witness :
  let rows :=
    [ {| YEAR := Parses 2030; STATE := "1"; COUNTY := "1"; AGE := Parses 15;
         SSP2 := Parses 10.5%Q |};
      {| YEAR := Parses 2030; STATE := "1"; COUNTY := "1"; AGE := Parses 3;
         SSP2 := Parses 0.25%Q |} ] in
  exists output years,
    process_data.process_hauer rows = Ok output
    /\ output !! "01001"%string = Some years
    /\ years <> ∅.
Proof.
  intros rows.
  destruct (process_data.process_hauer rows) as [output|e] eqn:Hrun;
    [|exfalso; vm_compute in Hrun; discriminate].
  destruct (output !! "01001"%string) as [years|] eqn:Hfips.
  - exists output, years. split; [reflexivity|]. split; [exact Hfips|].
    apply (process_hauer_output_bounds rows output "01001" years); [|exact Hrun|exact Hfips].
    repeat constructor; cbn; discriminate.
  - exfalso.
    assert (Hc : (process_data.process_hauer rows
                  ≫= fun o => Ok (bool_decide (is_Some (o !! "01001"%string))))
                 = Ok false).
    { rewrite Hrun. cbn [mbind result_bind]. now rewrite Hfips. }
    vm_compute in Hc. discriminate.
Defined.

(** ** More on the county-level scorer *)

Section scorer_groups.

Import process_school_data.

Lemma county_schools_snoc (schools : list School) (s : School) :
  county_schools (schools ++ [s])
  = <[fips s := default [] (county_schools schools !! fips s) ++ [s]]>
      (county_schools schools).
Proof. unfold county_schools. now rewrite foldl_app. Qed.

(** [county_schools] groups the schools by county code, in input order. *)
Lemma county_schools_lookup (schools : list School) (f : string) :
  county_schools schools !! f
  = match filter (fun s => fips s = f) schools with
    | [] => None
    | l => Some l
    end.
Proof.
  induction schools as [|s schools IH] using rev_ind.
  - apply lookup_empty.
  - rewrite county_schools_snoc, filter_app.
    destruct (decide (fips s = f)) as [<-|Hne].
    + rewrite lookup_insert_eq, IH.
      rewrite filter_cons_True by reflexivity. rewrite filter_nil.
      destruct (filter _ schools) as [|s0 l]; reflexivity.
    + rewrite lookup_insert_ne by exact Hne. rewrite IH.
      rewrite filter_cons_False by exact Hne. rewrite filter_nil, app_nil_r.
      reflexivity.
Qed.

Context (hauer_data : gmap string (gmap Z Agg))
  (census_data : option (gmap string CensusCounty))
  (tps_multipliers : scenario -> gmap Z Q).

Lemma county_entry_fields (county_baseline_sa : gmap string Q) (f : string)
  (school_list : list School) (e : Entry) :
  county_entry hauer_data census_data tps_multipliers county_baseline_sa f
    school_list = Ok e ->
  schools_total e = Z.of_nat (length school_list)
  /\ current_enrollment e = total_enrollment_of school_list.
Proof.
  unfold county_entry. destruct (for_each _ _ _) as [scs|]; [|discriminate].
  cbn [mbind result_bind mret result_ret]. intros [= <-]. split; reflexivity.
Qed.

(** X17.  [assemble_risk_data] never raises, and its output has one
    entry per county code that occurs among the schools: the entry
    counts the schools that carry the code and adds up their
    enrollments; a code that no school carries has no entry. *)
Theorem assemble_risk_data_groups (schools : list School)
  (county_baseline_sa : gmap string Q) :
  exists output,
    assemble_risk_data schools hauer_data census_data tps_multipliers
      county_baseline_sa = Ok output
    /\ forall f,
         let school_list := filter (fun s => fips s = f) schools in
         match output !! f with
         | Some e =>
             school_list <> []
             /\ schools_total e = Z.of_nat (length school_list)
             /\ current_enrollment e = foldr Z.add 0 (enrollment <$> school_list)
         | None => school_list = []
         end.
Proof.
  unfold assemble_risk_data.
  rewrite (for_each_items _
             (fun fips school_list =>
                match county_entry hauer_data census_data tps_multipliers
                        county_baseline_sa fips school_list with
                | Ok e => Some e
                | Raise _ => None
                end)).
  - eexists. split; [reflexivity|]. intros f. cbv zeta.
    rewrite map_lookup_imap, county_schools_lookup.
    destruct (filter (fun s => fips s = f) schools) as [|s0 l] eqn:Hl;
      cbn [mbind option_bind]; [reflexivity|].
    destruct (county_entry_partitioned hauer_data census_data tps_multipliers
                county_baseline_sa f (s0 :: l)) as (e & He & _).
    rewrite He. apply county_entry_fields in He as [Hn Hsum].
    split; [discriminate|]. split; [exact Hn | exact Hsum].
  - intros [fips0 l] out. cbn [fst snd].
    destruct (county_entry_partitioned hauer_data census_data tps_multipliers
                county_baseline_sa fips0 l) as (e & -> & _).
    reflexivity.
Qed.

(** X18.  The projected school-age population of the Hauer branch: the
    stored value in a known year, a value between its two neighbours
    strictly inside the known range, and the county's baseline (not
    the nearest known value) beyond either end of the known range. *)
Theorem hauer_proj_sa_cases (fips : string) (yr : Z) (baseline_sa : Q)
  (years_data : gmap Z Agg) :
  hauer_data !! fips = Some years_data ->
  (forall d, years_data !! yr = Some d ->
     hauer_proj_sa hauer_data fips yr baseline_sa = Ok (school_age d))
  /\ ((forall y, is_Some (years_data !! y) -> y < yr)
      \/ (forall y, is_Some (years_data !! y) -> yr < y) ->
      hauer_proj_sa hauer_data fips yr baseline_sa = Ok baseline_sa)
  /\ (forall y1 y2 d1 d2,
        years_data !! y1 = Some d1 -> years_data !! y2 = Some d2 ->
        y1 < yr < y2 ->
        (forall y, is_Some (years_data !! y) -> y <= y1 \/ y2 <= y) ->
        hauer_proj_sa hauer_data fips yr baseline_sa
        = Ok (lerp (fraction yr y1 y2) (school_age d1) (school_age d2))).
Proof.
  intros Hfips. unfold hauer_proj_sa. rewrite Hfips. split; [|split].
  - intros d ->. reflexivity.
  - intros Hout.
    destruct (years_data !! yr) as [d|] eqn:Hyr.
    { exfalso. destruct Hout as [H|H]; specialize (H yr (mk_is_Some _ _ Hyr)); lia. }
    destruct (last _) as [y1|] eqn:Hl; [|reflexivity].
    destruct (head _) as [y2|] eqn:Hh; [|reflexivity].
    exfalso.
    apply last_before_key in Hl as [Hk1 Hle1].
    apply head_after_key in Hh as [Hk2 Hle2].
    destruct Hout as [H|H]; [specialize (H y2 Hk2) | specialize (H y1 Hk1)]; lia.
  - intros y1 y2 d1 d2 H1 H2 Hyr Hgap.
    assert (Hnone : years_data !! yr = None).
    { destruct (years_data !! yr) as [d|] eqn:E; [|reflexivity].
      exfalso. destruct (Hgap yr (mk_is_Some _ _ E)); lia. }
    rewrite Hnone.
    assert (Hbelow : design.nearest_at_or_below years_data yr y1).
    { split; [eauto|]. split; [lia|]. intros y a Hy Hle.
      destruct (Hgap y (mk_is_Some _ _ Hy)); lia. }
    assert (Habove : design.nearest_at_or_above years_data yr y2).
    { split; [eauto|]. split; [lia|]. intros y a Hy Hle.
      destruct (Hgap y (mk_is_Some _ _ Hy)); lia. }
    rewrite (last_before years_data yr y1 Hbelow), (head_after years_data yr y2 Habove).
    destruct (Z.eqb_spec y1 y2) as [->|_]; [lia|].
    unfold subscript. rewrite H1, H2. reflexivity.
Qed.

End scorer_groups.

Lemma hauer_proj_sa_cases_witness :
  let years_data : gmap Z process_school_data.Agg :=
    {[ 2030 := {| process_school_data.school_age := 50;
                  process_school_data.total := 100 |} ]} in
  let hauer_data : gmap string (gmap Z process_school_data.Agg) :=
    {[ "01001"%string := years_data ]} in
  hauer_data !! "01001"%string = Some years_data
  /\ process_school_data.hauer_proj_sa hauer_data "01001" 2035 7 = Ok 7%Q.
Proof.
  intros years_data hauer_data.
  assert (Hfips : hauer_data !! "01001"%string = Some years_data)
    by apply lookup_singleton_eq.
  split; [exact Hfips|].
  apply (proj1 (proj2 (hauer_proj_sa_cases hauer_data "01001" 2035 7 years_data Hfips))).
  left. intros y [d Hy]. apply lookup_singleton_Some in Hy. lia.
Defined.

(** ** From the fertility projections to the closures *)

Section fertility.

Import process_closure_risk.

Context (rate_2022 annual_decline : Q) (census_multipliers : gmap Z Q).

Lemma project_state_lookup (sc : scenario) (y : Z) :
  scenario_data_of (project_state rate_2022 annual_decline census_multipliers) sc !! y
  = if bool_decide (2022 <= y <= 2050) then Some (scenario_year rate_2022 annual_decline census_multipliers sc y) else None.
Proof.
  unfold project_state.
  match goal with |- context [foldl ?F _ _] => set (body := F) end.
  assert (Hgen : forall l proj,
             scenario_data_of (foldl body proj l) sc !! y
             = if bool_decide (y ∈ l) then Some (scenario_year rate_2022 annual_decline census_multipliers sc y)
               else scenario_data_of proj sc !! y).
  { induction l as [|y0 l IH]; intros proj.
    - cbn [foldl]. now rewrite bool_decide_eq_false_2 by apply not_elem_of_nil.
    - cbn [foldl]. rewrite IH.
      destruct (decide (y ∈ l)) as [Hin|Hin].
      + rewrite !bool_decide_eq_true_2; [reflexivity | now right | exact Hin].
      + rewrite (bool_decide_eq_false_2 _ Hin).
        destruct (decide (y = y0)) as [->|Hne].
        * rewrite bool_decide_eq_true_2 by left.
          destruct sc;
            cbn [scenario_data_of body proj_census proj_state_trend scenario_year];
            apply lookup_insert_eq.
        * rewrite bool_decide_eq_false_2
            by (intros H; apply elem_of_cons in H as [?|?]; contradiction).
          destruct sc; cbn [scenario_data_of body proj_census proj_state_trend];
            now apply lookup_insert_ne. }
  rewrite Hgen.
  assert (Hiff : y ∈ range 2022 2051 <-> 2022 <= y <= 2050)
    by (unfold range; rewrite elem_of_seqZ; lia).
  rewrite (bool_decide_ext _ _ Hiff).
  case_bool_decide; [reflexivity|]. destruct sc; apply lookup_empty.
Qed.

(** X19.  Step 4 never fails on what step 3 builds.  For either
    scenario of a state the year loop of [build_fertility_projections]
    writes exactly the years 2022..2050, so that
    [compute_enrollment_decline] raises no [KeyError] and leaves the two
    keys of step 4 in exactly the years 2025..2050. *)
Theorem fertility_decline_pipeline (sc : scenario) :
  let scenario_data :=
    scenario_data_of (project_state rate_2022 annual_decline census_multipliers) sc in
  exists sd',
    compute_enrollment_decline scenario_data = Ok sd'
    /\ forall Y,
         sd' !! Y
         = if bool_decide (2025 <= Y <= 2050)
           then Some (written scenario_data Y (scenario_year rate_2022 annual_decline census_multipliers sc Y))
           else if bool_decide (2022 <= Y <= 2024) then Some (scenario_year rate_2022 annual_decline census_multipliers sc Y)
           else None.
Proof.
  intros scenario_data.
  destruct (compute_enrollment_decline_stores scenario_data) as (sd' & Hrun & Hsd').
  - intros Y HY. unfold scenario_data. rewrite project_state_lookup.
    rewrite bool_decide_eq_true_2 by lia. eauto.
  - exists sd'. split; [exact Hrun|]. intros Y. rewrite (Hsd' Y).
    assert (HY : scenario_data !! Y
                 = if bool_decide (2022 <= Y <= 2050)
                   then Some (scenario_year rate_2022 annual_decline census_multipliers
                                sc Y)
                   else None) by apply project_state_lookup.
    rewrite HY.
    destruct (decide (2025 <= Y <= 2050)) as [H1|H1].
    + rewrite (bool_decide_eq_true_2 (2025 <= Y <= 2050)) by exact H1.
      rewrite (bool_decide_eq_true_2 (2022 <= Y <= 2050)) by lia. reflexivity.
    + rewrite (bool_decide_eq_false_2 (2025 <= Y <= 2050)) by exact H1.
      destruct (decide (2022 <= Y <= 2024)) as [H2|H2].
      * rewrite (bool_decide_eq_true_2 (2022 <= Y <= 2024)) by exact H2.
        rewrite (bool_decide_eq_true_2 (2022 <= Y <= 2050)) by lia. reflexivity.
      * rewrite (bool_decide_eq_false_2 (2022 <= Y <= 2024)) by exact H2.
        rewrite (bool_decide_eq_false_2 (2022 <= Y <= 2050)) by lia. reflexivity.
Qed.

End fertility.

Section fertility_bounds.

Import process_closure_risk.

Lemma Qmax_py_bounds (a b : Q) :
  (a <= Qmax_py a b)%Q /\ (b <= Qmax_py a b)%Q.
Proof.
  unfold Qmax_py. destruct (Qltb a b) eqn:E.
  - apply Qltb_lt in E. split; lra.
  - apply Qltb_ge in E. split; lra.
Qed.

Lemma Qmax_py_least (a b c : Q) : (a <= c)%Q -> (b <= c)%Q -> (Qmax_py a b <= c)%Q.
Proof. intros Ha Hb. unfold Qmax_py. now destruct (Qltb a b). Qed.

Lemma Qmax_py_le (a a' b : Q) : (a <= a')%Q -> (Qmax_py a b <= Qmax_py a' b)%Q.
Proof.
  intros H. destruct (Qmax_py_bounds a' b) as [H1 H2].
  apply Qmax_py_least; lra.
Qed.

(** The decline of a target year stays within the bounds of the birth
    declines. *)
Lemma lagged_decline_bounds (scenario_data : gmap Z YearData) (Y : Z) (B : Q) :
  (0 <= B)%Q ->
  (forall b, (0 <= bd scenario_data b <= B)%Q) ->
  (0 <= enrollment_decline_pct (lagged_decline scenario_data Y) <= B)%Q.
Proof.
  intros HB Hbd.
  destruct (enrollment_decline_pct_unfold scenario_data Y) as [Hedp Hfrac].
  pose proof (avg_birth_decline_mean scenario_data Y) as Havg.
  pose proof (post_2022_grades_count scenario_data Y) as Hg.
  rewrite affected_count in Hg.
  set (d := lagged_decline scenario_data Y) in *.
  assert (Hf : (0 <= post_2022_fraction d <= 1)%Q).
  { rewrite Hfrac, Hg.
    assert (H0 : (0 <= inject_Z (Z.max 0 (Z.min 13 (Y - 2027))))%Q).
    { change 0%Q with (inject_Z 0). rewrite <- Zle_Qle. lia. }
    assert (H1 : (inject_Z (Z.max 0 (Z.min 13 (Y - 2027))) <= 13)%Q).
    { change 13%Q with (inject_Z 13). rewrite <- Zle_Qle. lia. }
    change (inject_Z 13) with 13%Q.
    split.
    - apply Qle_shift_div_l; [reflexivity | lra].
    - apply Qle_shift_div_r; [reflexivity | lra]. }
  assert (Hm : (0 <= avg_birth_decline d <= B)%Q).
  { rewrite Havg. apply mean_bounds; [exact HB|].
    apply Forall_fmap, Forall_forall. intros b _. apply Hbd. }
  rewrite Hedp. destruct Hf as [Hf0 Hf1], Hm as [Hm0 Hm1]. split; nra.
Qed.

Context (rate_2022 annual_decline : Q).
Hypothesis rate_above_floor : (FERTILITY_FLOOR <= rate_2022)%Q.
Hypothesis decline_is_a_rate : (0 <= annual_decline <= 1)%Q.

(** The floored trend rate and its multiplier. *)
Lemma trend_rate_bounds (year : Z) :
  2022 <= year ->
  let trend_rate :=
    Qmax_py (rate_2022 * (1 - annual_decline) ^ (year - 2022)) FERTILITY_FLOOR in
  (FERTILITY_FLOOR <= trend_rate <= rate_2022)%Q
  /\ (0 <= (1 - trend_rate / rate_2022) * 100 <= 100)%Q.
Proof.
  intros Hy trend_rate. unfold FERTILITY_FLOOR in *.
  destruct (Qpower_unit_le_1 (1 - annual_decline) (year - 2022)) as [Hp0 Hp1];
    [lra | lia |].
  destruct (Qmax_py_bounds (rate_2022 * (1 - annual_decline) ^ (year - 2022)) 35)
    as [_ Hfloor].
  assert (Hle : (trend_rate <= rate_2022)%Q).
  { apply Qmax_py_least; [nra | exact rate_above_floor]. }
  split; [split; [exact Hfloor | exact Hle]|].
  assert (Hm0 : (0 <= trend_rate / rate_2022)%Q)
    by (apply Qle_shift_div_l; fold trend_rate in Hfloor; lra).
  assert (Hm1 : (trend_rate / rate_2022 <= 1)%Q)
    by (apply Qle_shift_div_r; lra).
  lra.
Qed.

Lemma trend_rate_falls (year year' : Z) :
  2022 <= year <= year' ->
  (Qmax_py (rate_2022 * (1 - annual_decline) ^ (year' - 2022)) FERTILITY_FLOOR
   <= Qmax_py (rate_2022 * (1 - annual_decline) ^ (year - 2022)) FERTILITY_FLOOR)%Q.
Proof.
  intros Hy. apply Qmax_py_le.
  assert (Hp : ((1 - annual_decline) ^ (year' - 2022)
                <= (1 - annual_decline) ^ (year - 2022))%Q)
    by (apply Qpower_unit_antitone; [lra | lia]).
  unfold FERTILITY_FLOOR in rate_above_floor. nra.
Qed.

Lemma trend_decline_bounds (year : Z) :
  2022 <= year ->
  (0 <= birth_decline_pct (state_trend_year rate_2022 annual_decline year) <= 100)%Q.
Proof.
  intros Hy. unfold state_trend_year, projected_year. cbn [birth_decline_pct].
  destruct (trend_rate_bounds year Hy) as [_ Hb]. cbv zeta in Hb.
  apply (py_round_between 0 100); [lia | exact Hb].
Qed.

(** X20.  The state-trend scenario of a state whose 2022 rate is at or
    above the fertility floor, for a decline rate between 0 and 1: from
    2022 on the projected rate never rises and never goes below the
    floor, and the birth decline never falls and stays within
    [0, 100]. *)
Theorem state_trend_floor (year year' : Z) :
  2022 <= year <= year' ->
  let e := state_trend_year rate_2022 annual_decline year in
  let e' := state_trend_year rate_2022 annual_decline year' in
  (FERTILITY_FLOOR <= rate e')%Q /\ (rate e' <= rate e)%Q
  /\ (0 <= birth_decline_pct e)%Q
  /\ (birth_decline_pct e <= birth_decline_pct e')%Q
  /\ (birth_decline_pct e' <= 100)%Q.
Proof.
  intros Hy e e'. unfold e, e', state_trend_year, projected_year.
  cbn [rate birth_decline_pct].
  destruct (trend_rate_bounds year ltac:(lia)) as [[Hf Hr] Hb].
  destruct (trend_rate_bounds year' ltac:(lia)) as [[Hf' Hr'] Hb'].
  pose proof (trend_rate_falls year year' Hy) as Hfall.
  cbv zeta in Hf, Hr, Hb, Hf', Hr', Hb'.
  assert (Hpos : (0 < rate_2022)%Q) by (unfold FERTILITY_FLOOR in *; lra).
  split; [|split; [|split; [|split]]].
  - unfold FERTILITY_FLOOR at 1.
    apply (Qle_trans _ (py_round 35 2)).
    + rewrite (py_round_inject 35 2) by lia. apply Qle_refl.
    + apply py_round_le. exact Hf'.
  - apply py_round_le, Hfall.
  - apply (py_round_between 0 100); [lia | exact Hb].
  - apply py_round_le.
    assert (Hdiv : (Qmax_py (rate_2022 * (1 - annual_decline) ^ (year' - 2022))
                      FERTILITY_FLOOR / rate_2022
                    <= Qmax_py (rate_2022 * (1 - annual_decline) ^ (year - 2022))
                         FERTILITY_FLOOR / rate_2022)%Q).
    { unfold Qdiv. apply Qmult_le_compat_r; [exact Hfall|].
      apply Qlt_le_weak, Qinv_lt_0_compat, Hpos. }
    lra.
  - apply (py_round_between 0 100); [lia | exact Hb'].
Qed.

End fertility_bounds.

Lemma state_trend_floor_witness :
  (process_closure_risk.FERTILITY_FLOOR
   <= process_closure_risk.rate
        (process_closure_risk.state_trend_year 60 (1 # 100) 2040))%Q
  /\ (process_closure_risk.birth_decline_pct
        (process_closure_risk.state_trend_year 60 (1 # 100) 2030)
      <= process_closure_risk.birth_decline_pct
           (process_closure_risk.state_trend_year 60 (1 # 100) 2040))%Q.
Proof.
  assert (Hr : (process_closure_risk.FERTILITY_FLOOR <= 60)%Q) by discriminate.
  assert (Ha : (0 <= 1 # 100 <= 1)%Q) by (split; discriminate).
  assert (Hy : 2022 <= 2030 <= 2040) by lia.
  pose proof (state_trend_floor 60 (1 # 100) Hr Ha 2030 2040 Hy) as H.
  cbv zeta in H. split; [exact (proj1 H) | exact (proj1 (proj2 (proj2 (proj2 H))))].
Defined.

Section fertility_to_closures.

Import process_closure_risk.

Context (rate_2022 annual_decline : Q) (census_multipliers : gmap Z Q).
Hypothesis rate_above_floor : (FERTILITY_FLOOR <= rate_2022)%Q.
Hypothesis decline_is_a_rate : (0 <= annual_decline <= 1)%Q.
Hypothesis multipliers_are_fractions :
  map_Forall (fun _ mult => 0 <= mult <= 1)%Q census_multipliers.

Lemma census_year_bounds (year : Z) :
  (0 <= birth_decline_pct (census_year rate_2022 census_multipliers year) <= 100)%Q.
Proof.
  unfold census_year, projected_year. cbn [birth_decline_pct].
  assert (Hm : (0 <= default 1 (census_multipliers !! year) <= 1)%Q).
  { destruct (census_multipliers !! year) as [mult|] eqn:E; cbn [default].
    - exact (map_Forall_lookup_1 _ _ _ _ multipliers_are_fractions E).
    - split; discriminate. }
  apply (py_round_between 0 100); [lia|].
  change (inject_Z 0) with 0%Q. change (inject_Z 100) with 100%Q. split; lra.
Qed.

Lemma projected_bd_bounds (sc : scenario) (b : Z) :
  (0 <= bd (scenario_data_of
              (project_state rate_2022 annual_decline census_multipliers) sc) b
   <= 100)%Q.
Proof.
  unfold bd. rewrite project_state_lookup.
  case_bool_decide as Hb; cbn [fmap option_fmap option_map default];
    [|split; discriminate].
  destruct sc; cbn [scenario_year].
  - apply census_year_bounds.
  - pose proof (trend_decline_bounds rate_2022 annual_decline rate_above_floor
                  decline_is_a_rate b ltac:(lia)) as H.
    exact H.
Qed.

(** X21.  From step 3 to step 5, for a state whose 2022 rate is at or
    above the floor, a decline rate between 0 and 1 and census
    multipliers between 0 and 1: under either scenario the decline ratio
    that [estimate_closures] reads for any year lies in [0, 1], and the
    enrollment it projects for a state lies between 0 and the state's
    current enrollment. *)
Theorem projected_decline_is_a_fraction (sc : scenario) (schools : StateSchools)
  (target_year : Z) :
  0 <= total_enrollment schools ->
  exists sd',
    compute_enrollment_decline
      (scenario_data_of (project_state rate_2022 annual_decline census_multipliers) sc)
    = Ok sd'
    /\ (0 <= decline_ratio_of sd' target_year <= 1)%Q
    /\ 0 <= projected_enrollment (estimate_year schools sd' target_year)
       <= total_enrollment schools.
Proof.
  intros Henr.
  set (sd := scenario_data_of
               (project_state rate_2022 annual_decline census_multipliers) sc).
  destruct (compute_enrollment_decline_stores sd) as (sd' & Hrun & Hsd').
  { intros Y HY. unfold sd. rewrite project_state_lookup.
    rewrite bool_decide_eq_true_2 by lia. eauto. }
  exists sd'. split; [exact Hrun|].
  assert (Hratio : (0 <= decline_ratio_of sd' target_year <= 1)%Q).
  { unfold decline_ratio_of.
    assert (Hkey : sd !! target_year
                   = if bool_decide (2022 <= target_year <= 2050)
                     then Some (scenario_year rate_2022 annual_decline
                                  census_multipliers sc target_year)
                     else None) by apply project_state_lookup.
    assert (Hpct : (0 <= default 0 (sd' !! target_year ≫= key_enrollment_decline_pct)
                    <= 100)%Q).
    { rewrite (Hsd' target_year), Hkey.
      destruct (decide (2025 <= target_year <= 2050)) as [H1|H1].
      - rewrite (bool_decide_eq_true_2 (2025 <= target_year <= 2050)) by exact H1.
        rewrite (bool_decide_eq_true_2 (2022 <= target_year <= 2050)) by lia.
        cbn [fmap option_fmap option_map mbind option_bind written
             key_enrollment_decline_pct default].
        apply (py_round_between 0 100); [lia|].
        apply (lagged_decline_bounds sd target_year 100); [discriminate|].
        intros b. apply projected_bd_bounds.
      - rewrite (bool_decide_eq_false_2 (2025 <= target_year <= 2050)) by exact H1.
        destruct (bool_decide (2022 <= target_year <= 2050));
          [destruct sc|]; cbn; split; discriminate. }
    destruct Hpct as [Hp0 Hp1]. split.
    - apply Qle_shift_div_l; [reflexivity | lra].
    - apply Qle_shift_div_r; [reflexivity | lra]. }
  split; [exact Hratio|].
  rewrite estimate_year_fields. cbn [projected_enrollment].
  assert (He : (0 <= inject_Z (total_enrollment schools))%Q)
    by (change 0%Q with (inject_Z 0); now rewrite <- Zle_Qle).
  destruct Hratio as [Hr0 Hr1]. split.
  - rewrite <- (round_half_even_inject 0). apply round_half_even_le.
    change (inject_Z 0) with 0%Q. nra.
  - rewrite <- (round_half_even_inject (total_enrollment schools)) at 2.
    apply round_half_even_le. nra.
Qed.

End fertility_to_closures.

Lemma projected_decline_is_a_fraction_witness :
  exists sd',
    process_closure_risk.compute_enrollment_decline
      (process_closure_risk.scenario_data_of
         (process_closure_risk.project_state 60 (1 # 100) {[ 2030 := (9 # 10)%Q ]})
         process_closure_risk.state_trend)
    = Ok sd'
    /\ (0 <= process_closure_risk.decline_ratio_of sd' 2030 <= 1)%Q.
Proof.
  assert (Hr : (process_closure_risk.FERTILITY_FLOOR <= 60)%Q) by discriminate.
  assert (Ha : (0 <= 1 # 100 <= 1)%Q) by (split; discriminate).
  assert (Hcm : map_Forall (fun (_ : Z) mult => 0 <= mult <= 1)%Q
                  ({[ 2030 := (9 # 10)%Q ]} : gmap Z Q)).
  { apply map_Forall_singleton. split; discriminate. }
  assert (Henr : 0 <= process_closure_risk.total_enrollment
                        process_closure_risk.empty_state) by reflexivity.
  destruct (projected_decline_is_a_fraction 60 (1 # 100) {[ 2030 := (9 # 10)%Q ]}
              Hr Ha Hcm process_closure_risk.state_trend
              process_closure_risk.empty_state 2030 Henr) as (sd' & Hrun & Hratio & _).
  exists sd'. split; [exact Hrun | exact Hratio].
Defined.

(** ** The national birth trajectory *)

Section trajectory.

Import process_closure_risk.

Lemma foldl_max_spec (l : list Z) (x : Z) :
  foldl Z.max x l ∈ x :: l /\ Forall (fun z => z <= foldl Z.max x l) (x :: l).
Proof.
  revert x. induction l as [|z l IH]; intros x.
  - cbn. split; [left | repeat constructor; lia].
  - cbn [foldl]. destruct (IH (Z.max x z)) as [Hin Hall].
    apply Forall_cons in Hall as [Hm Hall]. split.
    + apply elem_of_cons in Hin as [Hin|Hin].
      * rewrite Hin. destruct (Z.max_spec x z) as [[_ ->]|[_ ->]];
          [right; left | left].
      * right. now right.
    + constructor; [lia|]. constructor; [lia | exact Hall].
Qed.

Lemma foldl_min_spec (l : list Z) (x : Z) :
  foldl Z.min x l ∈ x :: l /\ Forall (fun z => foldl Z.min x l <= z) (x :: l).
Proof.
  revert x. induction l as [|z l IH]; intros x.
  - cbn. split; [left | repeat constructor; lia].
  - cbn [foldl]. destruct (IH (Z.min x z)) as [Hin Hall].
    apply Forall_cons in Hall as [Hm Hall]. split.
    + apply elem_of_cons in Hin as [Hin|Hin].
      * rewrite Hin. destruct (Z.min_spec x z) as [[_ ->]|[_ ->]];
          [left | right; left].
      * right. now right.
    + constructor; [lia|]. constructor; [lia | exact Hall].
Qed.

Lemma py_max_filter (years : list Z) (y : Z) :
  match py_max (filter (fun yr => yr <= y) years) with
  | Ok lower => lower ∈ years /\ lower <= y
  | Raise e => e = ValueError /\ Forall (fun yr => ~ yr <= y) years
  end.
Proof.
  unfold py_max. destruct (filter _ years) as [|x l] eqn:Hf.
  - split; [reflexivity|]. apply Forall_forall. intros yr Hin Hle.
    assert (H : yr ∈ filter (fun yr => yr <= y) years)
      by (apply list_elem_of_filter; auto).
    rewrite Hf in H. now apply not_elem_of_nil in H.
  - destruct (foldl_max_spec l x) as [Hin _]. rewrite <- Hf in Hin.
    apply list_elem_of_filter in Hin. tauto.
Qed.

Lemma py_min_filter (years : list Z) (y : Z) :
  match py_min (filter (fun yr => y <= yr) years) with
  | Ok upper => upper ∈ years /\ y <= upper
  | Raise e => e = ValueError /\ Forall (fun yr => ~ y <= yr) years
  end.
Proof.
  unfold py_min. destruct (filter _ years) as [|x l] eqn:Hf.
  - split; [reflexivity|]. apply Forall_forall. intros yr Hin Hle.
    assert (H : yr ∈ filter (fun yr => y <= yr) years)
      by (apply list_elem_of_filter; auto).
    rewrite Hf in H. now apply not_elem_of_nil in H.
  - destruct (foldl_min_spec l x) as [Hin _]. rewrite <- Hf in Hin.
    apply list_elem_of_filter in Hin. tauto.
Qed.

Lemma multipliers_of_lookup (kept : list (Z * Q)) (baseline : Q) (y : Z) :
  (is_Some (multipliers_of kept baseline !! y) <-> y ∈ fst <$> kept)
  /\ forall m, multipliers_of kept baseline !! y = Some m ->
       exists val, (y, val) ∈ kept /\ m = (val / baseline)%Q.
Proof.
  unfold multipliers_of.
  induction kept as [|[y0 v0] kept IH] using rev_ind.
  - cbn. rewrite lookup_empty. split.
    + split; [intros H; now apply is_Some_None in H|].
      intros H. now apply not_elem_of_nil in H.
    + discriminate.
  - rewrite foldl_app. cbn [foldl fst snd]. rewrite fmap_app, elem_of_app.
    destruct IH as [IHk IHv].
    destruct (decide (y0 = y)) as [->|Hne].
    + rewrite lookup_insert_eq. split.
      * split; [intros _; right; left | eauto].
      * intros m [= <-]. exists v0. split; [|reflexivity].
        apply elem_of_app. right. left.
    + rewrite lookup_insert_ne by exact Hne. split.
      * rewrite IHk. cbn. rewrite list_elem_of_singleton.
        split; [tauto | intros [H|H]; [exact H | congruence]].
      * intros m Hm. destruct (IHv m Hm) as (val & Hin & ->).
        exists val. split; [|reflexivity]. apply elem_of_app. now left.
Qed.

Lemma for_each_writes {V : Type} (body : Z -> gmap Z V -> result (gmap Z V))
  (Pv : V -> Prop) (l : list Z) (am : gmap Z V) :
  (forall y am, y ∈ l -> exists v, body y am = Ok (<[y := v]> am) /\ Pv v) ->
  exists am',
    for_each body l am = Ok am'
    /\ (forall k, is_Some (am' !! k) <-> k ∈ l \/ is_Some (am !! k))
    /\ (forall k v, am' !! k = Some v -> Pv v \/ am !! k = Some v).
Proof.
  revert am. induction l as [|y l IH]; intros am Hbody.
  - exists am. split; [reflexivity|]. split.
    + intros k. rewrite elem_of_nil. tauto.
    + intros k v Hk. now right.
  - destruct (Hbody y am) as (v & Hy & Hv); [left|].
    destruct (IH (<[y := v]> am)) as (am' & Hrun & Hkeys & Hvals).
    { intros y' am1 Hin. apply Hbody. now right. }
    exists am'. cbn [for_each]. rewrite Hy. split; [exact Hrun|]. split.
    + intros k. rewrite (Hkeys k), elem_of_cons.
      destruct (decide (k = y)) as [->|Hne].
      * rewrite lookup_insert_eq. split; [intros _; left; now left | intros _; right; eauto].
      * rewrite lookup_insert_ne by congruence. tauto.
    + intros k w Hk. destruct (Hvals k w Hk) as [H|H]; [now left|].
      destruct (decide (k = y)) as [->|Hne].
      * rewrite lookup_insert_eq in H. injection H as <-. now left.
      * rewrite lookup_insert_ne in H by congruence. now right.
Qed.

Lemma for_each_raises {B S : Type} (body : B -> S -> result S) (e : exn)
  (l : list B) (s : S) :
  Exists (fun b => forall s, body b s = Raise e) l ->
  Forall (fun b => forall s, body b s = Raise e \/ exists s', body b s = Ok s') l ->
  for_each body l s = Raise e.
Proof.
  revert s. induction l as [|b l IH]; intros s Hex Hall.
  - inversion Hex.
  - apply Forall_cons in Hall as [Hb Hall]. cbn [for_each].
    destruct (Hb s) as [->|[s' Hs']]; [reflexivity|].
    rewrite Hs'. apply IH; [|exact Hall].
    apply Exists_cons in Hex as [Hex|Hex]; [|exact Hex].
    rewrite Hex in Hs'. discriminate.
Qed.

Context (kept : list (Z * Q)) (baseline : Q).

Lemma annual_body_bracketed (lo hi : Q) (y : Z) (am : gmap Z Q) :
  bracketed (fst <$> kept) y ->
  exists v,
    annual_body (fst <$> kept) (multipliers_of kept baseline) y am = Ok (<[y := v]> am)
    /\ (Forall (fun yv => lo <= snd yv / baseline <= hi)%Q kept -> (lo <= v <= hi)%Q).
Proof.
  intros [Hbelow Habove]. unfold annual_body.
  destruct (multipliers_of_lookup kept baseline y) as [Hkey Hval].
  destruct (multipliers_of kept baseline !! y) as [m|] eqn:Hm.
  - exists m. split; [reflexivity|]. intros Hall.
    destruct (Hval m eq_refl) as (val & Hin & ->).
    exact (proj1 (Forall_forall _ _) Hall (y, val) Hin).
  - assert (Hy : y ∉ fst <$> kept).
    { intros H. apply Hkey in H. now apply is_Some_None in H. }
    pose proof (py_max_filter (fst <$> kept) y) as Hmax.
    destruct (py_max _) as [lower|e].
    2: { exfalso. destruct Hmax as [_ Hnone].
         apply Exists_exists in Hbelow as (yr & Hin & Hle).
         exact (proj1 (Forall_forall _ _) Hnone yr Hin Hle). }
    pose proof (py_min_filter (fst <$> kept) y) as Hmin.
    destruct (py_min _) as [upper|e].
    2: { exfalso. destruct Hmin as [_ Hnone].
         apply Exists_exists in Habove as (yr & Hin & Hle).
         exact (proj1 (Forall_forall _ _) Hnone yr Hin Hle). }
    destruct Hmax as [Hl1 Hl2], Hmin as [Hu1 Hu2].
    assert (lower <> y) by (intros ->; contradiction).
    assert (upper <> y) by (intros ->; contradiction).
    cbn [mbind result_bind].
    destruct (Z.eqb_spec lower upper) as [Heq|_]; [lia|].
    destruct (proj2 (proj1 (multipliers_of_lookup kept baseline lower)) Hl1)
      as [ml Hml].
    destruct (proj2 (proj1 (multipliers_of_lookup kept baseline upper)) Hu1)
      as [mu Hmu].
    unfold subscript. rewrite Hml, Hmu. cbn [mbind result_bind mret result_ret].
    eexists. split; [reflexivity|]. intros Hall.
    destruct (proj2 (multipliers_of_lookup kept baseline lower) ml Hml)
      as (v1 & Hin1 & ->).
    destruct (proj2 (multipliers_of_lookup kept baseline upper) mu Hmu)
      as (v2 & Hin2 & ->).
    pose proof (proj1 (Forall_forall _ _) Hall (lower, v1) Hin1) as H1.
    pose proof (proj1 (Forall_forall _ _) Hall (upper, v2) Hin2) as H2.
    cbn [snd] in H1, H2.
    destruct (fraction_unit y lower upper ltac:(lia)) as [Ht0 Ht1].
    apply (lerp_between (fraction y lower upper) lo hi); [lra | exact H1 | exact H2].
Qed.

Lemma annual_body_unbracketed (y : Z) (am : gmap Z Q) :
  ~ bracketed (fst <$> kept) y ->
  annual_body (fst <$> kept) (multipliers_of kept baseline) y am = Raise ValueError.
Proof.
  intros Hnot. unfold annual_body.
  destruct (multipliers_of_lookup kept baseline y) as [Hkey _].
  destruct (multipliers_of kept baseline !! y) as [m|] eqn:Hm.
  { exfalso. apply Hnot.
    assert (Hin : y ∈ fst <$> kept) by (apply Hkey; eauto).
    split; apply Exists_exists; exists y; (split; [exact Hin | lia]). }
  pose proof (py_max_filter (fst <$> kept) y) as Hmax.
  destruct (py_max _) as [lower|e]; [|now destruct Hmax as [-> _]].
  pose proof (py_min_filter (fst <$> kept) y) as Hmin.
  destruct (py_min _) as [upper|e]; [|now destruct Hmin as [-> _]].
  exfalso. apply Hnot. destruct Hmax, Hmin.
  split; apply Exists_exists; eauto.
Qed.

End trajectory.

Section trajectory_outcomes.

Import process_closure_risk.

(** X22.  [extract_census_birth_trajectory] fails with [IndexError] on a
    table without a usable column; otherwise it returns multipliers for
    exactly the years 2022..2050 when the table has a year at or before
    2022 and a year at or after 2050, and fails with [ValueError] when
    it has not: a year outside the known range is never extrapolated. *)
Theorem trajectory_outcome (columns : list (option Z * option Q)) :
  let years := fst <$> read_columns columns in
  match extract_census_birth_trajectory columns with
  | None => read_columns columns = []
  | Some (Ok annual_multipliers) =>
      bracketed years 2022 /\ bracketed years 2050
      /\ forall y, is_Some (annual_multipliers !! y) <-> 2022 <= y <= 2050
  | Some (Raise e) =>
      e = ValueError /\ ~ (bracketed years 2022 /\ bracketed years 2050)
  end.
Proof.
  intros years. unfold extract_census_birth_trajectory. fold years.
  destruct (read_columns columns) as [|[y0 base] rest] eqn:Hkept; [reflexivity|].
  cbn [fmap list_fmap snd].
  change (snd <$> (y0, base) :: rest) with (base :: (snd <$> rest)).
  cbv iota.
  set (kept := (y0, base) :: rest) in *.
  destruct (decide (bracketed years 2022 /\ bracketed years 2050)) as [Hcov|Hcov].
  - destruct (for_each_writes (annual_body years (multipliers_of kept base))
                (fun _ => True) (range 2022 2051) ∅) as (am & Hrun & Hkeys & _).
    { intros y am Hy. unfold range in Hy. apply elem_of_seqZ in Hy.
      destruct (annual_body_bracketed kept base 0 0 y am) as (v & Hv & _).
      - destruct Hcov as [[H1 _] [_ H2]]. split.
        + eapply Exists_impl; [exact H1|]. cbv beta. intros. lia.
        + eapply Exists_impl; [exact H2|]. cbv beta. intros. lia.
      - exists v. split; [exact Hv | exact I]. }
    rewrite Hrun. split; [tauto|]. split; [tauto|].
    intros y. rewrite (Hkeys y), lookup_empty. unfold range. rewrite elem_of_seqZ.
    split; [intros [H|H]; [lia | now apply is_Some_None in H] | intros H; left; lia].
  - rewrite (for_each_raises _ ValueError).
    + split; [reflexivity | exact Hcov].
    + destruct (decide (bracketed years 2022)) as [H22|H22].
      * assert (H50 : ~ bracketed years 2050) by tauto.
        apply Exists_exists. exists 2050. split.
        -- unfold range. apply elem_of_seqZ. lia.
        -- intros am. now apply annual_body_unbracketed.
      * apply Exists_exists. exists 2022. split.
        -- unfold range. apply elem_of_seqZ. lia.
        -- intros am. now apply annual_body_unbracketed.
    + apply Forall_forall. intros y _ am.
      destruct (decide (bracketed years y)) as [Hy|Hy].
      * right. destruct (annual_body_bracketed kept base 0 0 y am Hy) as (v & Hv & _).
        eauto.
      * left. now apply annual_body_unbracketed.
Qed.

End trajectory_outcomes.

(** X23.  The multipliers of the trajectory never leave the range of
    the table: when every value of the table over the baseline (the
    first value) lies between two bounds, so does every annual
    multiplier, interpolated or not. *)
Theorem trajectory_stays_in_range (columns : list (option Z * option Q))
  (year_0 : Z) (baseline : Q) (rest : list (Z * Q))
  (annual_multipliers : gmap Z Q) (lo hi : Q) :
  process_closure_risk.read_columns columns = (year_0, baseline) :: rest ->
  Forall (fun yv => lo <= snd yv / baseline <= hi)%Q ((year_0, baseline) :: rest) ->
  process_closure_risk.extract_census_birth_trajectory columns
  = Some (Ok annual_multipliers) ->
  map_Forall (fun _ mult => lo <= mult <= hi)%Q annual_multipliers.
Proof.
  intros Hkept Hall. unfold process_closure_risk.extract_census_birth_trajectory.
  rewrite Hkept. intros Hrun.
  assert (Hloop : for_each
                    (process_closure_risk.annual_body
                       (fst <$> (year_0, baseline) :: rest)
                       (process_closure_risk.multipliers_of
                          ((year_0, baseline) :: rest) baseline))
                    (range 2022 2051) ∅
                  = Ok annual_multipliers)
    by exact (inj Some _ _ Hrun).
  clear Hrun. revert Hloop.
  apply (for_each_preserves _ (map_Forall (fun _ mult => lo <= mult <= hi)%Q)).
  - intros y am am' Hbody Ham.
    destruct (decide (bracketed (fst <$> (year_0, baseline) :: rest) y)) as [Hy|Hy].
    + destruct (annual_body_bracketed ((year_0, baseline) :: rest) baseline lo hi y am Hy)
        as (v & Hv & Hbound).
      rewrite Hv in Hbody. injection Hbody as <-.
      apply map_Forall_insert_2; [exact (Hbound Hall) | exact Ham].
    + rewrite (annual_body_unbracketed ((year_0, baseline) :: rest) baseline y am Hy)
        in Hbody.
      discriminate.
  - apply map_Forall_empty.
Qed.

Lemma trajectory_stays_in_range_witness :
  exists annual_multipliers,
    process_closure_risk.extract_census_birth_trajectory
      [ (Some 2022, Some 100%Q); (None, Some 7%Q); (Some 2050, Some 80%Q) ]
    = Some (Ok annual_multipliers)
    /\ map_Forall (fun _ mult => 0 <= mult <= 1)%Q annual_multipliers.
Proof.
  destruct (process_closure_risk.extract_census_birth_trajectory
              [ (Some 2022, Some 100%Q); (None, Some 7%Q); (Some 2050, Some 80%Q) ])
    as [[annual_multipliers|e]|] eqn:Hrun;
    [|exfalso; vm_compute in Hrun; discriminate..].
  exists annual_multipliers. split; [reflexivity|].
  apply (trajectory_stays_in_range
           [ (Some 2022, Some 100%Q); (None, Some 7%Q); (Some 2050, Some 80%Q) ]
           2022 100 [(2050, 80%Q)] annual_multipliers 0 1);
    [reflexivity | | exact Hrun].
  repeat constructor; cbn; discriminate.
Defined.

(** ** The TPS share multipliers *)

Section tps_multipliers.

Import process_school_data.

Lemma py_div_defined (a b : Q) : ~ (b == 0)%Q -> py_div a b = Some (a / b)%Q.
Proof.
  intros Hb. unfold py_div. destruct (Qeq_bool b 0) eqn:E; [|reflexivity].
  apply Qeq_bool_iff in E. contradiction.
Qed.

Lemma average_defined (shares : list Q) :
  shares <> [] ->
  average shares = Some (Qsum shares / inject_Z (Z.of_nat (length shares)))%Q.
Proof.
  intros Hne. unfold average. apply py_div_defined.
  change 0%Q with (inject_Z 0). rewrite inject_Z_injective.
  destruct shares; [contradiction | cbn [length]; lia].
Qed.

Lemma average_empty : average [] = None.
Proof. reflexivity. Qed.

Lemma linear_fit_defined (shares : list Q) :
  shares <> [] -> is_Some (linear_fit shares).
Proof.
  intros Hne. unfold linear_fit. rewrite (average_defined shares Hne).
  cbn [mbind option_bind]. eauto.
Qed.

(** The multiplier that the loop writes for a scenario and year. *)
Lemma scenario_multipliers_lookup (pre_avg post_avg : Q) (pre_fit post_fit : Q * Q)
  (current_share : Q) (sc : scenario) :
  ~ (current_share == 0)%Q ->
  exists multipliers,
    scenario_multipliers pre_avg post_avg pre_fit post_fit current_share sc
    = Some multipliers
    /\ forall yr,
         multipliers !! yr
         = if bool_decide (yr ∈ YEARS)
           then Some (py_round
                        (process_closure_risk.Qmax_py
                           (future_share pre_avg post_avg pre_fit post_fit sc yr)
                           (current_share * 0.5)
                         / current_share) 4)
           else None.
Proof.
  intros Hc. unfold scenario_multipliers.
  match goal with |- context [foldl ?F _ _] => set (body := F) end.
  assert (Hgen : forall l m0,
             exists m, foldl body (Some m0) l = Some m
                       /\ forall yr,
                            m !! yr
                            = if bool_decide (yr ∈ l)
                              then Some (py_round
                                           (process_closure_risk.Qmax_py
                                              (future_share pre_avg post_avg pre_fit
                                                 post_fit sc yr)
                                              (current_share * 0.5)
                                            / current_share) 4)
                              else m0 !! yr).
  { induction l as [|y l IH]; intros m0.
    - exists m0. split; [reflexivity|]. intros yr.
      now rewrite bool_decide_eq_false_2 by apply not_elem_of_nil.
    - cbn [foldl]. unfold body at 2. cbn [mbind option_bind].
      rewrite (py_div_defined _ _ Hc). cbn [mbind option_bind].
      destruct (IH (<[y := py_round
                            (process_closure_risk.Qmax_py
                               (future_share pre_avg post_avg pre_fit post_fit sc y)
                               (current_share * 0.5)
                             / current_share) 4]> m0)) as (m & Hm & Hlook).
      exists m. split; [exact Hm|]. intros yr. rewrite (Hlook yr).
      destruct (decide (yr ∈ l)) as [Hin|Hin].
      + rewrite !bool_decide_eq_true_2; [reflexivity | now right | exact Hin].
      + rewrite (bool_decide_eq_false_2 _ Hin).
        destruct (decide (yr = y)) as [->|Hne].
        * rewrite bool_decide_eq_true_2 by left. apply lookup_insert_eq.
        * rewrite bool_decide_eq_false_2
            by (intros H; apply elem_of_cons in H as [?|?]; contradiction).
          now apply lookup_insert_ne. }
  destruct (Hgen YEARS ∅) as (m & Hm & Hlook).
  exists m. split; [exact Hm|]. intros yr. rewrite (Hlook yr).
  case_bool_decide; [reflexivity | apply lookup_empty].
Qed.

Lemma half_rounds_to_half : (1 # 2 <= py_round (1 # 2) 4)%Q.
Proof. apply Qle_bool_iff. vm_compute. reflexivity. Qed.

(** X24.  [compute_tps_multipliers] with a positive current share: it
    fails only on an empty series; otherwise every scenario has a
    multiplier for each of the years, so that the default 1.0 of
    [assemble_risk_data] is never used for them, and no multiplier is
    below 0.5. *)
Theorem tps_multipliers_floor (pre_shares post_shares : list Q) (current_share : Q) :
  (0 < current_share)%Q ->
  match compute_tps_multipliers pre_shares post_shares current_share with
  | None => pre_shares = [] \/ post_shares = []
  | Some multipliers =>
      forall sc yr, yr ∈ YEARS ->
        exists mult,
          multipliers sc !! yr = Some mult
          /\ tps_mult multipliers sc yr = mult
          /\ (1 # 2 <= mult)%Q
  end.
Proof.
  intros Hpos. unfold compute_tps_multipliers.
  destruct pre_shares as [|p pre]; [now left|].
  destruct post_shares as [|q post]; [now right|].
  rewrite (average_defined (p :: pre)) by discriminate.
  rewrite (average_defined (q :: post)) by discriminate.
  cbn [mbind option_bind].
  destruct (linear_fit_defined (p :: pre)) as [pre_fit ->]; [discriminate|].
  destruct (linear_fit_defined (q :: post)) as [post_fit ->]; [discriminate|].
  cbn [mbind option_bind].
  assert (Hc : ~ (current_share == 0)%Q) by lra.
  set (pre_avg := (Qsum (p :: pre) / inject_Z (Z.of_nat (length (p :: pre))))%Q).
  set (post_avg := (Qsum (q :: post) / inject_Z (Z.of_nat (length (q :: post))))%Q).
  destruct (scenario_multipliers_lookup pre_avg post_avg pre_fit post_fit current_share
              pre_hold Hc) as (m1 & -> & H1).
  destruct (scenario_multipliers_lookup pre_avg post_avg pre_fit post_fit current_share
              pre_trend Hc) as (m2 & -> & H2).
  destruct (scenario_multipliers_lookup pre_avg post_avg pre_fit post_fit current_share
              post_hold Hc) as (m3 & -> & H3).
  destruct (scenario_multipliers_lookup pre_avg post_avg pre_fit post_fit current_share
              post_trend Hc) as (m4 & -> & H4).
  cbn [mbind option_bind].
  assert (Hfloor : forall share,
             (1 # 2 <= py_round (process_closure_risk.Qmax_py share (current_share * 0.5)
                                 / current_share) 4)%Q).
  { intros share. apply (Qle_trans _ _ _ half_rounds_to_half). apply py_round_le.
    destruct (Qmax_py_bounds share (current_share * 0.5)) as [_ Hb].
    apply Qle_shift_div_l; [exact Hpos | lra]. }
  intros sc yr Hyr. unfold tps_mult.
  destruct sc; [rewrite (H1 yr) | rewrite (H2 yr) | rewrite (H3 yr) | rewrite (H4 yr)];
    rewrite (bool_decide_eq_true_2 _ Hyr); cbn [default];
    (eexists; split; [reflexivity|]; split; [reflexivity | apply Hfloor]).
Qed.

End tps_multipliers.

Lemma tps_multipliers_floor_witness :
  exists multipliers,
    process_school_data.compute_tps_multipliers
      [(9 # 10)%Q; (9 # 10)%Q; (9 # 10)%Q; (9 # 10)%Q; (9 # 10)%Q]
      [(88 # 100)%Q; (86 # 100)%Q; (84 # 100)%Q; (82 # 100)%Q] (82 # 100)
    = Some multipliers
    /\ (1 # 2
        <= process_school_data.tps_mult multipliers process_school_data.post_trend 2050)%Q.
Proof.
  assert (Hpos : (0 < 82 # 100)%Q) by reflexivity.
  pose proof (tps_multipliers_floor
                [(9 # 10)%Q; (9 # 10)%Q; (9 # 10)%Q; (9 # 10)%Q; (9 # 10)%Q]
                [(88 # 100)%Q; (86 # 100)%Q; (84 # 100)%Q; (82 # 100)%Q] (82 # 100)
                Hpos) as H.
  destruct (process_school_data.compute_tps_multipliers _ _ _) as [multipliers|].
  - exists multipliers. split; [reflexivity|].
    destruct (H process_school_data.post_trend 2050) as (mult & _ & <- & Hm);
      [|exact Hm].
    unfold process_school_data.YEARS. rewrite !elem_of_cons. lia.
  - exfalso. destruct H as [H|H]; discriminate.
Defined.

Section linear_trend.

Import process_school_data.

Lemma linear_fit_five (a b : Q) :
  exists fit,
    linear_fit [a; a + b; a + 2 * b; a + 3 * b; a + 4 * b]%Q = Some fit
    /\ (fst fit == b)%Q /\ (snd fit == a)%Q.
Proof.
  unfold linear_fit.
  rewrite (average_defined [a; a + b; a + 2 * b; a + 3 * b; a + 4 * b]%Q)
    by discriminate.
  cbn [mbind option_bind].
  eexists. split; [reflexivity|].
  cbn [fst snd length imap seq fmap list_fmap Qsum foldr compose Nat.add].
  change (inject_Z (Z.of_nat 5)) with 5%Q.
  change (inject_Z (Z.of_nat 0)) with 0%Q.
  change (inject_Z (Z.of_nat 1)) with 1%Q.
  change (inject_Z (Z.of_nat 2)) with 2%Q.
  change (inject_Z (Z.of_nat 3)) with 3%Q.
  change (inject_Z (Z.of_nat 4)) with 4%Q.
  match goal with
  | |- context [Qeq_bool ?D 0] =>
      assert (HD : Qeq_bool D 0 = false) by (vm_compute; reflexivity); rewrite HD
  end.
  split; field.
Qed.

Lemma linear_fit_four (a b : Q) :
  exists fit,
    linear_fit [a; a + b; a + 2 * b; a + 3 * b]%Q = Some fit
    /\ (fst fit == b)%Q /\ (snd fit == a)%Q.
Proof.
  unfold linear_fit.
  rewrite (average_defined [a; a + b; a + 2 * b; a + 3 * b]%Q) by discriminate.
  cbn [mbind option_bind].
  eexists. split; [reflexivity|].
  cbn [fst snd length imap seq fmap list_fmap Qsum foldr compose Nat.add].
  change (inject_Z (Z.of_nat 4)) with 4%Q.
  change (inject_Z (Z.of_nat 0)) with 0%Q.
  change (inject_Z (Z.of_nat 1)) with 1%Q.
  change (inject_Z (Z.of_nat 2)) with 2%Q.
  change (inject_Z (Z.of_nat 3)) with 3%Q.
  match goal with
  | |- context [Qeq_bool ?D 0] =>
      assert (HD : Qeq_bool D 0 = false) by (vm_compute; reflexivity); rewrite HD
  end.
  split; field.
Qed.

(** X25.  The linear fit recovers a series that is exactly linear: on
    five (pre-pandemic) or four (post-pandemic) shares [a + b * i] the
    slope is [b] and the intercept [a], so that the two trend scenarios
    continue the line, the pre-pandemic one at index [yr - 2016] and
    the post-pandemic one at index [yr - 2021]. *)
Theorem linear_fit_exact (a b : Q) :
  let pre := [a; a + b; a + 2 * b; a + 3 * b; a + 4 * b]%Q in
  let post := [a; a + b; a + 2 * b; a + 3 * b]%Q in
  exists pre_fit post_fit,
    linear_fit pre = Some pre_fit /\ linear_fit post = Some post_fit
    /\ (fst pre_fit == b)%Q /\ (snd pre_fit == a)%Q
    /\ (fst post_fit == b)%Q /\ (snd post_fit == a)%Q
    /\ forall pre_avg post_avg yr,
         (future_share pre_avg post_avg pre_fit post_fit pre_trend yr
          == a + b * inject_Z (yr - 2016))%Q
         /\ (future_share pre_avg post_avg pre_fit post_fit post_trend yr
             == a + b * inject_Z (yr - 2021))%Q.
Proof.
  intros pre post.
  destruct (linear_fit_five a b) as (pre_fit & Hpre & Hs5 & Hi5).
  destruct (linear_fit_four a b) as (post_fit & Hpost & Hs4 & Hi4).
  exists pre_fit, post_fit.
  split; [exact Hpre|]. split; [exact Hpost|].
  split; [exact Hs5|]. split; [exact Hi5|]. split; [exact Hs4|]. split; [exact Hi4|].
  intros pre_avg post_avg yr. unfold future_share. cbv zeta.
  replace (4 + (yr - 2020)) with (yr - 2016) by lia.
  replace (3 + (yr - 2024)) with (yr - 2021) by lia.
  rewrite Hs5, Hi5, Hs4, Hi4. split; reflexivity.
Qed.

End linear_trend.

(** ** The national projections distributed to the counties *)

Section census_distribution.

Import process_school_data.

Context (national_projections : gmap Z Q).

Lemma national_school_age_total (yr : Z) :
  exists nat_sa, national_school_age national_projections yr = Ok nat_sa.
Proof.
  unfold national_school_age. destruct (national_projections !! yr); [eauto|].
  destruct (last _) as [y1|] eqn:Hl; [|eauto].
  destruct (head _) as [y2|] eqn:Hh; [|eauto].
  apply last_before_key in Hl as [[d1 H1] _].
  apply head_after_key in Hh as [[d2 H2] _].
  unfold subscript. rewrite H1, H2.
  destruct (y1 =? y2); eauto.
Qed.

(** What the loop over the years leaves in [proj]. *)
Lemma county_projections_lookup (national_acs_school_age school_age : Q) :
  exists proj,
    county_projections national_projections national_acs_school_age school_age
    = Ok proj
    /\ forall yr,
         proj !! yr
         = if bool_decide (yr ∈ YEARS)
           then match national_school_age national_projections yr with
                | Ok (Some nat_sa) =>
                    Some (nat_sa
                          * (if Qltb 0 national_acs_school_age
                             then school_age / national_acs_school_age else 0))%Q
                | _ => None
                end
           else if bool_decide (yr = 2020) then Some school_age else None.
Proof.
  unfold county_projections.
  set (share := if Qltb 0 national_acs_school_age
                then (school_age / national_acs_school_age)%Q else 0%Q).
  match goal with |- context [for_each ?F _ _] => set (body := F) end.
  assert (Hgen : forall l proj0,
             exists proj,
               for_each body l proj0 = Ok proj
               /\ forall yr,
                    proj !! yr
                    = if bool_decide (yr ∈ l)
                      then match national_school_age national_projections yr with
                           | Ok (Some nat_sa) => Some (nat_sa * share)%Q
                           | _ => proj0 !! yr
                           end
                      else proj0 !! yr).
  { induction l as [|y l IH]; intros proj0.
    - exists proj0. split; [reflexivity|]. intros yr.
      now rewrite bool_decide_eq_false_2 by apply not_elem_of_nil.
    - cbn [for_each]. unfold body at 1.
      destruct (national_school_age_total y) as [o Ho]. rewrite Ho.
      cbn [mbind result_bind].
      destruct o as [n|]; cbn [mret result_ret].
      + destruct (IH (<[y := (n * share)%Q]> proj0)) as (proj & Hrun & Hlook).
        exists proj. split; [exact Hrun|]. intros yr. rewrite (Hlook yr).
        destruct (decide (yr = y)) as [->|Hne].
        * rewrite (bool_decide_eq_true_2 (y ∈ y :: l)) by left.
          rewrite Ho, lookup_insert_eq. now destruct (bool_decide (y ∈ l)).
        * rewrite lookup_insert_ne by congruence.
          assert (Hiff : yr ∈ y :: l <-> yr ∈ l)
            by (rewrite elem_of_cons; tauto).
          now rewrite (bool_decide_ext _ _ Hiff).
      + destruct (IH proj0) as (proj & Hrun & Hlook).
        exists proj. split; [exact Hrun|]. intros yr. rewrite (Hlook yr).
        destruct (decide (yr = y)) as [->|Hne].
        * rewrite (bool_decide_eq_true_2 (y ∈ y :: l)) by left.
          rewrite Ho. now destruct (bool_decide (y ∈ l)).
        * assert (Hiff : yr ∈ y :: l <-> yr ∈ l)
            by (rewrite elem_of_cons; tauto).
          now rewrite (bool_decide_ext _ _ Hiff). }
  destruct (Hgen YEARS {[ 2020 := school_age ]}) as (proj & Hrun & Hlook).
  exists proj. split; [exact Hrun|]. intros yr. rewrite (Hlook yr).
  destruct (decide (yr = 2020)) as [->|Hne].
  - rewrite (bool_decide_eq_true_2 (2020 = 2020)) by reflexivity.
    rewrite bool_decide_eq_false_2; [apply lookup_singleton_eq|].
    unfold YEARS. rewrite !elem_of_cons, elem_of_nil. lia.
  - rewrite (bool_decide_eq_false_2 (yr = 2020)) by exact Hne.
    rewrite lookup_singleton_ne by congruence.
    case_bool_decide; [|reflexivity].
    now destruct (national_school_age national_projections yr) as [[n|]|].
Qed.

Context (county_acs : gmap string Q).

(** The output has an entry for every county of the ACS table. *)
Lemma process_census_school_age_lookup :
  exists census_data,
    process_census_school_age national_projections county_acs = Ok census_data
    /\ forall fips,
         match county_acs !! fips with
         | Some school_age =>
             exists proj,
               county_projections national_projections
                 (Qsum (snd <$> map_to_list county_acs)) school_age = Ok proj
               /\ census_data !! fips
                  = Some {| baseline_school_age := school_age; projections := proj |}
         | None => census_data !! fips = None
         end.
Proof.
  unfold process_census_school_age.
  rewrite (for_each_items _
             (fun _ school_age =>
                match county_projections national_projections
                        (Qsum (snd <$> map_to_list county_acs)) school_age with
                | Ok proj =>
                    Some {| baseline_school_age := school_age; projections := proj |}
                | Raise _ => None
                end)).
  - eexists. split; [reflexivity|]. intros fips. rewrite map_lookup_imap.
    destruct (county_acs !! fips) as [c|]; cbn [mbind option_bind]; [|reflexivity].
    destruct (county_projections_lookup (Qsum (snd <$> map_to_list county_acs)) c)
      as (proj & Hproj & _).
    exists proj. split; [exact Hproj|]. now rewrite Hproj.
  - intros [fips c] out. cbn [fst snd].
    destruct (county_projections_lookup (Qsum (snd <$> map_to_list county_acs)) c)
      as (proj & -> & _).
    reflexivity.
Qed.


End census_distribution.


Section census_total.

Import process_school_data.

Lemma Qsum_shares {B : Type} (value : B -> Q) (k : Q) (l : list B) :
  (Qsum ((fun b => k * value b) <$> l) == k * Qsum (value <$> l))%Q.
Proof.
  induction l as [|b l IH].
  - cbn. ring.
  - rewrite !fmap_cons, !Qsum_cons, IH. ring.
Qed.

(** X27.  The distribution adds up: for a year for which the national
    series gives a value, and a positive national ACS total, the
    projections of all counties for that year sum to the national
    school-age population. *)
Theorem census_distribution_adds_up (national_projections : gmap Z Q)
  (county_acs : gmap string Q) (yr : Z) (nat_sa : Q) :
  yr ∈ YEARS ->
  national_school_age national_projections yr = Ok (Some nat_sa) ->
  (0 < Qsum (snd <$> map_to_list county_acs))%Q ->
  exists census_data,
    process_census_school_age national_projections county_acs = Ok census_data
    /\ (Qsum ((fun item => default 0 (projections (snd item) !! yr))
                <$> map_to_list census_data)
        == nat_sa)%Q.
Proof.
  intros Hyr Hnat HT.
  destruct (process_census_school_age_lookup national_projections county_acs)
    as (census_data & Hrun & Hlook).
  exists census_data. split; [exact Hrun|].
  set (T := Qsum (snd <$> map_to_list county_acs)) in *.
  set (entry_of := fun school_age : Q =>
         {| baseline_school_age := school_age;
            projections :=
              match county_projections national_projections T school_age with
              | Ok proj => proj
              | Raise _ => ∅
              end |}).
  assert (Hmap : census_data = entry_of <$> county_acs).
  { apply map_eq. intros fips. rewrite lookup_fmap. specialize (Hlook fips).
    destruct (county_acs !! fips) as [c|]; cbn [fmap option_fmap option_map];
      [|exact Hlook].
    destruct Hlook as (proj & Hproj & ->). unfold entry_of. now rewrite Hproj. }
  rewrite Hmap.
  rewrite (map_to_list_fmap entry_of county_acs), <- list_fmap_compose.
  assert (Hext : (fun item : string * Q =>
                    default 0%Q (projections (snd (prod_map id entry_of item)) !! yr))
                 <$> map_to_list county_acs
                 = (fun item : string * Q => (nat_sa * (snd item / T))%Q)
                     <$> map_to_list county_acs).
  { apply list_fmap_ext. intros i [fips c] _. cbn [prod_map snd projections entry_of].
    destruct (county_projections_lookup national_projections T c)
      as (proj & -> & Hyears).
    rewrite (Hyears yr), (bool_decide_eq_true_2 _ Hyr), Hnat.
    now rewrite (proj2 (Qltb_lt 0 T) HT). }
  unfold compose. rewrite Hext.
  assert (Hsum : (Qsum ((fun item : string * Q => (nat_sa * (snd item / T))%Q)
                          <$> map_to_list county_acs)
                  == nat_sa / T * T)%Q).
  { unfold T at 3.
    rewrite <- (Qsum_shares (snd : string * Q -> Q) (nat_sa / T)
                  (map_to_list county_acs)).
    assert (Hpt : Forall2 Qeq
                    ((fun item : string * Q => (nat_sa * (snd item / T))%Q)
                       <$> map_to_list county_acs)
                    ((fun b : string * Q => (nat_sa / T * snd b)%Q)
                       <$> map_to_list county_acs)).
    { apply Forall2_fmap, Forall_Forall2_diag, Forall_forall.
      intros [fips c] _. cbn [snd]. field. lra. }
    clear -Hpt. induction Hpt as [|x y l l' Hxy _ IH]; [reflexivity|].
    rewrite !Qsum_cons, Hxy, IH. reflexivity. }
  rewrite Hsum. field. lra.
Qed.

End census_total.

Lemma census_distribution_adds_up_witness :
  exists nat_sa census_data,
    process_school_data.national_school_age
      (<[2025 := 50000%Q]> {[ 2035 := 48000%Q ]}) 2030
    = Ok (Some nat_sa)
    /\ process_school_data.process_census_school_age
         (<[2025 := 50000%Q]> {[ 2035 := 48000%Q ]})
         (<["01001"%string := 1000%Q]> {[ "01003"%string := 3000%Q ]})
       = Ok census_data
    /\ (Qsum ((fun item =>
                 default 0 (process_school_data.projections (snd item) !! 2030%Z))
                <$> map_to_list census_data)
        == nat_sa)%Q.
Proof.
  destruct (process_school_data.national_school_age
              (<[2025 := 50000%Q]> {[ 2035 := 48000%Q ]}) 2030)
    as [[nat_sa|]|e] eqn:Hnat; [|exfalso; vm_compute in Hnat; discriminate..].
  assert (Hyr : 2030 ∈ process_school_data.YEARS)
    by (unfold process_school_data.YEARS; rewrite !elem_of_cons; lia).
  assert (HT : (0 < Qsum (snd <$> map_to_list
                            (<["01001"%string := 1000%Q]> {[ "01003"%string := 3000%Q ]}
                             : gmap string Q)))%Q)
    by (vm_compute; reflexivity).
  destruct (census_distribution_adds_up
              (<[2025 := 50000%Q]> {[ 2035 := 48000%Q ]})
              (<["01001"%string := 1000%Q]> {[ "01003"%string := 3000%Q ]})
              2030 nat_sa Hyr Hnat HT) as (census_data & Hrun & Hsum).
  exists nat_sa, census_data. split; [reflexivity|]. split; [exact Hrun | exact Hsum].
Defined.

(** ** The schools kept for the scorer *)

Section kept_schools.

Import process_school_data.

Lemma length_zeros (n : nat) : String.length (zeros n) = n.
Proof. induction n as [|n IH]; cbn; [reflexivity | now rewrite IH]. Qed.

Lemma length_string_app (s1 s2 : string) :
  String.length (s1 +:+ s2) = (String.length s1 + String.length s2)%nat.
Proof.
  induction s1 as [|c s1 IH]; [reflexivity|].
  change (S (String.length (s1 +:+ s2)) = S (String.length s1 + String.length s2)).
  f_equal. exact IH.
Qed.

Lemma length_zfill (width : nat) (s : string) :
  (width <= String.length (zfill width s))%nat.
Proof.
  unfold zfill. destruct (Nat.leb_spec width (String.length s)) as [H|H]; [exact H|].
  destruct s as [|c s'].
  - now rewrite length_zeros.
  - destruct (Ascii.eqb c "+" || Ascii.eqb c "-")%bool.
    + change (width <= S (String.length
                            (zeros (width - String.length (String c s')) +:+ s')))%nat.
      rewrite length_string_app, length_zeros. cbn [String.length] in H |- *. lia.
    + rewrite length_string_app, length_zeros. lia.
Qed.

Lemma kept_school_passes (s : DirectorySchool) (o : School) :
  kept_school s = Some o ->
  passes o
  /\ school_status s = Some 1 /\ school_type s = Some 1 /\ charter s <> Some 1
  /\ virtual s <> Some 1 /\ virtual s <> Some 2
  /\ directory_enrollment s = Some (enrollment o).
Proof.
  unfold kept_school, passes.
  case_bool_decide as Hstatus; cbn [negb]; [|discriminate].
  case_bool_decide as Htype; cbn [negb]; [|discriminate].
  case_bool_decide as Hcharter; [discriminate|].
  case_bool_decide as Hvirtual; [discriminate|].
  destruct (directory_enrollment s) as [e|]; [|discriminate].
  destruct (Z.leb_spec e 0) as [|He]; [discriminate|].
  destruct (code_given (county_code s)); cbn [negb]; [|discriminate].
  destruct (county_code s) as [c|]; [|discriminate].
  case_bool_decide as Hstate; cbn [negb]; [|discriminate].
  intros [= <-]. cbn [enrollment fips].
  split; [split; [exact He | split; [apply length_zfill | exact Hstate]]|].
  tauto.
Qed.

End kept_schools.

Section kept_schools_scored.

Import process_school_data.

Lemma filter_tps_schools_passes (all_schools : list DirectorySchool) :
  Forall passes (filter_tps_schools all_schools).
Proof.
  apply Forall_forall. intros o Ho. unfold filter_tps_schools in Ho.
  apply list_elem_of_omap in Ho as (s & _ & Hs).
  now apply kept_school_passes in Hs.
Qed.

Lemma total_enrollment_positive (school_list : list School) :
  school_list <> [] -> Forall passes school_list ->
  0 < total_enrollment_of school_list.
Proof.
  unfold total_enrollment_of.
  destruct school_list as [|s l]; [contradiction|]. intros _ Hall.
  apply Forall_cons in Hall as [[Hs _] Hl]. rewrite fmap_cons. cbn [foldr].
  assert (0 <= foldr Z.add 0 (enrollment <$> l)); [|lia].
  induction Hl as [|s' l [Hs' _] _ IH]; [reflexivity|].
  rewrite fmap_cons. cbn [foldr]. lia.
Qed.

(** X28.  What [filter_tps_schools] hands to the scorer.  Every school
    it keeps has a positive enrollment and a county code of at least
    five characters that begins with a known state code; so every
    county of the output of [assemble_risk_data] has at least one
    school, a positive enrollment (the reported decline is never the
    0 of a county without enrollment) and a code that begins with a
    known state code. *)
Theorem filtered_schools_feed_the_scorer (all_schools : list DirectorySchool)
  (hauer_data : gmap string (gmap Z Agg))
  (census_data : option (gmap string CensusCounty))
  (tps_multipliers : scenario -> gmap Z Q) (county_baseline_sa : gmap string Q) :
  Forall passes (filter_tps_schools all_schools)
  /\ exists output,
       assemble_risk_data (filter_tps_schools all_schools) hauer_data census_data
         tps_multipliers county_baseline_sa = Ok output
       /\ map_Forall
            (fun fips e =>
               0 < schools_total e /\ 0 < current_enrollment e
               /\ String.substring 0 2 fips ∈ STATE_FIPS)
            output.
Proof.
  pose proof (filter_tps_schools_passes all_schools) as Hall.
  split; [exact Hall|].
  set (schools := filter_tps_schools all_schools) in *.
  unfold assemble_risk_data.
  rewrite (for_each_items _
             (fun fips school_list =>
                match county_entry hauer_data census_data tps_multipliers
                        county_baseline_sa fips school_list with
                | Ok e => Some e
                | Raise _ => None
                end)).
  - eexists. split; [reflexivity|]. intros f e. rewrite map_lookup_imap.
    rewrite county_schools_lookup.
    destruct (filter (fun s => fips s = f) schools) as [|s0 l] eqn:Hl;
      cbn [mbind option_bind]; [discriminate|].
    destruct (county_entry hauer_data census_data tps_multipliers county_baseline_sa f
                (s0 :: l)) as [e'|] eqn:He; [|discriminate].
    intros [= <-].
    apply county_entry_fields in He as [Hn Hsum]. rewrite Hn, Hsum.
    assert (Hsub : Forall passes (s0 :: l)).
    { rewrite <- Hl. apply Forall_forall. intros s Hs.
      apply list_elem_of_filter in Hs as [_ Hs].
      exact (proj1 (Forall_forall _ _) Hall s Hs). }
    split; [cbn [length]; lia|]. split.
    + apply total_enrollment_positive; [discriminate | exact Hsub].
    + assert (Hs0 : s0 ∈ filter (fun s => fips s = f) schools)
        by (rewrite Hl; left).
      apply list_elem_of_filter in Hs0 as [<- _].
      apply Forall_cons in Hsub as [(_ & _ & Hst) _]. exact Hst.
  - intros [fips0 l] out. cbn [fst snd].
    destruct (county_entry_partitioned hauer_data census_data tps_multipliers
                county_baseline_sa fips0 l) as (e & -> & _).
    reflexivity.
Qed.

End kept_schools_scored.

(** ** The Cooper Center scenario of a state *)

Section cooper_year.

Import process_cooper_center.

Lemma closures_of_range (ratio : Q) (entry : StateEntry) (yr : Z) :
  Forall (fun bc => 0 <= snd bc) (buckets entry) ->
  (0 <= closures_of ratio entry yr
   <= inject_Z (foldr Z.add 0%Z (snd <$> buckets entry)))%Q.
Proof.
  intros Hbs. unfold closures_of.
  destruct (expected_closures_range design.cooper_rules large_stable avg_enrollment
              cooper_prob_range (1 - ratio) (Z.max (yr - 2025) 1) (buckets entry) Hbs)
    as [H0 H1].
  destruct (Qgeb ratio 1).
  - split; [apply Qle_refl|]. lra.
  - cbv zeta. rewrite compute_closures_design. split; [exact H0 | exact H1].
Qed.

(** X29.  A year of the Cooper Center scenario, for a state whose bucket
    counts are not negative and add up to its schools, with positive
    school-age populations: the expected closures lie between 0 and the
    number of schools and their percentage between 0 and 100; the
    projected enrollment is not negative and the decline is at most
    100; and a state that does not grow has a decline that is not
    negative and a projected enrollment that does not exceed the
    current one. *)
Theorem cooper_year_bounds (entry : StateEntry) (sa_2020 sa_yr : Q) (yr : Z) :
  (0 < sa_2020)%Q -> (0 < sa_yr)%Q ->
  0 <= current_enrollment entry ->
  Forall (fun bc => 0 <= snd bc) (buckets entry) ->
  foldr Z.add 0 (snd <$> buckets entry) = current_schools entry ->
  let o := year_out entry sa_2020 sa_yr yr in
  (0 <= expected_closures o <= inject_Z (current_schools entry))%Q
  /\ (0 <= expected_closures_pct o <= 100)%Q
  /\ (enrollment_decline_pct o <= 100)%Q
  /\ 0 <= projected_enrollment o
  /\ ((sa_yr <= sa_2020)%Q ->
      (0 <= enrollment_decline_pct o)%Q
      /\ projected_enrollment o <= current_enrollment entry).
Proof.
  intros H20 Hyr Henr Hbs Hsum o. unfold o, year_out.
  cbn [expected_closures expected_closures_pct enrollment_decline_pct
       projected_enrollment].
  pose proof (closures_of_range (sa_yr / sa_2020) entry yr Hbs) as Hc.
  rewrite Hsum in Hc.
  assert (Hr0 : (0 < sa_yr / sa_2020)%Q) by (apply Qlt_shift_div_l; lra).
  assert (He : (0 <= inject_Z (current_enrollment entry))%Q)
    by (change 0%Q with (inject_Z 0); now rewrite <- Zle_Qle).
  split; [|split; [|split; [|split]]].
  - apply (py_round_between 0 (current_schools entry)); [lia | exact Hc].
  - destruct (Z.ltb_spec 0 (current_schools entry)) as [Ht|Ht];
      [|split; discriminate].
    assert (Hq : (0 < inject_Z (current_schools entry))%Q)
      by (change 0%Q with (inject_Z 0); now rewrite <- Zlt_Qlt).
    destruct Hc as [Hc0 Hc1].
    assert (Hd0 : (0 <= closures_of (sa_yr / sa_2020) entry yr
                        / inject_Z (current_schools entry))%Q)
      by (apply Qle_shift_div_l; lra).
    assert (Hd1 : (closures_of (sa_yr / sa_2020) entry yr
                   / inject_Z (current_schools entry) <= 1)%Q)
      by (apply Qle_shift_div_r; lra).
    apply (py_round_between 0 100); [lia|].
    change (inject_Z 0) with 0%Q. change (inject_Z 100) with 100%Q. split; lra.
  - apply (Qle_trans _ (py_round 100 2)).
    + apply py_round_le. lra.
    + rewrite (py_round_inject 100 2) by lia. apply Qle_refl.
  - rewrite <- (round_half_even_inject 0). apply round_half_even_le.
    change (inject_Z 0) with 0%Q. nra.
  - intros Hle.
    assert (Hr1 : (sa_yr / sa_2020 <= 1)%Q) by (apply Qle_shift_div_r; lra).
    split.
    + apply (Qle_trans _ (py_round 0 2)).
      * rewrite (py_round_inject 0 2) by lia. apply Qle_refl.
      * apply py_round_le. lra.
    + rewrite <- (round_half_even_inject (current_enrollment entry)) at 2.
      apply round_half_even_le. nra.
Qed.

Lemma cooper_year_bounds_witness :
  let entry :=
    {| current_enrollment := 1000; current_schools := 3;
       buckets := [(process_closure_risk.under100, 1);
                   (process_closure_risk.b500plus, 2)] |} in
  (0 <= expected_closures (year_out entry 200 180 2030) <= 3)%Q
  /\ 0 <= projected_enrollment (year_out entry 200 180 2030).
Proof.
  intros entry.
  assert (H20 : (0 < 200)%Q) by reflexivity.
  assert (Hyr : (0 < 180)%Q) by reflexivity.
  assert (Henr : 0 <= current_enrollment entry) by (cbn; lia).
  assert (Hbs : Forall (fun bc => 0 <= snd bc) (buckets entry))
    by (repeat constructor; cbn; lia).
  assert (Hsum : foldr Z.add 0 (snd <$> buckets entry) = current_schools entry)
    by reflexivity.
  pose proof (cooper_year_bounds entry 200 180 2030 H20 Hyr Henr Hbs Hsum) as H.
  cbv zeta in H. split; [exact (proj1 H) | exact (proj1 (proj2 (proj2 (proj2 H))))].
Defined.

End cooper_year.

(** ** From the directory to the state estimates *)

Section ccd_pipeline.

Import process_closure_risk.

Lemma filter_schools_enrollment (schools : list DirectorySchool) :
  Forall (fun s => 0 < enrollment s) (filter_schools schools).
Proof.
  apply Forall_forall. intros o Ho. unfold filter_schools in Ho.
  apply list_elem_of_omap in Ho as (s & _ & Hs). unfold kept_school in Hs.
  destruct (negb _); [discriminate|].
  destruct (bool_decide _); [discriminate|].
  destruct (is_virtual _); [discriminate|].
  destruct (raw_enrollment s) as [e|]; [|discriminate].
  destruct (Z.leb_spec e 0) as [|He]; [discriminate|].
  destruct (not_open _); [discriminate|].
  injection Hs as <-. exact He.
Qed.

Lemma enrollment_at_least_count (l : list School) :
  Forall (fun s => 0 < enrollment s) l ->
  Z.of_nat (length l) <= foldr Z.add 0 (enrollment <$> l).
Proof.
  induction 1 as [|s l Hs _ IH]; [reflexivity|].
  rewrite fmap_cons. cbn [foldr length]. lia.
Qed.

Lemma state_of_length (s : School) (st : string) :
  state_of s = Some st -> String.length st = 2%nat.
Proof.
  unfold state_of. destruct (or_else _ _) as [st'|]; [|discriminate].
  destruct (truthy (Some st')); cbn [andb]; [|discriminate].
  destruct (Nat.eqb_spec (String.length st') 2) as [H|]; [|discriminate].
  now intros [= <-].
Qed.

(** X30.  From the directory to step 5.  A state that
    [process_ccd_schools] counts, after its own filter, has a
    two-letter key, at least one school, at least one student per
    school, and bucket counts that are not negative and add up to its
    schools; so, whatever the scenario and year, the expected closures
    that [estimate_closures] writes for it lie between 0 and its number
    of schools.  A state without an entry has no kept school. *)
Theorem counted_states_are_well_formed (schools : list DirectorySchool) (st : string)
  (scenario_data : gmap Z YearData) (target_year : Z) :
  match process_ccd_schools (filter_schools schools) !! st with
  | Some sd =>
      String.length st = 2%nat
      /\ 1 <= total_schools sd <= total_enrollment sd
      /\ design.counts_add_up sd
      /\ (0 <= key_expected_closures (estimate_year sd scenario_data target_year)
          <= inject_Z (total_schools sd))%Q
  | None => schools_of st (filter_schools schools) = []
  end.
Proof.
  rewrite process_ccd_schools_lookup.
  destruct (schools_of st (filter_schools schools)) as [|s l] eqn:Hl; [reflexivity|].
  pose proof (count_fold_totals (s :: l) empty_state) as H. cbv zeta in H.
  destruct H as (H1 & H2 & H3).
  set (sd := foldl (fun sd s => count_school (enrollment s) sd) empty_state (s :: l))
    in *.
  assert (Hin : s ∈ schools_of st (filter_schools schools)) by (rewrite Hl; left).
  unfold schools_of in Hin. apply list_elem_of_filter in Hin as [Hst _].
  assert (Hpos : Forall (fun s => 0 < enrollment s) (s :: l)).
  { rewrite <- Hl. apply Forall_forall. intros s' Hs'. unfold schools_of in Hs'.
    apply list_elem_of_filter in Hs' as [_ Hs'].
    exact (proj1 (Forall_forall _ _) (filter_schools_enrollment schools) s' Hs'). }
  pose proof (enrollment_at_least_count (s :: l) Hpos) as Hsum.
  assert (Hwf : design.counts_add_up sd).
  { apply H3. unfold design.counts_add_up. cbn. lia. }
  split; [exact (state_of_length s st Hst)|].
  split; [rewrite H1, H2; cbn [total_schools total_enrollment empty_state length] in *;
          lia|].
  split; [exact Hwf|].
  destruct (buckets_not_negative sd Hwf) as [Hbs Htot].
  rewrite estimate_year_fields. cbn [key_expected_closures].
  apply (py_round_between 0 (total_schools sd)); [lia|].
  rewrite bucket_loop_design, <- Htot.
  apply (expected_closures_range _ _ _ state_prob_range). exact Hbs.
Qed.

End ccd_pipeline.

(** * The scripts in double precision *)

(** ** Rounding to double precision *)

Lemma two_power_pos (k : Z) : (0 < 2 ^ k)%Q.
Proof. apply Qpower_0_lt. reflexivity. Qed.

Lemma two_power_succ (k : Z) : (2 ^ (k + 1) == 2 * 2 ^ k)%Q.
Proof. rewrite Qpower_plus by discriminate. rewrite Qpower_1_r. ring. Qed.

Lemma two_power_inject (k : Z) : 0 <= k -> (inject_Z (2 ^ k) == 2 ^ k)%Q.
Proof. intros Hk. now rewrite Zpower_Qpower. Qed.

(** The leading bit of a rational other than zero. *)
Lemma ilog2_le (x : Q) : ~ (x == 0)%Q -> (2 ^ ilog2 x <= Qabs x)%Q.
Proof.
  intros Hx. unfold ilog2.
  set (a := Z.log2 (Z.abs (Qnum x))). set (b := Z.log2 (Z.pos (Qden x))).
  destruct (Qle_bool (2 ^ (a - b)) (Qabs x)) eqn:E.
  - now apply Qle_bool_iff in E.
  - clear E. destruct x as [n d]. cbn [Qnum Qden] in *.
    assert (Hn : 0 < Z.abs n).
    { assert (n <> 0); [|lia]. intros ->. apply Hx. reflexivity. }
    assert (Ha : 2 ^ a <= Z.abs n) by (apply Z.log2_spec, Hn).
    assert (Hb : Z.pos d < 2 ^ (b + 1)).
    { replace (b + 1) with (Z.succ b) by lia. apply Z.log2_spec. lia. }
    assert (Ha0 : 0 <= a) by apply Z.log2_nonneg.
    assert (Hb0 : 0 <= b) by apply Z.log2_nonneg.
    replace (a - b - 1) with (a - (b + 1)) by lia.
    rewrite Qpower_minus by discriminate.
    rewrite <- (two_power_inject a), <- (two_power_inject (b + 1)) by lia.
    change (Qabs (n # d)) with (Z.abs n # d). rewrite (Qmake_Qdiv (Z.abs n) d).
    assert (H1 : (inject_Z (2 ^ a) <= inject_Z (Z.abs n))%Q) by now rewrite <- Zle_Qle.
    assert (H2 : (inject_Z (Z.pos d) <= inject_Z (2 ^ (b + 1)))%Q)
      by (rewrite <- Zle_Qle; lia).
    assert (H3 : (0 < inject_Z (Z.pos d))%Q) by reflexivity.
    assert (H4 : (0 < inject_Z (2 ^ a))%Q).
    { rewrite two_power_inject by lia. apply two_power_pos. }
    apply Qle_shift_div_l; [lra|].
    unfold Qdiv. rewrite <- Qmult_assoc, (Qmult_comm (/ _)), Qmult_assoc.
    apply Qle_shift_div_r; [lra|]. nra.
Qed.

(** The error of one rounding: half a unit in the last place, which is
    [2^-53] of the value, or [2^-1075] where the doubles are evenly
    spaced. *)
Lemma double_error (x : Q) :
  (Qabs (double x - x) <= 2 ^ (-53) * Qabs x + 2 ^ (-1075))%Q.
Proof.
  pose proof (two_power_pos (-53)) as Hu. pose proof (two_power_pos (-1075)) as Heta.
  pose proof (Qabs_nonneg x) as Hx0.
  unfold double. destruct (Qeq_bool x 0) eqn:E.
  - apply Qeq_bool_iff in E. rewrite E. change (Qabs (0 - 0)) with 0%Q.
    change (Qabs 0) with 0%Q. lra.
  - assert (Hx : ~ (x == 0)%Q) by (now apply Qeq_bool_neq).
    set (e := Z.max (ilog2 x - 52) (-1074)).
    pose proof (two_power_pos e) as He.
    pose proof (round_half_even_near (x / 2 ^ e)) as [Hlo Hhi].
    set (r := inject_Z (round_half_even (x / 2 ^ e))) in *.
    assert (Hy : (x == x / 2 ^ e * 2 ^ e)%Q) by (field; lra).
    set (y := (x / 2 ^ e)%Q) in *.
    assert (Herr : (Qabs (r * 2 ^ e - x) <= 2 ^ e * (1 # 2))%Q).
    { apply Qabs_Qle_condition. split; nra. }
    eapply Qle_trans; [exact Herr|].
    destruct (Z.max_spec (ilog2 x - 52) (-1074)) as [[_ Hm]|[_ Hm]];
      fold e in Hm; rewrite Hm.
    + change (-1074) with (-1075 + 1). rewrite two_power_succ. nra.
    + replace (ilog2 x - 52) with (ilog2 x + -53 + 1) by lia.
      rewrite two_power_succ, Qpower_plus by discriminate.
      pose proof (ilog2_le x Hx). nra.
Qed.

Lemma Qsum_abs (l : list Q) : (Qabs (Qsum l) <= Qsum (Qabs <$> l))%Q.
Proof.
  induction l as [|x l IH]; [discriminate|].
  rewrite fmap_cons, !Qsum_cons.
  eapply Qle_trans; [apply Qabs_triangle|]. lra.
Qed.

Lemma Qsum_abs_not_negative (l : list Q) : (0 <= Qsum (Qabs <$> l))%Q.
Proof.
  induction l as [|x l IH]; [discriminate|].
  rewrite fmap_cons, Qsum_cons. pose proof (Qabs_nonneg x). lra.
Qed.

Lemma Qsum_permutation (l l' : list Q) : l ≡ₚ l' -> (Qsum l == Qsum l')%Q.
Proof.
  induction 1 as [|x l l' _ IH|x y l|l l' l'' _ IH1 _ IH2].
  - reflexivity.
  - rewrite !Qsum_cons, IH. reflexivity.
  - rewrite !Qsum_cons. ring.
  - now rewrite IH1.
Qed.

Lemma growth_succ (n : nat) :
  ((1 + 2 ^ (-53)) ^ Z.of_nat (S n) == (1 + 2 ^ (-53)) * (1 + 2 ^ (-53)) ^ Z.of_nat n)%Q.
Proof.
  pose proof (two_power_pos (-53)) as Hu.
  rewrite Nat2Z.inj_succ. unfold Z.succ.
  rewrite Qpower_plus by lra. rewrite Qpower_1_r. ring.
Qed.

Lemma growth_ge_1 (n : nat) : (1 <= (1 + 2 ^ (-53)) ^ Z.of_nat n)%Q.
Proof.
  pose proof (two_power_pos (-53)) as Hu.
  apply Qpower_1_le; [lra | lia].
Qed.

(** A chain of [+=] started on [s], where the exact sum stands at [t]:
    the error grows by one rounding with every term. *)
Lemma foldl_double_error (l : list Q) :
  forall (s t A : Q) (n : nat),
    (Qabs t <= A)%Q ->
    (Qabs (s - t) <= ((1 + 2 ^ (-53)) ^ Z.of_nat n - 1) * (A + 2 ^ (-1022)))%Q ->
    (Qabs (foldl (fun acc x => double (acc + x)) s l - (t + Qsum l))
     <= ((1 + 2 ^ (-53)) ^ Z.of_nat (n + length l) - 1)
        * (A + Qsum (Qabs <$> l) + 2 ^ (-1022)))%Q.
Proof.
  pose proof (two_power_pos (-53)) as Hu. pose proof (two_power_pos (-1022)) as HT.
  assert (Heta : (2 ^ (-1075) == 2 ^ (-53) * 2 ^ (-1022))%Q).
  { change (-1075) with (-53 + -1022). apply Qpower_plus. discriminate. }
  induction l as [|x l IH]; intros s t A n HS HE.
  - cbn [foldl length fmap list_fmap]. rewrite Nat.add_0_r.
    change (Qsum []) with 0%Q.
    assert (Hs : (s - (t + 0) == s - t)%Q) by ring. rewrite Hs.
    eapply Qle_trans; [exact HE|]. lra.
  - cbn [foldl length]. rewrite fmap_cons, !Qsum_cons.
    replace (n + S (length l))%nat with (S n + length l)%nat by lia.
    assert (Hgoal : (t + (x + Qsum l) == (t + x) + Qsum l)%Q) by ring.
    rewrite Hgoal.
    assert (HA : (A + (Qabs x + Qsum (Qabs <$> l)) + 2 ^ (-1022)
                  == (A + Qabs x) + Qsum (Qabs <$> l) + 2 ^ (-1022))%Q) by ring.
    rewrite HA.
    apply IH.
    + eapply Qle_trans; [apply Qabs_triangle|]. lra.
    + pose proof (double_error (s + x)) as Hd.
      pose proof (growth_ge_1 n) as Hc. rewrite growth_succ.
      set (c := ((1 + 2 ^ (-53)) ^ Z.of_nat n)%Q) in *.
      set (u := (2 ^ (-53))%Q) in *. set (T := (2 ^ (-1022))%Q) in *.
      set (eta := (2 ^ (-1075))%Q) in *.
      pose proof (Qabs_nonneg x) as Hx0. pose proof (Qabs_nonneg t) as HS0.
      assert (Hsx : (Qabs (s + x) <= Qabs (s - t) + (A + Qabs x))%Q).
      { assert (Hsplit : (s + x == (s - t) + (t + x))%Q) by ring.
        rewrite Hsplit at 1.
        eapply Qle_trans; [apply Qabs_triangle|].
        assert (Qabs (t + x) <= Qabs t + Qabs x)%Q by apply Qabs_triangle. lra. }
      assert (Hstep : (Qabs (double (s + x) - (t + x))
                       <= Qabs (double (s + x) - (s + x)) + Qabs (s - t))%Q).
      { assert (Hsplit : (double (s + x) - (t + x)
                          == (double (s + x) - (s + x)) + (s - t))%Q) by ring.
        rewrite Hsplit at 1. apply Qabs_triangle. }
      set (E := Qabs (s - t)) in *. set (D := Qabs (double (s + x) - (s + x))) in *.
      set (X := Qabs x) in *. set (SX := Qabs (s + x)) in *.
      set (G := Qabs (double (s + x) - (t + x))) in *.
      assert (HA0 : (0 <= A)%Q) by lra.
      assert (H1 : ((1 + u) * E <= (1 + u) * ((c - 1) * (A + T)))%Q).
      { apply Qmult_le_l; [lra | exact HE]. }
      assert (H2 : (0 <= (1 + u) * (c - 1) * X)%Q).
      { apply Qmult_le_0_compat; [|exact Hx0].
        apply Qmult_le_0_compat; lra. }
      assert (H3 : (u * SX <= u * (E + (A + X)))%Q).
      { apply Qmult_le_l; [lra | exact Hsx]. }
      assert (Hfinal : (((1 + u) * c - 1) * (A + X + T)
                        == (1 + u) * ((c - 1) * (A + T)) + (1 + u) * (c - 1) * X
                           + u * (A + X + T))%Q) by ring.
      rewrite Hfinal.
      assert (Hexp : (u * (E + (A + X)) + u * T + E == (1 + u) * E + u * (A + X + T))%Q)
        by ring.
      lra.
Qed.

(** The float sum against the exact sum. *)
Lemma fsum_error (l : list Q) : (Qabs (fsum l - Qsum l) <= rounding_bound l)%Q.
Proof.
  pose proof (foldl_double_error l 0 0 0 0) as H.
  unfold fsum, rounding_bound.
  assert (H0 : (Qabs 0 <= 0)%Q) by discriminate.
  assert (H1 : (Qabs (0 - 0) <= ((1 + 2 ^ (-53)) ^ Z.of_nat 0 - 1) * (0 + 2 ^ (-1022)))%Q).
  { change (Qabs (0 - 0)) with 0%Q. change (Z.of_nat 0) with 0. rewrite Qpower_0_r.
    lra. }
  specialize (H H0 H1). cbn [Nat.add] in H.
  assert (Hl : (0 + Qsum l == Qsum l)%Q) by ring. rewrite Hl in H.
  assert (Hr : (0 + Qsum (Qabs <$> l) + 2 ^ (-1022) == Qsum (Qabs <$> l) + 2 ^ (-1022))%Q)
    by ring.
  rewrite Hr in H. exact H.
Qed.

Lemma rounding_bound_permutation (l l' : list Q) :
  l ≡ₚ l' -> (rounding_bound l == rounding_bound l')%Q.
Proof.
  intros H. unfold rounding_bound.
  rewrite (Permutation_length H).
  rewrite (Qsum_permutation (Qabs <$> l) (Qabs <$> l')); [reflexivity|].
  now apply fmap_Permutation.
Qed.

(** Two orders of the same floats: the sums differ by no more than the
    rounding of both. *)
Lemma fsum_permutation (l l' : list Q) :
  l ≡ₚ l' -> (Qabs (fsum l - fsum l') <= 2 * rounding_bound l)%Q.
Proof.
  intros H. pose proof (fsum_error l) as H1. pose proof (fsum_error l') as H2.
  rewrite <- (rounding_bound_permutation l l' H) in H2.
  rewrite <- (Qsum_permutation l l' H) in H2.
  assert (Hsplit : (fsum l - fsum l' == (fsum l - Qsum l) + - (fsum l' - Qsum l))%Q) by ring.
  rewrite Hsplit.
  eapply Qle_trans; [apply Qabs_triangle|]. rewrite Qabs_opp. lra.
Qed.

(** ** The closure risk scorer *)

Section closure_scorer_binary64.

Import process_closure_risk.

Context (pow : Q -> Z -> Q).

(** The expected closures that one bucket adds to the accumulator. *)
Lemma bucket_body_binary64 (avg : bucket_name -> Q) (decline_ratio : Q)
  (target_year : Z) (acc : Tally) (bc : bucket_name * Z) :
  expected_closures
    (process_closure_risk_binary64.bucket_body pow avg decline_ratio
       (years_from_2025 target_year) acc bc)
  = if decide (snd bc <> 0)
    then double (expected_closures acc
                 + design.bucket_closures_binary64 pow design.state_rules_binary64
                     process_closure_risk_binary64.large_stable avg decline_ratio
                     (target_year - 2025) bc)
    else expected_closures acc.
Proof.
  unfold process_closure_risk_binary64.bucket_body, design.bucket_closures_binary64,
    design.cum_prob_binary64, design.projected_size_binary64, years_from_2025,
    process_closure_risk_binary64.cum_prob, process_closure_risk_binary64.projected_enr.
  destruct (Z.eqb_spec (snd bc) 0) as [Hc|Hc].
  - destruct (decide (snd bc <> 0)); [contradiction | reflexivity].
  - destruct (decide (snd bc <> 0)); [|contradiction].
    unfold design.state_rules_binary64, design.first_match. cbn [fst snd].
    destruct (Qltb (double (avg (fst bc) * double (1 - decline_ratio))) 100);
      [reflexivity|].
    destruct (Qltb (double (avg (fst bc) * double (1 - decline_ratio))) 200
              && Qgtb decline_ratio 0.25); [reflexivity|].
    destruct (Qgtb decline_ratio (double 0.10)); [reflexivity|].
    destruct (Qgtb decline_ratio (double 0.03)); reflexivity.
Qed.

Lemma bucket_loop_binary64 (avg : bucket_name -> Q) (decline_ratio : Q)
  (target_year : Z) (bs : list (bucket_name * Z)) (acc : Tally) :
  expected_closures
    (foldl (process_closure_risk_binary64.bucket_body pow avg decline_ratio
              (years_from_2025 target_year)) acc bs)
  = foldl (fun acc x => double (acc + x)) (expected_closures acc)
      (design.bucket_closures_binary64 pow design.state_rules_binary64
         process_closure_risk_binary64.large_stable avg decline_ratio
         (target_year - 2025)
       <$> filter (fun bc => snd bc <> 0) bs).
Proof.
  revert acc. induction bs as [|bc bs IH]; intros acc; [reflexivity|].
  cbn [foldl]. rewrite IH, bucket_body_binary64, filter_cons.
  destruct (decide (snd bc <> 0)); reflexivity.
Qed.

Lemma closure_body_binary64 (decline_ratio : Q) (years : Z) (acc : Q)
  (bc : bucket_name * Z) :
  process_cooper_center_binary64.closure_body pow decline_ratio years acc bc
  = if decide (snd bc <> 0)
    then double (acc
                 + design.bucket_closures_binary64 pow design.cooper_rules_binary64
                     process_cooper_center_binary64.large_stable
                     process_cooper_center.avg_enrollment decline_ratio years bc)
    else acc.
Proof.
  unfold process_cooper_center_binary64.closure_body, design.bucket_closures_binary64,
    design.cum_prob_binary64, design.projected_size_binary64,
    process_closure_risk_binary64.cum_prob, process_closure_risk_binary64.projected_enr.
  destruct (Z.eqb_spec (snd bc) 0) as [Hc|Hc].
  - destruct (decide (snd bc <> 0)); [contradiction | reflexivity].
  - destruct (decide (snd bc <> 0)); [|contradiction].
    unfold design.cooper_rules_binary64, design.first_match. cbn [fst snd].
    destruct (Qltb _ 100); [reflexivity|].
    destruct (Qltb _ 200 && Qgtb decline_ratio 0.25); [reflexivity|].
    destruct (Qgtb decline_ratio (double 0.10)).
    + destruct (Qltb _ 300); reflexivity.
    + rewrite andb_false_r. reflexivity.
Qed.

Lemma compute_closures_binary64 (decline_ratio : Q) (years : Z)
  (bs : list (bucket_name * Z)) (acc : Q) :
  foldl (process_cooper_center_binary64.closure_body pow decline_ratio years) acc bs
  = foldl (fun acc x => double (acc + x)) acc
      (design.bucket_closures_binary64 pow design.cooper_rules_binary64
         process_cooper_center_binary64.large_stable
         process_cooper_center.avg_enrollment decline_ratio years
       <$> filter (fun bc => snd bc <> 0) bs).
Proof.
  revert acc. induction bs as [|bc bs IH]; intros acc; [reflexivity|].
  cbn [foldl]. rewrite IH, closure_body_binary64, filter_cons.
  destruct (decide (snd bc <> 0)); reflexivity.
Qed.

End closure_scorer_binary64.

Section closure_scorer_claim.

Import process_closure_risk.

(** C2.  In both scorers, as they compute in double precision, the
    expected closures are the sum, over the buckets that have schools,
    of [count * cum], where [cum = 1 - (1 - p) ** max(years, 1)] and [p]
    is the probability of the first rule of the ordered table that
    holds at the projected size [avg_enrollment * (1 - ratio)] and the
    decline ratio, the background rate when none holds; every
    operation rounds to the nearest double, and the sum is taken in the
    order of the buckets.  The state-level scorer stores the sum
    rounded to one decimal.  This holds whatever the power function of
    the platform returns. *)
Theorem closure_probability_model (pow : Q -> Z -> Q) (schools : StateSchools)
  (scenario_data : gmap Z YearData) (target_year : Z)
  (decline_ratio : Q) (bs : list (bucket_name * Z)) (years_from_baseline : Z) :
  expected_closures
    (process_closure_risk_binary64.bucket_loop pow
       (process_closure_risk_binary64.avg_enrollment schools) decline_ratio
       (years_from_2025 target_year) (buckets schools))
  = design.expected_closures_binary64 pow design.state_rules_binary64
      process_closure_risk_binary64.large_stable
      (process_closure_risk_binary64.avg_enrollment schools) decline_ratio
      (target_year - 2025) (buckets schools)
  /\ key_expected_closures
       (process_closure_risk_binary64.estimate_year pow schools scenario_data target_year)
     = round_to
         (design.expected_closures_binary64 pow design.state_rules_binary64
            process_closure_risk_binary64.large_stable
            (process_closure_risk_binary64.avg_enrollment schools)
            (process_closure_risk_binary64.decline_ratio_of scenario_data target_year)
            (target_year - 2025) (buckets schools)) 1
  /\ process_cooper_center_binary64.compute_closures pow decline_ratio bs
       years_from_baseline
     = design.expected_closures_binary64 pow design.cooper_rules_binary64
         process_cooper_center_binary64.large_stable
         process_cooper_center.avg_enrollment decline_ratio years_from_baseline bs.
Proof.
  split; [|split].
  - unfold process_closure_risk_binary64.bucket_loop.
    rewrite bucket_loop_binary64. reflexivity.
  - unfold process_closure_risk_binary64.estimate_year. cbn [key_expected_closures].
    unfold process_closure_risk_binary64.bucket_loop.
    rewrite bucket_loop_binary64. reflexivity.
  - unfold process_cooper_center_binary64.compute_closures.
    rewrite compute_closures_binary64. reflexivity.
Qed.

(** A state with one school of 1000 pupils at a decline of 90 percent:
    the float [1000 * (1.0 - 0.9)] lies below 100, and the school falls
    under the first rule. *)
Example one_large_school :
  let schools :=
    {| total_schools := 1; total_enrollment := 1000; bucket_under100 := 0;
       bucket_100_199 := 0; bucket_200_299 := 0; bucket_300_499 := 0;
       bucket_500plus := 1 |} in
  let scenario_data : gmap Z YearData :=
    {[ 2025 := {| rate := 50; birth_decline_pct := 0;
                  key_post_2022_fraction := Some 1%Q;
                  key_enrollment_decline_pct := Some 90%Q |} ]} in
  let ratio := process_closure_risk_binary64.decline_ratio_of scenario_data 2025 in
  let size := process_closure_risk_binary64.projected_enr 1000 ratio in
  let e := process_closure_risk_binary64.estimate_year correctly_rounded_pow schools
             scenario_data 2025 in
  (size < 100)%Q
  /\ (design.first_match design.state_rules_binary64
        process_closure_risk_binary64.large_stable size ratio
      == process_closure_risk_binary64.tiny)%Q
  /\ (expected_closures_pct e == 4)%Q
  /\ schools_severe_risk e = 1.
Proof. vm_compute. repeat split; reflexivity. Qed.

(** Buckets of 120, 40, 20, 100 and 420 schools without decline, one
    year ahead: the float sum rounds to 9.1. *)
Example five_buckets_one_year :
  let schools :=
    {| total_schools := 700; total_enrollment := 400000; bucket_under100 := 120;
       bucket_100_199 := 40; bucket_200_299 := 20; bucket_300_499 := 100;
       bucket_500plus := 420 |} in
  (key_expected_closures
     (process_closure_risk_binary64.estimate_year correctly_rounded_pow schools ∅ 2025)
   == double 9.1)%Q.
Proof. vm_compute. reflexivity. Qed.

End closure_scorer_claim.

(** ** The order of the rows *)

Section row_order.

Context {A : Type} (zero : A) (add : Z -> Q -> A -> A) (keep_year : Z -> bool).

Implicit Types (county_data : gmap string (gmap Z A)) (fips : string) (year : Z).

Lemma lookup_store_eq county_data fips year a :
  store county_data fips year a !! fips ≫= lookup year = Some a.
Proof.
  unfold store. rewrite lookup_insert_eq. cbn [mbind option_bind].
  apply lookup_insert_eq.
Qed.

Lemma lookup_store_ne county_data fips year a fips' year' :
  (fips, year) <> (fips', year') ->
  store county_data fips year a !! fips' ≫= lookup year'
  = county_data !! fips' ≫= lookup year'.
Proof.
  intros Hne. unfold store.
  destruct (decide (fips = fips')) as [<-|Hf].
  - rewrite lookup_insert_eq. cbn [mbind option_bind].
    rewrite lookup_insert_ne by congruence.
    destruct (county_data !! fips); [reflexivity|]. cbn. apply lookup_empty.
  - now rewrite lookup_insert_ne by exact Hf.
Qed.

(** The accumulators of a county and year after the loop: the updates
    of its own rows, in their order, and of no other row. *)
Lemma for_each_rows_entry (rows : list Row) :
  forall county_data county_data',
    for_each (row_body zero add keep_year) rows county_data = Ok county_data' ->
    forall fips year,
      county_data' !! fips ≫= lookup year
      = match key_rows keep_year fips year rows with
        | [] => county_data !! fips ≫= lookup year
        | l => Some (foldl (fun a gv => add (fst gv) (snd gv) a)
                       (accumulators zero county_data fips year) l)
        end.
Proof.
  induction rows as [|r rows IH]; intros cd cd' Hrun fips year.
  - injection Hrun as <-. reflexivity.
  - cbn [for_each] in Hrun. rewrite row_body_outcome in Hrun.
    unfold key_rows. cbn [omap list_omap]. fold (key_rows keep_year fips year rows).
    destruct (row_outcome keep_year r) as [| |f y g v].
    + discriminate.
    + apply (IH _ _ Hrun).
    + rewrite (IH _ _ Hrun fips year). case_bool_decide as Hk.
      * destruct Hk as [-> ->]. cbn [foldl fst snd].
        rewrite accumulators_store_eq, lookup_store_eq.
        destruct (key_rows keep_year fips year rows); reflexivity.
      * rewrite lookup_store_ne, accumulators_store_ne
          by (intros [= -> ->]; tauto).
        reflexivity.
Qed.

Lemma read_rows_entry (rows : list Row) county_data fips year :
  read_rows zero add keep_year rows = Ok county_data ->
  county_data !! fips ≫= lookup year
  = match key_rows keep_year fips year rows with
    | [] => None
    | l => Some (foldl (fun a gv => add (fst gv) (snd gv) a) zero l)
    end.
Proof.
  intros Hrun. rewrite (for_each_rows_entry rows ∅ county_data Hrun fips year).
  unfold accumulators. rewrite lookup_empty. reflexivity.
Qed.

Lemma key_rows_permutation (rows rows' : list Row) fips year :
  rows ≡ₚ rows' -> key_rows keep_year fips year rows ≡ₚ key_rows keep_year fips year rows'.
Proof. intros H. unfold key_rows. now rewrite H. Qed.

Lemma fails_permutation (rows rows' : list Row) :
  rows ≡ₚ rows' ->
  Exists (fun r => row_outcome keep_year r = Fails) rows ->
  Exists (fun r => row_outcome keep_year r = Fails) rows'.
Proof. intros H. now rewrite H. Qed.

(** Two orders of the same rows end alike. *)
Lemma read_rows_order (rows rows' : list Row) :
  rows ≡ₚ rows' ->
  ends_alike keep_year rows rows'
    (read_rows zero add keep_year rows) (read_rows zero add keep_year rows').
Proof.
  intros Hperm. unfold ends_alike.
  pose proof (for_each_rows_result zero add keep_year rows ∅) as H1.
  pose proof (for_each_rows_result zero add keep_year rows' ∅) as H2.
  fold (read_rows zero add keep_year rows) in H1.
  fold (read_rows zero add keep_year rows') in H2.
  destruct (read_rows zero add keep_year rows) as [m|e] eqn:E1,
           (read_rows zero add keep_year rows') as [m'|e'] eqn:E2.
  - intros fips year.
    rewrite (read_rows_entry rows m fips year E1),
            (read_rows_entry rows' m' fips year E2).
    pose proof (key_rows_permutation rows rows' fips year Hperm) as Hk.
    split.
    + destruct (key_rows keep_year fips year rows) as [|x l],
               (key_rows keep_year fips year rows') as [|x' l'].
      * reflexivity.
      * now apply Permutation_nil_cons in Hk.
      * symmetry in Hk. now apply Permutation_nil_cons in Hk.
      * split; eauto.
    + now intros ->.
  - destruct H2 as [_ H2]. apply (fails_permutation rows' rows) in H2; [|now symmetry].
    apply Exists_exists in H2 as (r & Hin & Hr).
    rewrite Forall_forall in H1. now apply (H1 r Hin).
  - destruct H1 as [_ H1]. apply (fails_permutation rows rows' Hperm) in H1.
    apply Exists_exists in H1 as (r & Hin & Hr).
    rewrite Forall_forall in H2. now apply (H2 r Hin).
  - split; [apply H1 | apply H2].
Qed.

(** One accumulator of the record: a float to which the rows that
    [counts] takes are added. *)
Context (field : A -> Q) (counts : Z -> bool).
Hypothesis field_add : forall age_group value a,
  field (add age_group value a)
  = if counts age_group then double (field a + double value) else field a.

Lemma foldl_add_field (l : list (Z * Q)) (a : A) :
  field (foldl (fun a gv => add (fst gv) (snd gv) a) a l)
  = foldl (fun acc x => double (acc + x)) (field a) (added_floats counts l).
Proof.
  revert a. induction l as [|[g v] l IH]; intros a; [reflexivity|].
  cbn [foldl fst snd]. rewrite IH, field_add. unfold added_floats.
  rewrite filter_cons. cbn [fst].
  destruct (decide (counts g = true)) as [E|E].
  - rewrite E. reflexivity.
  - apply not_true_is_false in E. rewrite E. reflexivity.
Qed.

Lemma read_rows_float_sum (rows : list Row) county_data fips year (a : A) :
  field zero = 0%Q ->
  read_rows zero add keep_year rows = Ok county_data ->
  county_data !! fips ≫= lookup year = Some a ->
  field a = fsum (added_floats counts (key_rows keep_year fips year rows)).
Proof.
  intros Hz Hrun Ha. rewrite (read_rows_entry rows county_data fips year Hrun) in Ha.
  destruct (key_rows keep_year fips year rows) as [|x l] eqn:E; [discriminate|].
  apply (inj Some) in Ha. rewrite <- Ha, (foldl_add_field (x :: l) zero), Hz.
  reflexivity.
Qed.

(** The same accumulator after two orders of the same rows. *)
Lemma read_rows_sums_agree (rows rows' : list Row) county_data county_data' fips year
  (a a' : A) :
  field zero = 0%Q ->
  key_rows keep_year fips year rows ≡ₚ key_rows keep_year fips year rows' ->
  read_rows zero add keep_year rows = Ok county_data ->
  read_rows zero add keep_year rows' = Ok county_data' ->
  county_data !! fips ≫= lookup year = Some a ->
  county_data' !! fips ≫= lookup year = Some a' ->
  sums_agree (added_floats counts (key_rows keep_year fips year rows))
    (field a) (field a').
Proof.
  intros Hz Hk Hrun Hrun' Ha Ha'.
  rewrite (read_rows_float_sum rows county_data fips year a Hz Hrun Ha).
  rewrite (read_rows_float_sum rows' county_data' fips year a' Hz Hrun' Ha').
  split; [reflexivity|]. apply fsum_permutation.
  unfold added_floats. now rewrite Hk.
Qed.

End row_order.

(** C4, as the scripts behave.  On any two orderings of the same rows
    both row loops end alike: both raise [ValueError], or both return
    accumulators for the same counties and years.  Each accumulator is
    the chain of [+=] over the floats of its own rows in the order in
    which they are read; so the accumulators of a county and year are
    identical whenever its rows come in the same order, and in any two
    orders they differ by no more than the rounding of the two
    chains. *)
Theorem aggregation_order_up_to_rounding (rows rows' : list Row) :
  rows ≡ₚ rows' ->
  ends_alike process_data.keep_year rows rows'
    (process_data_binary64.read_hauer rows) (process_data_binary64.read_hauer rows')
  /\ ends_alike process_school_data.keep_year rows rows'
       (process_school_data_binary64.process_hauer_school_age rows)
       (process_school_data_binary64.process_hauer_school_age rows')
  /\ (forall county_data county_data' fips year a a',
        process_data_binary64.read_hauer rows = Ok county_data ->
        process_data_binary64.read_hauer rows' = Ok county_data' ->
        county_data !! fips ≫= lookup year = Some a ->
        county_data' !! fips ≫= lookup year = Some a' ->
        let l := key_rows process_data.keep_year fips year rows in
        sums_agree (added_floats (fun _ => true) l)
          (process_data.total a) (process_data.total a')
        /\ sums_agree (added_floats (fun age_group => 14 <=? age_group) l)
             (process_data.plus65 a) (process_data.plus65 a')
        /\ sums_agree (added_floats (fun age_group => 18 <=? age_group) l)
             (process_data.plus85 a) (process_data.plus85 a'))
  /\ (forall county_data county_data' fips year a a',
        process_school_data_binary64.process_hauer_school_age rows = Ok county_data ->
        process_school_data_binary64.process_hauer_school_age rows' = Ok county_data' ->
        county_data !! fips ≫= lookup year = Some a ->
        county_data' !! fips ≫= lookup year = Some a' ->
        let l := key_rows process_school_data.keep_year fips year rows in
        sums_agree (added_floats (fun _ => true) l)
          (process_school_data.total a) (process_school_data.total a')
        /\ sums_agree (added_floats (fun age_group => bool_decide (age_group ∈ [2; 3; 4])) l)
             (process_school_data.school_age a) (process_school_data.school_age a')).
Proof.
  intros Hperm. split; [|split; [|split]].
  - apply read_rows_order, Hperm.
  - apply read_rows_order, Hperm.
  - intros m m' fips year a a' Hrun Hrun' Ha Ha' l. subst l.
    pose proof (key_rows_permutation process_data.keep_year rows rows' fips year Hperm)
      as Hk.
    split; [|split];
      refine (read_rows_sums_agree process_data.zero process_data_binary64.add
                process_data.keep_year _ _ _ rows rows' m m' fips year a a'
                eq_refl Hk Hrun Hrun' Ha Ha');
      intros g v x; reflexivity.
  - intros m m' fips year a a' Hrun Hrun' Ha Ha' l. subst l.
    pose proof (key_rows_permutation process_school_data.keep_year rows rows' fips year
                  Hperm) as Hk.
    split;
      refine (read_rows_sums_agree process_school_data.zero
                process_school_data_binary64.add process_school_data.keep_year
                _ _ _ rows rows' m m' fips year a a' eq_refl Hk Hrun Hrun' Ha Ha');
      intros g v x; reflexivity.
Qed.

Lemma aggregation_order_up_to_rounding_witness :
  let r1 := {| YEAR := Parses 2030; STATE := "1"; COUNTY := "1"; AGE := Parses 15;
               SSP2 := Parses 10.5%Q |} in
  let r2 := {| YEAR := Parses 2030; STATE := "1"; COUNTY := "3"; AGE := Parses 3;
               SSP2 := Parses 0.1%Q |} in
  ends_alike process_data.keep_year [r1; r2] [r2; r1]
    (process_data_binary64.read_hauer [r1; r2])
    (process_data_binary64.read_hauer [r2; r1]).
Proof.
  intros r1 r2.
  apply (proj1 (aggregation_order_up_to_rounding [r1; r2] [r2; r1] (perm_swap r2 r1 []))).
Defined.

(** C4, as stated, fails: the sums depend on the order of the rows.
    Three rows of one county, year and age band with the values
    [2^53], 1 and 1 give the total [2^53] when the large value is read
    first and [2^53 + 2] when it is read last; the values 0.1, 0.2 and
    0.3 give 0.6000000000000001 in this order and 0.6 in the
    opposite one.  The school-age loop does the same. *)
Lemma aggregation_order_changes_sums :
  let row v := {| YEAR := Parses 2030; STATE := "1"; COUNTY := "1"; AGE := Parses 3;
                  SSP2 := Parses v |} in
  let rows := [row 9007199254740992%Q; row 1%Q; row 1%Q] in
  let rows' := [row 1%Q; row 1%Q; row 9007199254740992%Q] in
  let small := [row 0.1%Q; row 0.2%Q; row 0.3%Q] in
  let small' := [row 0.3%Q; row 0.2%Q; row 0.1%Q] in
  let total run :=
    match run with
    | Ok county_data =>
        Some (process_data.total (accumulators process_data.zero county_data "01001" 2030))
    | Raise _ => None
    end in
  let school_age run :=
    match run with
    | Ok county_data =>
        Some (process_school_data.school_age
                (accumulators process_school_data.zero county_data "01001" 2030))
    | Raise _ => None
    end in
  rows ≡ₚ rows' /\ small ≡ₚ small'
  /\ total (process_data_binary64.read_hauer rows) = Some 9007199254740992%Q
  /\ total (process_data_binary64.read_hauer rows') = Some 9007199254740994%Q
  /\ total (process_data_binary64.read_hauer small)
     = Some (5404319552844596 # 9007199254740992)%Q
  /\ total (process_data_binary64.read_hauer small')
     = Some (5404319552844595 # 9007199254740992)%Q
  /\ school_age (process_school_data_binary64.process_hauer_school_age rows)
     = Some 9007199254740992%Q
  /\ school_age (process_school_data_binary64.process_hauer_school_age rows')
     = Some 9007199254740994%Q.
Proof.
  intros row rows rows' small small' total school_age.
  split; [|split].
  - unfold rows, rows'. apply (Permutation_cons_append [row 1%Q; row 1%Q]).
  - unfold small, small'. symmetry.
    apply (reverse_Permutation [row 0.1%Q; row 0.2%Q; row 0.3%Q]).
  - repeat split; vm_compute; reflexivity.
Qed.

(** ** The county-level scorer *)

Section tiers_binary64.

Import process_school_data.

Context (hauer_data : gmap string (gmap Z Agg))
  (census_data : option (gmap string CensusCounty))
  (tps_multipliers : scenario -> gmap Z Q).

Lemma hauer_proj_sa_binary64_total (fips : string) (yr : Z) (baseline_sa : Q) :
  exists q, process_school_data_binary64.hauer_proj_sa hauer_data fips yr baseline_sa
            = Ok q.
Proof.
  unfold process_school_data_binary64.hauer_proj_sa.
  destruct (hauer_data !! fips) as [years_data|]; [|eauto].
  destruct (years_data !! yr); [eauto|].
  destruct (last _) as [y1|] eqn:Hl; [|eauto].
  destruct (head _) as [y2|] eqn:Hh; [|eauto].
  apply last_before_key in Hl as [[d1 H1] _].
  apply head_after_key in Hh as [[d2 H2] _].
  unfold subscript. rewrite H1, H2.
  destruct (y1 =? y2); eauto.
Qed.

Lemma demographic_binary64_total (demo : demo_source) (fips : string) (yr : Z)
  (baseline_sa : Q) :
  exists sa, process_school_data_binary64.demographic demo hauer_data census_data
               fips yr baseline_sa = Ok sa.
Proof.
  unfold process_school_data_binary64.demographic. destruct demo.
  - destruct (hauer_proj_sa_binary64_total fips yr baseline_sa) as [q ->]. cbn. eauto.
  - destruct (census_county census_data fips); eauto.
Qed.

(** The four counts after the school loop: every school goes to the
    tier of the county's decline. *)
Lemma school_loop_binary64_tier (ratio : Q) (school_list : list School) (acc : Tiers) :
  let t := foldl (process_school_data_binary64.school_body ratio) acc school_list in
  let pct := process_school_data_binary64.decline_pct ratio in
  let n := Z.of_nat (length school_list) in
  (green t, yellow t, orange t, red t)
  = if Qltb pct 10 then (green acc + n, yellow acc, orange acc, red acc)
    else if Qltb pct 25 then (green acc, yellow acc + n, orange acc, red acc)
    else if Qltb pct 50 then (green acc, yellow acc, orange acc + n, red acc)
    else (green acc, yellow acc, orange acc, red acc + n).
Proof.
  cbv zeta. revert acc. induction school_list as [|s l IH]; intros acc.
  - cbn [foldl length]. change (Z.of_nat 0) with 0. rewrite !Z.add_0_r.
    destruct (Qltb (process_school_data_binary64.decline_pct ratio) 10),
      (Qltb (process_school_data_binary64.decline_pct ratio) 25),
      (Qltb (process_school_data_binary64.decline_pct ratio) 50); reflexivity.
  - cbn [foldl length]. rewrite IH. unfold process_school_data_binary64.school_body.
    rewrite Nat2Z.inj_succ.
    destruct (Qltb (process_school_data_binary64.decline_pct ratio) 10),
      (Qltb (process_school_data_binary64.decline_pct ratio) 25),
      (Qltb (process_school_data_binary64.decline_pct ratio) 50);
      cbn [green yellow orange red];
      repeat match goal with |- (_, _) = (_, _) => apply f_equal2 end; lia.
Qed.

Lemma school_body_binary64_fields (ratio : Q) (acc : Tiers) (s : School) :
  let t := process_school_data_binary64.school_body ratio acc s in
  let pe := process_school_data_binary64.proj_enroll ratio s in
  projected_enrollment t = double (projected_enrollment acc + pe)
  /\ below_threshold t
     = if Qltb pe 100 then below_threshold acc + 1 else below_threshold acc.
Proof.
  cbv zeta. unfold process_school_data_binary64.school_body.
  destruct (Qltb (process_school_data_binary64.decline_pct ratio) 10),
    (Qltb (process_school_data_binary64.decline_pct ratio) 25),
    (Qltb (process_school_data_binary64.decline_pct ratio) 50); split; reflexivity.
Qed.

Lemma school_loop_binary64_below (ratio : Q) (school_list : list School) (acc : Tiers) :
  below_threshold (foldl (process_school_data_binary64.school_body ratio) acc school_list)
  = below_threshold acc
    + Z.of_nat (length (filter
                          (fun s => Qltb (process_school_data_binary64.proj_enroll ratio s)
                                      100 = true)
                          school_list)).
Proof.
  revert acc. induction school_list as [|s l IH]; intros acc.
  - cbn. lia.
  - cbn [foldl]. rewrite IH, filter_cons.
    rewrite (proj2 (school_body_binary64_fields ratio acc s)).
    destruct (decide (Qltb (process_school_data_binary64.proj_enroll ratio s) 100 = true))
      as [E|E].
    + rewrite E. cbn [length]. lia.
    + apply not_true_is_false in E. rewrite E. lia.
Qed.

Lemma school_loop_binary64_projected (ratio : Q) (school_list : list School)
  (acc : Tiers) :
  projected_enrollment
    (foldl (process_school_data_binary64.school_body ratio) acc school_list)
  = foldl (fun acc x => double (acc + x)) (projected_enrollment acc)
      (process_school_data_binary64.proj_enroll ratio <$> school_list).
Proof.
  revert acc. induction school_list as [|s l IH]; intros acc; [reflexivity|].
  cbn [foldl]. rewrite IH, fmap_cons. cbn [foldl].
  now rewrite (proj1 (school_body_binary64_fields ratio acc s)).
Qed.

(** X15.  For one county, source, scenario and year all schools land in
    the same tier, chosen by the decline that the script computes from
    the combined ratio, the float [(1 - combined_ratio) * 100]: green
    when it is below 10, yellow when below 25, orange when below 50,
    red otherwise.  Three of the four counts are zero and the fourth is
    the number of schools of the county. *)
Theorem year_risk_single_tier (baseline_sa : Q) (fips : string)
  (school_list : list School) (demo : demo_source) (sc : scenario) (yr : Z) :
  exists r sa,
    process_school_data_binary64.year_risk hauer_data census_data tps_multipliers
      baseline_sa fips school_list demo sc yr = Ok r
    /\ process_school_data_binary64.demographic demo hauer_data census_data fips yr
         baseline_sa = Ok sa
    /\ let ratio :=
         process_school_data_binary64.combined_ratio
           (process_school_data_binary64.demo_ratio (fst sa) (snd sa))
           (tps_mult tps_multipliers sc yr) in
       let pct := process_school_data_binary64.decline_pct ratio in
       let n := Z.of_nat (length school_list) in
       (schools_green r, schools_yellow r, schools_orange r, schools_red r)
       = if Qltb pct 10 then (n, 0, 0, 0)
         else if Qltb pct 25 then (0, n, 0, 0)
         else if Qltb pct 50 then (0, 0, n, 0)
         else (0, 0, 0, n).
Proof.
  unfold process_school_data_binary64.year_risk.
  destruct (demographic_binary64_total demo fips yr baseline_sa) as [sa Hsa].
  rewrite Hsa. cbn [mbind result_bind mret result_ret].
  eexists. exists sa. split; [reflexivity|]. split; [reflexivity|].
  cbv zeta. cbn [schools_green schools_yellow schools_orange schools_red].
  pose proof (school_loop_binary64_tier
                (process_school_data_binary64.combined_ratio
                   (process_school_data_binary64.demo_ratio sa.1 sa.2)
                   (tps_mult tps_multipliers sc yr))
                school_list no_tiers) as H.
  cbv zeta in H. rewrite H. cbn [no_tiers green yellow orange red].
  rewrite !Z.add_0_l. reflexivity.
Qed.

(** X16.  The other figures of a county, source, scenario and year, as
    the script computes them in double precision: the count below the
    threshold is the number of schools whose float
    [enrollment * combined_ratio] is under 100; the projected
    enrollment is the float sum of these products in the order of the
    schools, rounded to an integer; and the reported decline is
    [(1 - projected / total_enrollment) * 100] rounded to one decimal
    (0 for a county without enrollment). *)
Theorem year_risk_enrollment_figures (baseline_sa : Q) (fips : string)
  (school_list : list School) (demo : demo_source) (sc : scenario) (yr : Z) :
  exists r sa,
    process_school_data_binary64.year_risk hauer_data census_data tps_multipliers
      baseline_sa fips school_list demo sc yr = Ok r
    /\ process_school_data_binary64.demographic demo hauer_data census_data fips yr
         baseline_sa = Ok sa
    /\ let ratio :=
         process_school_data_binary64.combined_ratio
           (process_school_data_binary64.demo_ratio (fst sa) (snd sa))
           (tps_mult tps_multipliers sc yr) in
       let projected :=
         fsum (process_school_data_binary64.proj_enroll ratio <$> school_list) in
       let total_enrollment := total_enrollment_of school_list in
       schools_below_threshold r
       = Z.of_nat (length (filter
                             (fun s =>
                                Qltb (process_school_data_binary64.proj_enroll ratio s)
                                  100 = true)
                             school_list))
       /\ key_projected_enrollment r = round_half_even projected
       /\ pct_decline r
          = round_to (if 0 <? total_enrollment
                      then double (double (1 - double (projected
                                                       / inject_Z total_enrollment))
                                   * 100)
                      else 0)%Q 1.
Proof.
  unfold process_school_data_binary64.year_risk.
  destruct (demographic_binary64_total demo fips yr baseline_sa) as [sa Hsa].
  rewrite Hsa. cbn [mbind result_bind mret result_ret].
  eexists. exists sa. split; [reflexivity|]. split; [reflexivity|].
  cbv zeta. cbn [schools_below_threshold key_projected_enrollment pct_decline].
  rewrite school_loop_binary64_below, school_loop_binary64_projected.
  cbn [no_tiers below_threshold projected_enrollment].
  split; [lia|]. split; reflexivity.
Qed.

Lemma year_risk_binary64_tiers (baseline_sa : Q) (fips : string)
  (school_list : list School) (demo : demo_source) (sc : scenario) (yr : Z) :
  exists r,
    process_school_data_binary64.year_risk hauer_data census_data tps_multipliers
      baseline_sa fips school_list demo sc yr = Ok r
    /\ design.tiers_sum_to (Z.of_nat (length school_list)) r.
Proof.
  unfold process_school_data_binary64.year_risk.
  destruct (demographic_binary64_total demo fips yr baseline_sa) as [sa ->].
  cbn [mbind result_bind mret result_ret]. eexists. split; [reflexivity|].
  unfold design.tiers_sum_to.
  cbn [schools_green schools_yellow schools_orange schools_red].
  pose proof (school_loop_binary64_tier
                (process_school_data_binary64.combined_ratio
                   (process_school_data_binary64.demo_ratio sa.1 sa.2)
                   (tps_mult tps_multipliers sc yr))
                school_list no_tiers) as H.
  cbv zeta in H.
  set (ratio := process_school_data_binary64.combined_ratio _ _) in *.
  destruct (Qltb (process_school_data_binary64.decline_pct ratio) 10),
    (Qltb (process_school_data_binary64.decline_pct ratio) 25),
    (Qltb (process_school_data_binary64.decline_pct ratio) 50);
    injection H as -> -> -> ->; cbn [no_tiers green yellow orange red]; lia.
Qed.

End tiers_binary64.

(** A county whose school-age population falls from 100 to 90 at an
    unchanged share: the float [(1 - 0.9) * 100] lies below 10, and its
    schools are green. *)
Example ten_percent_is_green :
  let ratio :=
    process_school_data_binary64.combined_ratio
      (process_school_data_binary64.demo_ratio 90 100) 1 in
  (process_school_data_binary64.decline_pct ratio < 10)%Q.
Proof. vm_compute. reflexivity. Qed.

(** ** Tiers and tallies *)

Section tallies_binary64.

Import process_closure_risk.

Context (pow : Q -> Z -> Q).

Lemma bucket_body_binary64_tallies (avg : bucket_name -> Q) (decline_ratio : Q)
  (years : Z) (acc : Tally) (bc : bucket_name * Z) :
  let t := process_closure_risk_binary64.bucket_body pow avg decline_ratio years acc bc in
  (risk_severe t = risk_severe acc /\ risk_elevated t = risk_elevated acc)
  \/ (risk_severe t = risk_severe acc /\ risk_elevated t = risk_elevated acc + snd bc)
  \/ (risk_severe t = risk_severe acc + snd bc
      /\ risk_elevated t = risk_elevated acc + snd bc).
Proof.
  unfold process_closure_risk_binary64.bucket_body. destruct (snd bc =? 0); [tauto|].
  destruct (Qltb _ 100); [cbn; tauto|].
  destruct (Qltb _ 200 && Qgtb decline_ratio 0.25); [cbn; tauto|].
  destruct (Qgtb decline_ratio (double 0.10)); [cbn; tauto|].
  destruct (Qgtb decline_ratio (double 0.03)); cbn; tauto.
Qed.

Lemma bucket_loop_binary64_tallies (avg : bucket_name -> Q) (decline_ratio : Q)
  (years : Z) (bs : list (bucket_name * Z)) (acc : Tally) :
  Forall (fun bc => 0 <= snd bc) bs ->
  let t := foldl (process_closure_risk_binary64.bucket_body pow avg decline_ratio years)
             acc bs in
  risk_severe acc <= risk_severe t
  /\ risk_severe t - risk_severe acc <= risk_elevated t - risk_elevated acc
  /\ risk_elevated t - risk_elevated acc <= foldr Z.add 0 (snd <$> bs).
Proof.
  intros Hbs. revert acc. induction Hbs as [|bc bs Hbc _ IH]; intros acc.
  - cbn. lia.
  - cbn [foldl]. cbv zeta in IH.
    specialize (IH (process_closure_risk_binary64.bucket_body pow avg decline_ratio
                      years acc bc)).
    pose proof (bucket_body_binary64_tallies avg decline_ratio years acc bc) as Hstep.
    cbv zeta in Hstep. rewrite fmap_cons. cbn [foldr]. lia.
Qed.

Lemma estimate_year_binary64_tallies (schools : StateSchools)
  (scenario_data : gmap Z YearData) (target_year : Z) :
  design.counts_add_up schools ->
  let e := process_closure_risk_binary64.estimate_year pow schools scenario_data
             target_year in
  0 <= schools_severe_risk e <= schools_elevated_risk e
  /\ schools_elevated_risk e <= total_schools schools.
Proof.
  intros (H1 & H2 & H3 & H4 & H5 & Htot). cbv zeta.
  unfold process_closure_risk_binary64.estimate_year.
  cbn [schools_severe_risk schools_elevated_risk].
  unfold process_closure_risk_binary64.bucket_loop.
  pose proof (bucket_loop_binary64_tallies
                (process_closure_risk_binary64.avg_enrollment schools)
                (process_closure_risk_binary64.decline_ratio_of scenario_data target_year)
                (years_from_2025 target_year) (buckets schools)
                {| expected_closures := 0; risk_elevated := 0; risk_severe := 0 |})
    as H.
  cbv zeta in H. cbn [risk_severe risk_elevated] in H.
  assert (Hbs : Forall (fun bc => 0 <= snd bc) (buckets schools)).
  { unfold buckets. repeat constructor; assumption. }
  specialize (H Hbs).
  assert (Hsum : foldr Z.add 0 (snd <$> buckets schools)
                 = bucket_under100 schools + (bucket_100_199 schools
                   + (bucket_200_299 schools + (bucket_300_499 schools
                   + (bucket_500plus schools + 0))))) by reflexivity.
  rewrite Hsum in H. lia.
Qed.

End tallies_binary64.

Section tier_partition_claim.

Context (hauer_data : gmap string (gmap Z process_school_data.Agg))
  (census_data : option (gmap string process_school_data.CensusCounty))
  (tps_multipliers : process_school_data.scenario -> gmap Z Q).

(** C6, as the scripts behave.  In [assemble_risk_data], for every
    county, demographic source, scenario and target year and for any
    list of schools and any data (hence any decline ratio), the green,
    yellow, orange and red counts add up to the number of schools of
    the county, in double precision as in exact arithmetic: every
    school is put in exactly one tier; and every stored year of every
    scenario of every entry of the output adds up to the entry's
    [schools_total].  The two tallies of [estimate_closures] are not
    tiers: a school counted as severe is counted as elevated too, and
    for bucket counts that are not negative and add up to the number
    of schools of the state they satisfy
    [0 <= severe <= elevated <= total_schools]. *)
Theorem risk_tier_partition (pow : Q -> Z -> Q)
  (schools : list process_school_data.School)
  (county_baseline_sa : gmap string Q) (baseline_sa : Q) (fips : string)
  (school_list : list process_school_data.School)
  (demo : process_school_data.demo_source) (sc : process_school_data.scenario) (yr : Z)
  (state : process_closure_risk.StateSchools)
  (scenario_data : gmap Z process_closure_risk.YearData) (target_year : Z) :
  (exists r,
     process_school_data_binary64.year_risk hauer_data census_data tps_multipliers
       baseline_sa fips school_list demo sc yr = Ok r
     /\ process_school_data.schools_green r + process_school_data.schools_yellow r
        + process_school_data.schools_orange r + process_school_data.schools_red r
        = Z.of_nat (length school_list))
  /\ (exists r,
        process_school_data.year_risk hauer_data census_data tps_multipliers
          baseline_sa fips school_list demo sc yr = Ok r
        /\ process_school_data.schools_green r + process_school_data.schools_yellow r
           + process_school_data.schools_orange r + process_school_data.schools_red r
           = Z.of_nat (length school_list))
  /\ (exists output,
        process_school_data.assemble_risk_data schools hauer_data census_data
          tps_multipliers county_baseline_sa = Ok output
        /\ map_Forall (fun _ e => design.partitioned e) output)
  /\ (design.counts_add_up state ->
      let e := process_closure_risk_binary64.estimate_year pow state scenario_data
                 target_year in
      0 <= process_closure_risk.schools_severe_risk e
        <= process_closure_risk.schools_elevated_risk e
      /\ process_closure_risk.schools_elevated_risk e
         <= process_closure_risk.total_schools state).
Proof.
  split; [|split; [|split]].
  - apply year_risk_binary64_tiers.
  - apply year_risk_tiers.
  - apply assemble_risk_data_partitioned.
  - apply estimate_year_binary64_tallies.
Qed.

End tier_partition_claim.

Lemma risk_tier_partition_witness :
  let state :=
    {| process_closure_risk.total_schools := 2;
       process_closure_risk.total_enrollment := 720;
       process_closure_risk.bucket_under100 := 1;
       process_closure_risk.bucket_100_199 := 0;
       process_closure_risk.bucket_200_299 := 0;
       process_closure_risk.bucket_300_499 := 0;
       process_closure_risk.bucket_500plus := 1 |} in
  let e := process_closure_risk_binary64.estimate_year correctly_rounded_pow state ∅
             2030 in
  0 <= process_closure_risk.schools_severe_risk e
    <= process_closure_risk.schools_elevated_risk e
  /\ process_closure_risk.schools_elevated_risk e <= 2.
Proof.
  intros state e.
  apply (proj2 (proj2 (proj2
           (risk_tier_partition ∅ None (fun _ => ∅) correctly_rounded_pow [] ∅ 0
              "01001" [] process_school_data.hauer process_school_data.pre_hold 2030
              state ∅ 2030)))).
  unfold design.counts_add_up. cbn. lia.
Defined.

(** C6, as stated, fails for [estimate_closures]: in a state with one
    school under 100 pupils and one of 640, at a decline of 12 percent,
    the small school is counted under both tallies and the large one
    under the elevated tally, so the two tallies are 1 and 2 and add up
    to 3, not to the 2 schools of the state. *)
Lemma risk_tallies_overlap :
  let state :=
    {| process_closure_risk.total_schools := 2;
       process_closure_risk.total_enrollment := 720;
       process_closure_risk.bucket_under100 := 1;
       process_closure_risk.bucket_100_199 := 0;
       process_closure_risk.bucket_200_299 := 0;
       process_closure_risk.bucket_300_499 := 0;
       process_closure_risk.bucket_500plus := 1 |} in
  let scenario_data : gmap Z process_closure_risk.YearData :=
    {[ 2030 := {| process_closure_risk.rate := 60;
                  process_closure_risk.birth_decline_pct := 8;
                  process_closure_risk.key_post_2022_fraction := Some 0.231%Q;
                  process_closure_risk.key_enrollment_decline_pct := Some 12%Q |} ]} in
  let e := process_closure_risk_binary64.estimate_year correctly_rounded_pow state
             scenario_data 2030 in
  design.counts_add_up state
  /\ process_closure_risk.schools_severe_risk e = 1
  /\ process_closure_risk.schools_elevated_risk e = 2
  /\ process_closure_risk.schools_severe_risk e
     + process_closure_risk.schools_elevated_risk e
     <> process_closure_risk.total_schools state.
Proof.
  intros state scenario_data e.
  assert (Hs : process_closure_risk.schools_severe_risk e = 1) by (vm_compute; reflexivity).
  assert (He : process_closure_risk.schools_elevated_risk e = 2) by (vm_compute; reflexivity).
  split; [unfold design.counts_add_up; cbn; lia|].
  split; [exact Hs|]. split; [exact He|]. rewrite Hs, He. cbn. lia.
Qed.
